(** * paper-parse: the content-extraction heuristic pipeline

    A shallow embedding of the scripts that fetch, convert and filter the
    record files of the corpus, and the properties of the pipeline stated
    over it.

    Text is modelled as [string]; a character is a code point in
    U+0000..U+00FF.  The file system is a finite map from paths to file
    contents, each as it was written; a script that opens a file in text
    mode sees it through [Py.read_text].  External collaborators (HTTP
    client, HTML parsers, PDF libraries) are section variables. *)

From Stdlib Require Import String Ascii List Bool Arith Lia.
From Stdlib Require Import Strings.Byte DecimalString.
From stdpp Require Import gmap strings.

(* ===================================================================== *)
(** * Python string primitives *)
(* ===================================================================== *)

Module Py.

Definition nl : ascii := "010"%char.
Definition NL : string := String nl "".
Definition cr : ascii := "013"%char.

(** [c.isspace()] for a code point below 256. *)
Definition isspace (c : ascii) : bool :=
  let n := nat_of_ascii c in
  ((9 <=? n) && (n <=? 13)) || ((28 <=? n) && (n <=? 32))
  || (n =? 133) || (n =? 160).

(** [c.lower()] for a code point below 256. *)
Definition lower_char (c : ascii) : ascii :=
  let n := nat_of_ascii c in
  if ((65 <=? n) && (n <=? 90))
     || ((192 <=? n) && (n <=? 214))
     || ((216 <=? n) && (n <=? 222))
  then ascii_of_nat (n + 32) else c.

(** [c.upper()] on the ASCII letters; the scripts apply it to the tag
    names h1..h6 only. *)
Definition upper_char (c : ascii) : ascii :=
  let n := nat_of_ascii c in
  if (97 <=? n) && (n <=? 122) then ascii_of_nat (n - 32) else c.

Fixpoint map_str (f : ascii -> ascii) (s : string) : string :=
  match s with
  | EmptyString => EmptyString
  | String c s' => String (f c) (map_str f s')
  end.

Definition lower : string -> string := map_str lower_char.
Definition upper : string -> string := map_str upper_char.

Definition len : string -> nat := String.length.

(** [s.startswith(p)] *)
Fixpoint startswith (s p : string) {struct p} : bool :=
  match p with
  | EmptyString => true
  | String b p' =>
      match s with
      | EmptyString => false
      | String a s' => Ascii.eqb a b && startswith s' p'
      end
  end.

(** [sub in s] *)
Fixpoint contains (sub s : string) : bool :=
  startswith s sub ||
  match s with
  | EmptyString => false
  | String _ s' => contains sub s'
  end.

(** [c in s] for a single character [c]. *)
Fixpoint has_char (c : ascii) (s : string) : bool :=
  match s with
  | EmptyString => false
  | String a s' => Ascii.eqb a c || has_char c s'
  end.

Definition endswith (s p : string) : bool :=
  String.eqb (String.substring (len s - len p) (len p) s) p
  && (len p <=? len s).

(** [s.lstrip()], [s.rstrip()], [s.strip()] *)
Fixpoint lstrip (s : string) : string :=
  match s with
  | EmptyString => EmptyString
  | String c s' => if isspace c then lstrip s' else s
  end.

Fixpoint rstrip (s : string) : string :=
  match s with
  | EmptyString => EmptyString
  | String c s' =>
      match rstrip s' with
      | EmptyString => if isspace c then EmptyString else String c EmptyString
      | r => String c r
      end
  end.

Definition strip (s : string) : string := rstrip (lstrip s).

(** [s.rstrip(c)] for a one-character argument. *)
Fixpoint rstrip_char (c : ascii) (s : string) : string :=
  match s with
  | EmptyString => EmptyString
  | String a s' =>
      match rstrip_char c s' with
      | EmptyString => if Ascii.eqb a c then EmptyString else String a EmptyString
      | r => String a r
      end
  end.

(** [sep.join(l)] *)
Fixpoint join (sep : string) (l : list string) : string :=
  match l with
  | [] => EmptyString
  | [x] => x
  | x :: l' => x +:+ sep +:+ join sep l'
  end.

(** [s.split(c)] for a one-character separator: never empty. *)
Fixpoint split (c : ascii) (s : string) : list string :=
  match s with
  | EmptyString => [EmptyString]
  | String a s' =>
      if Ascii.eqb a c then EmptyString :: split c s'
      else match split c s' with
           | h :: t => String a h :: t
           | [] => [String a EmptyString]
           end
  end.

(** [s.split(c, maxsplit)] *)
Fixpoint split_max (c : ascii) (maxsplit : nat) (s : string) : list string :=
  match maxsplit with
  | 0 => [s]
  | S m =>
      match s with
      | EmptyString => [EmptyString]
      | String a s' =>
          if Ascii.eqb a c then EmptyString :: split_max c m s'
          else match split_max c maxsplit s' with
               | h :: t => String a h :: t
               | [] => [String a EmptyString]
               end
      end
  end.

(** What [open(path, 'r')] hands to [f.read()] and [f.readlines()] of the
    characters of a file: in text mode a carriage return followed by a
    newline, and a carriage return alone, arrive as one newline. *)
Fixpoint read_text (s : string) : string :=
  match s with
  | EmptyString => EmptyString
  | String a s' =>
      if Ascii.eqb a cr
      then String nl
             match s' with
             | String b s'' =>
                 if Ascii.eqb b nl then read_text s'' else read_text s'
             | EmptyString => EmptyString
             end
      else String a (read_text s')
  end.

(** [f.readlines()], of the text as [read_text] gives it: the lines of
    the text, each cut after its newline and keeping it. *)
Fixpoint readlines (s : string) : list string :=
  match s with
  | EmptyString => []
  | String a s' =>
      if Ascii.eqb a nl then String a EmptyString :: readlines s'
      else match readlines s' with
           | h :: t => String a h :: t
           | [] => [String a EmptyString]
           end
  end.

(** [s.split()]: the maximal runs of non-whitespace characters. *)
Fixpoint words_go (cur : option string) (s : string) : list string :=
  match s with
  | EmptyString => match cur with Some w => [String.rev w] | None => [] end
  | String a s' =>
      if isspace a
      then match cur with
           | Some w => String.rev w :: words_go None s'
           | None => words_go None s'
           end
      else match cur with
           | Some w => words_go (Some (String a w)) s'
           | None => words_go (Some (String a EmptyString)) s'
           end
  end.

Definition words : string -> list string := words_go None.

(** [s.replace(old, new)] for a non-empty [old]: [skip] characters of
    an occurrence already replaced are still to be passed over. *)
Fixpoint replace_go (old new : string) (skip : nat) (s : string) : string :=
  match s with
  | EmptyString => EmptyString
  | String c s' =>
      match skip with
      | S k => replace_go old new k s'
      | 0 =>
          if startswith s old
          then new +:+ replace_go old new (len old - 1) s'
          else String c (replace_go old new 0 s')
      end
  end.

Definition replace (s old new : string) : string := replace_go old new 0 s.

(** [c * n] *)
Fixpoint repeat_char (c : ascii) (n : nat) : string :=
  match n with
  | 0 => EmptyString
  | S k => String c (repeat_char c k)
  end.

(** [any(w in s for w in ws)] *)
Definition any_in (ws : list string) (s : string) : bool :=
  existsb (fun w => contains w s) ws.

(** Truthiness of a string. *)
Definition nonempty (s : string) : bool :=
  match s with EmptyString => false | _ => true end.

(** [str(n)] for a natural number. *)
Definition str_of_nat (n : nat) : string :=
  NilEmpty.string_of_uint (Nat.to_uint n).

End Py.

(* ===================================================================== *)
(** * Regular expressions *)
(* ===================================================================== *)

(** The patterns of the scripts are sequences of single-character atoms,
    repetitions of a single-character atom, capture-group parentheses
    (never nested, never repeated) and the anchors [^] and [$].  Matching
    is by backtracking in priority order, as in Python's [re]: a greedy
    repetition first tries to take one more character, a lazy one first
    tries to stop.  Every pattern of the scripts consumes at least one
    character, so no match is empty. *)

Module Re.

Inductive citem :=
| CChr (c : ascii)          (* a character *)
| CRange (lo hi : ascii)    (* lo-hi *)
| CSpace                    (* \s *)
| CWord.                    (* \w *)

Inductive cset :=
| Lit (c : ascii)           (* a literal character *)
| Dot                       (* .  : anything but a newline *)
| Space                     (* \s *)
| Cls (items : list citem)  (* [...]  *)
| NCls (items : list citem) (* [^...] *).

Inductive atom :=
| One (cs : cset)
| Rep (cs : cset) (lo : nat) (hi : option nat) (greedy : bool)
| Open                      (* ( *)
| Close                     (* ) *)
| Bol                       (* ^ *)
| Eol                       (* $ *).

Definition regex := list atom.

(** [\w] on code points below 256: [isalnum()] or the underscore. *)
Definition isword (c : ascii) : bool :=
  let n := nat_of_ascii c in
  ((48 <=? n) && (n <=? 57)) || ((65 <=? n) && (n <=? 90))
  || (n =? 95) || ((97 <=? n) && (n <=? 122))
  || (n =? 170) || (n =? 178) || (n =? 179) || (n =? 181)
  || (n =? 185) || (n =? 186) || ((188 <=? n) && (n <=? 190))
  || ((192 <=? n) && (n <=? 214)) || ((216 <=? n) && (n <=? 246))
  || ((248 <=? n) && (n <=? 255)).

Definition citem_mem (i : citem) (c : ascii) : bool :=
  match i with
  | CChr a => Ascii.eqb c a
  | CRange lo hi =>
      (nat_of_ascii lo <=? nat_of_ascii c) && (nat_of_ascii c <=? nat_of_ascii hi)
  | CSpace => Py.isspace c
  | CWord => isword c
  end.

Definition cs_mem (cs : cset) (c : ascii) : bool :=
  match cs with
  | Lit a => Ascii.eqb c a
  | Dot => negb (Ascii.eqb c Py.nl)
  | Space => Py.isspace c
  | Cls items => existsb (fun i => citem_mem i c) items
  | NCls items => negb (existsb (fun i => citem_mem i c) items)
  end.

(** A literal string as a pattern. *)
Fixpoint lits (s : string) : regex :=
  match s with
  | EmptyString => []
  | String c s' => One (Lit c) :: lits s'
  end.

(** A match is the sequence of the characters it consumed, with the
    places where a group opened and closed. *)
Inductive tok := TChr (c : ascii) | TOpen | TClose.

Definition mres : Type := list tok * string.

Definition push (t : tok) (r : option mres) : option mres :=
  match r with
  | Some (ts, rest) => Some (t :: ts, rest)
  | None => None
  end.

Definition hi_allows (hi : option nat) : bool :=
  match hi with Some 0 => false | _ => true end.

Definition hi_pred (hi : option nat) : option nat :=
  match hi with Some n => Some (pred n) | None => None end.

(** [rep k cs lo hi greedy prev s]: between [lo] and [hi] characters of
    [cs] at the head of [s], then the continuation [k]. *)
Fixpoint rep (k : option ascii -> string -> option mres)
    (cs : cset) (lo : nat) (hi : option nat) (greedy : bool)
    (prev : option ascii) (s : string) {struct s} : option mres :=
  let stop := match lo with 0 => k prev s | S _ => None end in
  match s with
  | EmptyString => stop
  | String c s' =>
      if cs_mem cs c && hi_allows hi then
        let more :=
          push (TChr c) (rep k cs (pred lo) (hi_pred hi) greedy (Some c) s') in
        if greedy
        then match more with Some r => Some r | None => stop end
        else match stop with Some r => Some r | None => more end
      else stop
  end.

Definition at_bol (multiline : bool) (prev : option ascii) : bool :=
  match prev with
  | None => true
  | Some c => multiline && Ascii.eqb c Py.nl
  end.

Definition at_eol (multiline : bool) (s : string) : bool :=
  match s with
  | EmptyString => true
  | String c EmptyString => Ascii.eqb c Py.nl
  | String c _ => multiline && Ascii.eqb c Py.nl
  end.

(** [run ml p prev s]: match [p] at the head of [s], where [prev] is the
    character before [s] in the subject ([None] at its start). *)
Fixpoint run (ml : bool) (p : regex) (prev : option ascii) (s : string)
    {struct p} : option mres :=
  match p with
  | [] => Some ([], s)
  | a :: p' =>
      match a with
      | One cs =>
          match s with
          | EmptyString => None
          | String c s' =>
              if cs_mem cs c then push (TChr c) (run ml p' (Some c) s')
              else None
          end
      | Rep cs lo hi g => rep (run ml p') cs lo hi g prev s
      | Open => push TOpen (run ml p' prev s)
      | Close => push TClose (run ml p' prev s)
      | Bol => if at_bol ml prev then run ml p' prev s else None
      | Eol => if at_eol ml s then run ml p' prev s else None
      end
  end.

(** The text of a match, and the texts of its groups. *)
Fixpoint text (ts : list tok) : string :=
  match ts with
  | [] => EmptyString
  | TChr c :: ts' => String c (text ts')
  | _ :: ts' => text ts'
  end.

Fixpoint until_close (ts : list tok) : string :=
  match ts with
  | TChr c :: ts' => String c (until_close ts')
  | _ => EmptyString
  end.

Fixpoint groups (ts : list tok) : list string :=
  match ts with
  | [] => []
  | TOpen :: ts' => until_close ts' :: groups ts'
  | _ :: ts' => groups ts'
  end.

(** [re.match(p, s)] *)
Definition match_ (ml : bool) (p : regex) (s : string) : option (list tok) :=
  match run ml p None s with
  | Some (ts, _) => Some ts
  | None => None
  end.

(** [re.search(p, s)]: the leftmost match. *)
Fixpoint search_from (ml : bool) (p : regex) (prev : option ascii) (s : string)
    : option (list tok) :=
  match run ml p prev s with
  | Some (ts, _) => Some ts
  | None =>
      match s with
      | EmptyString => None
      | String c s' => search_from ml p (Some c) s'
      end
  end.

Definition search (ml : bool) (p : regex) (s : string) : option (list tok) :=
  search_from ml p None s.

(** The subject cut into its successive non-overlapping matches and the
    characters between them; [skip] characters of the last match are
    still to be passed over. *)
Inductive piece := PChr (c : ascii) | PMatch (ts : list tok).

Fixpoint scan (ml : bool) (p : regex) (skip : nat) (prev : option ascii)
    (s : string) : list piece :=
  match skip with
  | S k =>
      match s with
      | EmptyString => []
      | String c s' => scan ml p k (Some c) s'
      end
  | 0 =>
      match run ml p prev s with
      | Some (ts, _) =>
          PMatch ts ::
          match s with
          | EmptyString => []
          | String c s' =>
              match Py.len (text ts) with
              | 0 => PChr c :: scan ml p 0 (Some c) s'
              | S n => scan ml p n (Some c) s'
              end
          end
      | None =>
          match s with
          | EmptyString => []
          | String c s' => PChr c :: scan ml p 0 (Some c) s'
          end
      end
  end.

(** A replacement template: literal text and group references [\n]. *)
Inductive titem := TLit (s : string) | TGroup (n : nat).

Definition expand_item (ts : list tok) (i : titem) : string :=
  match i with
  | TLit s => s
  | TGroup n => nth (n - 1) (groups ts) EmptyString
  end.

Fixpoint expand (tmpl : list titem) (ts : list tok) : string :=
  match tmpl with
  | [] => EmptyString
  | i :: tmpl' => expand_item ts i +:+ expand tmpl' ts
  end.

(** [re.sub(p, tmpl, s, count)]; [count = None] replaces every match. *)
Fixpoint subst (tmpl : list titem) (count : option nat) (ps : list piece)
    : string :=
  match ps with
  | [] => EmptyString
  | PChr c :: ps' => String c (subst tmpl count ps')
  | PMatch ts :: ps' =>
      match count with
      | Some 0 => text ts +:+ subst tmpl count ps'
      | _ => expand tmpl ts +:+ subst tmpl (hi_pred count) ps'
      end
  end.

Definition sub_count (ml : bool) (p : regex) (tmpl : list titem)
    (count : option nat) (s : string) : string :=
  subst tmpl count (scan ml p 0 None s).

Definition sub (p : regex) (tmpl : list titem) (s : string) : string :=
  sub_count false p tmpl None s.

Definition sub_multiline (p : regex) (tmpl : list titem) (s : string) : string :=
  sub_count true p tmpl None s.

(** [re.findall(p, s)]: the matches, left to right. *)
Fixpoint matches (ps : list piece) : list (list tok) :=
  match ps with
  | [] => []
  | PChr _ :: ps' => matches ps'
  | PMatch ts :: ps' => ts :: matches ps'
  end.

Definition findall (p : regex) (s : string) : list (list tok) :=
  matches (scan false p 0 None s).

Definition plus (cs : cset) : atom := Rep cs 1 None true.
Definition star (cs : cset) : atom := Rep cs 0 None true.
Definition star_lazy (cs : cset) : atom := Rep cs 0 None false.
Definition opt (cs : cset) : atom := Rep cs 0 (Some 1) true.

End Re.

(** The markdown patterns shared by the filter passes. *)
Module Patterns.
Import Re.

(** [\[([^\]]+)\]\([^)]*\)] *)
Definition link : regex :=
  [One (Lit "["); Open; plus (NCls [CChr "]"]); Close; One (Lit "]");
   One (Lit "("); star (NCls [CChr ")"]); One (Lit ")")].

(** [!\[.*?\]\([^)]*\)] *)
Definition image : regex :=
  [One (Lit "!"); One (Lit "["); star_lazy Dot; One (Lit "]");
   One (Lit "("); star (NCls [CChr ")"]); One (Lit ")")].

(** [\*\*([^*]+)\*\*] *)
Definition bold_star : regex :=
  [One (Lit "*"); One (Lit "*"); Open; plus (NCls [CChr "*"]); Close;
   One (Lit "*"); One (Lit "*")].

(** [__([^_]+)__] *)
Definition bold_under : regex :=
  [One (Lit "_"); One (Lit "_"); Open; plus (NCls [CChr "_"]); Close;
   One (Lit "_"); One (Lit "_")].

(** [^[\s\[\]\-\*\(\)]+$] *)
Definition symbols_only : regex :=
  [Bol;
   plus (Cls [CSpace; CChr "["; CChr "]"; CChr "-"; CChr "*"; CChr "("; CChr ")"]);
   Eol].

End Patterns.

(* ===================================================================== *)
(** * The record header, as the filter passes re-parse it *)
(* ===================================================================== *)

Module Header.
Import Py.

Definition is_url_line (line : string) : bool :=
  startswith line "Source URL:" || startswith line "Final URL:".

(** ['=' * 10 in line] *)
Definition has_separator (line : string) : bool :=
  contains (repeat_char "=" 10) line.

(** The metadata loop of [extract_substance] (extract_substance.py and
    final_extract.py have the same one): URL lines are collected,
    right-stripped, until the first separator line; [body_start] stays 0
    when there is none. [i] is the index of the head of [lines]. *)
Fixpoint scan (lines : list string) (i : nat) (metadata_lines : list string)
    : list string * nat :=
  match lines with
  | [] => (metadata_lines, 0)
  | line :: rest =>
      if is_url_line line
      then scan rest (S i) (metadata_lines ++ [rstrip line])
      else if has_separator line then (metadata_lines, S i)
      else scan rest (S i) metadata_lines
  end.

(** The reconstruction both scripts end with. *)
Definition rebuild (metadata_lines content_lines : list string) : string :=
  join NL metadata_lines +:+ NL +:+ repeat_char "=" 80 +:+ NL +:+ NL
  +:+ join NL content_lines.

End Header.

(* ===================================================================== *)
(** * extract_substance.py: the base substance filter *)
(* ===================================================================== *)

Module ExtractSubstance.
Import Py.

Definition nav_words : list string :=
  ["menu"; "navigation"; "breadcrumb"; "sidebar"; "footer";
   "advertisement"; "subscribe"; "follow us"; "contact us";
   "cookie"; "privacy"; "terms"; "sign in"; "log in"].

(** The markdown cleanup of a kept line, in the order of the script. *)
Definition clean_markdown (stripped : string) : string :=
  let stripped := Re.sub Patterns.link [Re.TGroup 1] stripped in
  let stripped := Re.sub Patterns.image [] stripped in
  let stripped := Re.sub Patterns.bold_star [Re.TGroup 1] stripped in
  let stripped := Re.sub Patterns.bold_under [Re.TGroup 1] stripped in
  stripped.

(** One turn of the body loop: [None] is [continue] (or falling out of
    the last [if]), [Some l] is [content_lines.append(l)]. *)
Definition keep_line (line : string) : option string :=
  let stripped := strip line in
  if negb (nonempty stripped) then None
  else if len stripped <? 3 then None
  else if bool_decide (is_Some (Re.match_ false Patterns.symbols_only stripped))
  then None
  else if any_in nav_words (lower stripped) && (len stripped <? 30) then None
  else if any_in ["."; "!"; "?"; "#"; "`"] stripped || (20 <? len stripped)
  then Some (clean_markdown stripped)
  else None.

Fixpoint filter_body (lines : list string) : list string :=
  match lines with
  | [] => []
  | line :: rest =>
      match keep_line line with
      | Some l => l :: filter_body rest
      | None => filter_body rest
      end
  end.

(** What [extract_substance] writes back, from what it read. *)
Definition output (content : string) : string :=
  let lines := readlines content in
  let '(metadata_lines, body_start) := Header.scan lines 0 [] in
  let content_lines := filter_body (drop body_start lines) in
  Header.rebuild metadata_lines content_lines.

Definition extract_substance (fs : gmap string string) (file_path : string)
    : option (gmap string string) :=
  match fs !! file_path with
  | Some stored => Some (<[file_path := output (read_text stored)]> fs)
  | None => None
  end.

End ExtractSubstance.

(* ===================================================================== *)
(** * final_extract.py: the stricter variant *)
(* ===================================================================== *)

Module FinalExtract.
Import Py.

Definition junk_words : list string :=
  ["linkedin"; "reddit"; "facebook"; "twitter"; "email";
   "subscribe"; "sign in"; "log in"; "manage cookies";
   "privacy"; "cookie"; "terms of use"].

(** [[a-zA-Z]] *)
Definition letter : Re.regex :=
  [Re.One (Re.Cls [Re.CRange "a" "z"; Re.CRange "A" "Z"])].

(** [[)(]{}\[\]]+]: the class closes at the first [[]]], so the pattern
    is one parenthesis, the four characters [{}[]], then one or more
    closing brackets. *)
Definition symbols : Re.regex :=
  [Re.One (Re.Cls [Re.CChr ")"; Re.CChr "("]);
   Re.One (Re.Lit "{"); Re.One (Re.Lit "}");
   Re.One (Re.Lit "["); Re.One (Re.Lit "]");
   Re.plus (Re.Lit "]")].

Definition symbol_count (line : string) : nat :=
  List.length (Re.findall symbols line).

(** [symbol_count > len(words) / 2] is decided on the doubled count. *)
Definition is_real_sentence (line : string) : bool :=
  if negb (bool_decide (is_Some (Re.search false letter line))) then false
  else
    let words := words line in
    if List.length words <? 3 then false
    else if any_in junk_words (lower line) then false
    else if contains "http" line && contains "://" line then false
    else if List.length words <? 2 * symbol_count line then false
    else true.

Definition keep_line (line : string) : option string :=
  let stripped := strip line in
  if negb (nonempty stripped) || (len stripped <? 3) then None
  else if startswith stripped "#" then Some stripped
  else if contains "```" stripped || startswith stripped "def "
          || startswith stripped "class "
  then Some stripped
  else if is_real_sentence stripped then
    let stripped := Re.sub Patterns.link [Re.TGroup 1] stripped in
    let stripped := Re.sub Patterns.image [] stripped in
    Some stripped
  else None.

Fixpoint filter_body (lines : list string) : list string :=
  match lines with
  | [] => []
  | line :: rest =>
      match keep_line line with
      | Some l => l :: filter_body rest
      | None => filter_body rest
      end
  end.

Definition output (content : string) : string :=
  let lines := readlines content in
  let '(metadata_lines, body_start) := Header.scan lines 0 [] in
  let content_lines := filter_body (drop body_start lines) in
  Header.rebuild metadata_lines content_lines.

Definition extract_substance (fs : gmap string string) (file_path : string)
    : option (gmap string string) :=
  match fs !! file_path with
  | Some stored => Some (<[file_path := output (read_text stored)]> fs)
  | None => None
  end.

End FinalExtract.

(* ===================================================================== *)
(** * polish_files.py *)
(* ===================================================================== *)

Module PolishFiles.
Import Py Re.

(** [!\[.*?\]\(.*?\)] *)
Definition image : regex :=
  [One (Lit "!"); One (Lit "["); star_lazy Dot; One (Lit "]");
   One (Lit "("); star_lazy Dot; One (Lit ")")].

(** The link pattern, with the target captured as a second group. *)
Definition link : regex :=
  [One (Lit "["); Open; plus (NCls [CChr "]"]); Close; One (Lit "]");
   One (Lit "("); Open; star (NCls [CChr ")"]); Close; One (Lit ")")].

(** [\*([^*]+)\*], [_([^_]+)_] and [`([^`]+)`] *)
Definition wrapped (c : ascii) : regex :=
  [One (Lit c); Open; plus (NCls [CChr c]); Close; One (Lit c)].

(** [^\]\(], [^\|$], [^---$] and [^#+\s*$], all with [re.MULTILINE] *)
Definition orphan_link : regex := [Bol; One (Lit "]"); One (Lit "(")].
Definition stray_bar : regex := [Bol; One (Lit "|"); Eol].
Definition stray_rule : regex :=
  [Bol; One (Lit "-"); One (Lit "-"); One (Lit "-"); Eol].
Definition empty_header : regex := [Bol; plus (Lit "#"); star Space; Eol].

(** [ +] and [\n\s*\n\s*\n\s*\n+] *)
Definition spaces : regex := [plus (Lit " ")].
Definition blank_lines : regex :=
  [One (Lit nl); star Space; One (Lit nl); star Space; One (Lit nl);
   star Space; plus (Lit nl)].

(** [header_lines = i + 2] for the last line [i] that looks like a
    header or separator line. *)
Fixpoint header_lines_from (lines : list string) (i header_lines : nat) : nat :=
  match lines with
  | [] => header_lines
  | line :: rest =>
      header_lines_from rest (S i)
        (if Header.is_url_line line || Header.has_separator line
         then i + 2 else header_lines)
  end.

Definition polish_body (body : string) : string :=
  let body := sub image [] body in
  let body := sub link [TGroup 1] body in
  let body := sub Patterns.bold_star [TGroup 1] body in
  let body := sub Patterns.bold_under [TGroup 1] body in
  let body := sub (wrapped "*") [TGroup 1] body in
  let body := sub (wrapped "_") [TGroup 1] body in
  let body := sub (wrapped "`") [TGroup 1] body in
  let body := sub_multiline orphan_link [] body in
  let body := sub_multiline stray_bar [] body in
  let body := sub_multiline stray_rule [] body in
  let body := sub_multiline empty_header [] body in
  let body := sub spaces [TLit " "] body in
  let body := sub blank_lines [TLit (NL +:+ NL)] body in
  strip body.

Definition output (content : string) : string :=
  let lines := split nl content in
  let header_lines := header_lines_from lines 0 0 in
  let metadata := join NL (take header_lines lines) in
  let body := join NL (drop header_lines lines) in
  rstrip metadata +:+ NL +:+ NL +:+ polish_body body.

Definition polish_file (fs : gmap string string) (file_path : string)
    : option (gmap string string) :=
  match fs !! file_path with
  | Some stored => Some (<[file_path := output (read_text stored)]> fs)
  | None => None
  end.

End PolishFiles.

(* ===================================================================== *)
(** * convert_html_to_clean_text.py *)
(* ===================================================================== *)

Module ConvertHtml.
Import Py.

Record metadata := { source_url : option string; final_url : option string }.

Definition extract_metadata_step (md : metadata) (line : string) : metadata :=
  if startswith line "Source URL:"
  then {| source_url := Some (strip (replace line "Source URL:" ""));
          final_url := final_url md |}
  else if startswith line "Final URL:"
  then {| source_url := source_url md;
          final_url := Some (strip (replace line "Final URL:" "")) |}
  else md.

(** [extract_metadata]: the first five of the lines given by
    [content.split('\n', 10)]. *)
Definition extract_metadata (content : string) : metadata :=
  fold_left extract_metadata_step (take 5 (split_max nl 10 content))
    {| source_url := None; final_url := None |}.

(** [metadata_end = i + 1] for the last line [i] that starts with a URL
    prefix or with [=]. *)
Fixpoint metadata_end_from (lines : list string) (i metadata_end : nat) : nat :=
  match lines with
  | [] => metadata_end
  | line :: rest =>
      metadata_end_from rest (S i)
        (if Header.is_url_line line || startswith line "="
         then i + 1 else metadata_end)
  end.

(** The loop over the lines of the text: stripped lines, runs of empty
    lines reduced to one. *)
Fixpoint squeeze (lines : list string) (prev_empty : bool) : list string :=
  match lines with
  | [] => []
  | line :: rest =>
      let stripped := strip line in
      if negb (nonempty stripped)
      then if prev_empty then squeeze rest prev_empty
           else EmptyString :: squeeze rest true
      else stripped :: squeeze rest false
  end.

(** [\n{3,}] *)
Definition newlines3 : Re.regex := [Re.Rep (Re.Lit nl) 3 None true].

Section Converter.
(** BeautifulSoup's text of the document after the script, style and
    navigation elements are decomposed, and html2text's rendering;
    [None] when the library raises. *)
Variable soup_text : string -> option string.
Variable html2text_handle : string -> option string.

Definition convert_html_to_clean_text (html_content : string) : string :=
  match soup_text html_content with
  | None => html_content
  | Some text =>
      let text :=
        match html2text_handle html_content with
        | Some markdown_text =>
            if len text <? 2 * len markdown_text then markdown_text else text
        | None => text
        end in
      let cleaned_lines := squeeze (split nl text) false in
      let result := strip (join NL cleaned_lines) in
      Re.sub newlines3 [Re.TLit (NL +:+ NL)] result
  end.

Definition header_text (md : metadata) : string :=
  (match source_url md with
   | Some u => "Source URL: " +:+ u +:+ NL
   | None => EmptyString
   end)
  +:+ (match final_url md with
       | Some u => "Final URL: " +:+ u +:+ NL
       | None => EmptyString
       end)
  +:+ repeat_char "=" 80 +:+ NL +:+ NL.

(** What [process_file] writes to [output_path]. *)
Definition output (content : string) : string :=
  let md := extract_metadata content in
  let lines := split nl content in
  let metadata_end := metadata_end_from lines 0 0 in
  let content_part := join NL (drop metadata_end lines) in
  let clean_text := convert_html_to_clean_text content_part in
  header_text md +:+ clean_text.

Definition process_file (fs : gmap string string)
    (input_path output_path : string) : bool * gmap string string :=
  match fs !! input_path with
  | Some stored => (true, <[output_path := output (read_text stored)]> fs)
  | None => (false, fs)
  end.
End Converter.

End ConvertHtml.

(* ===================================================================== *)
(** * aggressive_clean.py *)
(* ===================================================================== *)

Module AggressiveClean.
Import Py Re.

(** What [HTMLParser.feed] hands to the handlers. An attribute without
    a value has the value [None]. *)
Inductive html_event :=
| StartTag (tag : string) (attrs : list (string * option string))
| EndTag (tag : string)
| Data (data : string).

Record extractor := {
  content : list string;
  in_script : bool;
  in_style : bool;
  in_nav : bool;
  in_footer : bool;
  in_main : bool
}.

Definition init : extractor :=
  {| content := []; in_script := false; in_style := false;
     in_nav := false; in_footer := false; in_main := false |}.

Definition skip_tags : list string :=
  ["script"; "style"; "noscript"; "meta"; "iframe"].

Definition ignore_classes : list string :=
  ["nav"; "navbar"; "menu"; "sidebar"; "footer"; "header";
   "advertisement"; "ad-"; "breadcrumb"; "pagination";
   "comments"; "widget"; "related"].

Definition mem (x : string) (l : list string) : bool :=
  existsb (String.eqb x) l.

Definition append (x : string) (e : extractor) : extractor :=
  {| content := content e ++ [x]; in_script := in_script e;
     in_style := in_style e; in_nav := in_nav e;
     in_footer := in_footer e; in_main := in_main e |}.

Definition set_main (b : bool) (e : extractor) : extractor :=
  {| content := content e; in_script := in_script e;
     in_style := in_style e; in_nav := in_nav e;
     in_footer := in_footer e; in_main := b |}.

Definition set_skip (script style : bool) (e : extractor) : extractor :=
  {| content := content e; in_script := script;
     in_style := style; in_nav := in_nav e;
     in_footer := in_footer e; in_main := in_main e |}.

(** [dict(attrs).get('class', '')]: the last binding of the key wins. *)
Fixpoint get_class (attrs : list (string * option string))
    (found : option string) : option string :=
  match attrs with
  | [] => found
  | (k, v) :: rest =>
      get_class rest (if String.eqb k "class" then v else found)
  end.

(** The handlers return [None] where the Python raises: a [class]
    attribute without a value is [None], which has no [lower]. *)
Definition handle_starttag (tag : string)
    (attrs : list (string * option string)) (e : extractor)
    : option extractor :=
  let e := if mem tag ["main"; "article"] then set_main true e else e in
  if mem tag skip_tags
  then Some (set_skip (String.eqb tag "script") (String.eqb tag "style") e)
  else
    match get_class attrs (Some EmptyString) with
    | None => None
    | Some class_name =>
        if any_in ignore_classes (lower class_name) then Some e
        else if mem tag ["h1"; "h2"; "h3"; "h4"; "h5"; "h6";
                         "p"; "li"; "code"; "pre"]
        then
          if startswith tag "h"
          then Some (append (NL +:+ "### " +:+ upper tag +:+ NL) e)
          else if String.eqb tag "pre"
          then Some (append (NL +:+ "```" +:+ NL) e)
          else if String.eqb tag "code" then Some (append "`" e)
          else Some e
        else Some e
    end.

Definition handle_endtag (tag : string) (e : extractor) : extractor :=
  let e := if mem tag ["main"; "article"] then set_main false e else e in
  let e := if mem tag skip_tags then set_skip false false e else e in
  if mem tag ["h1"; "h2"; "h3"; "h4"; "h5"; "h6"] then append NL e
  else if String.eqb tag "pre" then append (NL +:+ "```" +:+ NL) e
  else if String.eqb tag "code" then append "`" e
  else if String.eqb tag "p" then append NL e
  else if mem tag ["li"; "tr"; "td"] then append NL e
  else e.

(** [ +], [\n\s*\n\s*\n+], [\s+], [\n+] *)
Definition spaces : regex := [plus (Lit " ")].
Definition blank_lines : regex :=
  [One (Lit nl); star Space; One (Lit nl); star Space; plus (Lit nl)].
Definition whitespace : regex := [plus Space].
Definition newlines : regex := [plus (Lit nl)].

(** [^Source URL:.*?\n.*?Final URL:.*?\n={10,}\n] *)
Definition header : regex :=
  [Bol] ++ lits "Source URL:" ++ [star_lazy Dot; One (Lit nl); star_lazy Dot]
  ++ lits "Final URL:" ++ [star_lazy Dot; One (Lit nl);
                           Rep (Lit "=") 10 None true; One (Lit nl)].

(** [\[([^\]]+)\]\([^)]+\)] *)
Definition link : regex :=
  [One (Lit "["); Open; plus (NCls [CChr "]"]); Close; One (Lit "]");
   One (Lit "("); plus (NCls [CChr ")"]); One (Lit ")")].

(** [\*{1,2}([^*]+)\*{1,2}] *)
Definition emphasis : regex :=
  [Rep (Lit "*") 1 (Some 2) true; Open; plus (NCls [CChr "*"]); Close;
   Rep (Lit "*") 1 (Some 2) true].

(** [!?\[.*?\]\(.*?\)] and [\[.*?\]\(.*?\)] *)
Definition bracket_pair : regex :=
  [One (Lit "["); star_lazy Dot; One (Lit "]");
   One (Lit "("); star_lazy Dot; One (Lit ")")].
Definition image : regex := opt (Lit "!") :: bracket_pair.

(** [<[^>]+>] *)
Definition tag_re : regex :=
  [One (Lit "<"); plus (NCls [CChr ">"]); One (Lit ">")].

Record metadata := { source_url : option string; final_url : option string }.

Definition metadata_step (md : metadata) (line : string) : metadata :=
  if startswith line "Source URL:"
  then {| source_url := Some (strip (replace line "Source URL:" ""));
          final_url := final_url md |}
  else if startswith line "Final URL:"
  then {| source_url := source_url md;
          final_url := Some (strip (replace line "Final URL:" "")) |}
  else md.

(** [metadata.get(key)] as a condition: present and not empty. *)
Definition truthy (v : option string) : option string :=
  match v with
  | Some u => if nonempty u then Some u else None
  | None => None
  end.

Section Parser.
(** The events [HTMLParser.feed] delivers for a text ([None] when the
    parser itself raises), and [html.unescape]. *)
Variable html_events : string -> option (list html_event).
Variable unescape : string -> string.

Definition handle_data (data : string) (e : extractor) : extractor :=
  if in_script e || in_style e then e
  else
    let text := strip (unescape data) in
    if nonempty text && (2 <? len text) then append (text +:+ " ") e
    else e.

Fixpoint feed (evs : list html_event) (e : extractor) : option extractor :=
  match evs with
  | [] => Some e
  | StartTag tag attrs :: rest =>
      match handle_starttag tag attrs e with
      | Some e' => feed rest e'
      | None => None
      end
  | EndTag tag :: rest => feed rest (handle_endtag tag e)
  | Data data :: rest => feed rest (handle_data data e)
  end.

Definition get_content (e : extractor) : string :=
  let text := join EmptyString (content e) in
  let text := sub spaces [TLit " "] text in
  let text := sub blank_lines [TLit (NL +:+ NL)] text in
  strip text.

(** The text under the header, cleaned: through the extractor, or
    through the regular expressions when the extractor raises. *)
Definition cleaned_of (content : string) : string :=
  let content := sub_count false header [] (Some 1) content in
  let content :=
    if contains "**" content || contains "[" content
    then
      let content := sub link [TGroup 1] content in
      let content := sub emphasis [TGroup 1] content in
      sub image [] content
    else content in
  match
    match html_events content with
    | Some evs => feed evs init
    | None => None
    end
  with
  | Some e => get_content e
  | None =>
      let cleaned := sub tag_re [] content in
      let cleaned := sub bracket_pair [] cleaned in
      sub newlines [TLit NL] cleaned
  end.

(** [text_only]: the cleaned text with its whitespace runs collapsed. *)
Definition text_only (cleaned : string) : string :=
  sub whitespace [TLit " "] cleaned.

Definition rebuilt (content cleaned : string) : string :=
  let md := fold_left metadata_step (take 10 (split nl content))
              {| source_url := None; final_url := None |} in
  let output :=
    match truthy (source_url md) with
    | Some u => ["Source URL: " +:+ u]
    | None => []
    end in
  let output :=
    match truthy (final_url md) with
    | Some u => output ++ ["Final URL: " +:+ u]
    | None => output
    end in
  let output :=
    match output with
    | [] => output
    | _ => output ++ [repeat_char "=" 80; EmptyString]
    end in
  join NL (output ++ [cleaned]).

(** [clean_file]: [None] when opening the file raises. *)
Definition clean_file (fs : gmap string string) (file_path : string)
    : option (bool * gmap string string) :=
  match fs !! file_path with
  | None => None
  | Some stored =>
      let content := read_text stored in
      let cleaned := cleaned_of content in
      if len (text_only cleaned) <? 150 then Some (false, fs)
      else Some (true, <[file_path := rebuilt content cleaned]> fs)
  end.

Record sweep := {
  files : gmap string string;
  success : nat;
  deleted : nat
}.

(** One turn of the loop of [main]; an exception leaves the counters
    and the directory as they are. *)
Definition main_step (st : sweep) (file_path : string) : sweep :=
  match clean_file (files st) file_path with
  | Some (true, fs) =>
      {| files := fs; success := S (success st); deleted := deleted st |}
  | Some (false, fs) =>
      {| files := delete file_path fs; success := success st;
         deleted := S (deleted st) |}
  | None => st
  end.

Definition main_loop (paths : list string) (st : sweep) : sweep :=
  fold_left main_step paths st.
End Parser.

End AggressiveClean.

(* ===================================================================== *)
(** * The PDF page loops *)
(* ===================================================================== *)

Module BatchConvertPymupdf.
Import Py.

(** [f"\n--- Page {page_num + 1} ---\n"] *)
Definition page_marker (page_num : nat) : string :=
  NL +:+ "--- Page " +:+ str_of_nat (page_num + 1) +:+ " ---" +:+ NL.

(** [for page_num, page in enumerate(doc)]: the pages are given by the
    texts [page.get_text()] returns, [page_num] is the index of the head
    of [pages]. *)
Fixpoint page_loop (pages : list string) (page_num : nat) (text : string)
    : string :=
  match pages with
  | [] => text
  | page_text :: rest =>
      page_loop rest (S page_num)
        (if nonempty page_text
         then text +:+ page_marker page_num +:+ page_text
         else text)
  end.

Definition convert (pages : list string) : string :=
  page_loop pages 0 EmptyString.

End BatchConvertPymupdf.

Module ScrapePdfs.
Import Py.

(** The loop of [extract_text_pdfplumber]; a page without text yields
    [None] or the empty string. *)
Fixpoint collect (pages : list (option string)) (text : list string)
    : list string :=
  match pages with
  | [] => text
  | Some page_text :: rest =>
      collect rest (if nonempty page_text then text ++ [page_text] else text)
  | None :: rest => collect rest text
  end.

(** [pages] is [None] when pdfplumber raises. *)
Definition extract_text_pdfplumber (pages : option (list (option string)))
    : option string :=
  match pages with
  | Some ps => Some (join (NL +:+ NL) (collect ps []))
  | None => None
  end.

End ScrapePdfs.

(* ===================================================================== *)
(** * scrape_additional_links.py *)
(* ===================================================================== *)

Module ScrapeLinks.
Import Py.

Definition LINKS : list string :=
  ["http://lamport.azurewebsites.net/pubs/interprocess";
   "http://lamport.azurewebsites.net/pubs/pubs.html#di...";
   "http://lamport.azurewebsites.net/pubs/teaching-con";
   "http://lamport.azurewebsites.net/tla/byzpaxos.html";
   "http://lamport.azurewebsites.net/tla/hyperbook.html";
   "http://lamport.azurewebsites.net/tla/proving-safety";
   "http://lamport.azurewebsites.net/tla/two-phase.htm...";
   "http://research.microsoft.com/en-us/um/people/lamport/pubs/pubs.html#paxos-commit";
   "https://ahelwer.ca/post/2023-03-30-pseudocode/";
   "https://ahelwer.ca/post/2023-04-05-checkpoint-coordination;";
   "https://cedric.cnam.fr/fichiers/RC474.pdf";
   "https://dl.acm.org/citation.cfm?id=214134";
   "https://dl.acm.org/citation.cfm?id=226647";
   "https://dl.acm.org/citation.cfm?id=302436";
   "https://dl.acm.org/doi/10.1145/3087801.3087802";
   "https://en.wikipedia.org/wiki/Klotski;";
   "https://en.wikipedia.org/wiki/Sliding_puzzle;";
   "https://en.wikipedia.org/wiki/Tower_of_Hanoi;";
   "https://github.com/Azure/RSL;";
   "https://github.com/Azure/RingMaster";
   "https://github.com/LMAX-Exchange;";
   "https://github.com/TypeDefinition;";
   "https://github.com/banhday/tlabenchmarks/tree/master/benchmarks/spanning";
   "https://github.com/byisystems/byihive.";
   "https://github.com/josehu07/summerset;";
   "https://github.com/josehu07/tla-examples/tree/master/specifications/Paxos";
   "https://github.com/mryndzionek/tlaplus_specs#chameneostla";
   "https://github.com/mryndzionek/tlaplus_specs#cigarettesmokerstla";
   "https://github.com/mryndzionek/tlaplus_specs#slidingpuzzlestla;";
   "https://github.com/nano-o/MultiPaxos/blob/master/DiskPaxos.tla";
   "https://github.com/nano-o/MultiPaxos;";
   "https://github.com/nicholassm/disruptor-rs";
   "https://github.com/ongardie/raft.tla;";
   "https://github.com/sudogandhi;";
   "https://github.com/tlaplus/Examples/issues/9";
   "https://github.com/tlaplus/tlaplus/blob/4613109641676389d97b8df209d6cf4d90d31c1c/tlatools/org.lamport.tlatools/src/tlc2/util/BufferedRandomAccessFile.java";
   "https://github.com/tlaplus/tlaplus/tree/4613109641676389d97b8df209d6cf4d90d31c1c/tlatools/org.lamport.tlatools/src/tlc2/util/BufferedRandomAccessFile.tla;";
   "https://ieeexplore.ieee.org/abstract/document/1633503/";
   "https://ieeexplore.ieee.org/document/1209964/";
   "https://lamport.azurewebsites.net/pubs/disk-paxos.pdf;";
   "https://lamport.azurewebsites.net/tla/toolbox.html";
   "https://link.springer.com/article/10.1007/BF01667080";
   "https://link.springer.com/chapter/10.1007/3-540-44743-1_4";
   "https://link.springer.com/chapter/10.1007/978-3-540-87779-0_30";
   "https://members.loria.fr/SMerz/talks/argentina2005/Charpentier/charpov/Teaching/CS-986/TLC/;";
   "https://raft.github.io/raft.pdf";
   "https://research.nicola-santoro.com/DADA.html";
   "https://www.cs.utexas.edu/users/EWD/ewd09xx/EWD998...";
   "https://www.josehu.com/technical/2024/02/19/practical-MultiPaxos-TLA-spec.html;";
   "https://www.microsoft.com/en-us/research/publication/fast-paxos/";
   "https://www.researchgate.net/publication/271910927_Fast_Paxos_Made_Easy_Theory_and_Implementation;";
   "https://www.youtube.com/watch?v=cYenTPD7740";
   "https://youtu.be/_GP9OpZPUYc?t=742"].

Definition clean_url (url : string) : string :=
  let url := rstrip_char ";" url in
  let url := rstrip_char "." url in
  if endswith url "..." then
    if contains "pubs.html#di" url then replace url "..." "stributed-systems/"
    else if contains "teaching-con" url then replace url "..." "currency.html"
    else if contains "two-phase.htm" url then replace url "..." "l"
    else if contains "EWD998" url then replace url "..." "aaa/EWD998.txt"
    else url
  else url.

(** [b'%PDF'] *)
Definition pdf_magic : list byte := [x25; x50; x44; x46].

Fixpoint bytes_eqb (a b : list byte) : bool :=
  match a, b with
  | [], [] => true
  | x :: a', y :: b' => Byte.eqb x y && bytes_eqb a' b'
  | _, _ => false
  end.

(** [content[:4] == b'%PDF'] *)
Definition is_pdf_content (content : list byte) : bool :=
  bytes_eqb (take 4 content) pdf_magic.

(** [os.path.basename] and [os.path.join] on POSIX paths. *)
Definition basename (path : string) : string :=
  List.last (split "/" path) EmptyString.

Definition path_join (a b : string) : string :=
  if startswith b "/" then b
  else if negb (nonempty a) || endswith a "/" then a +:+ b
  else a +:+ "/" +:+ b.

(** [[^\w\-_]] *)
Definition unsafe_char : Re.regex :=
  [Re.One (Re.NCls [Re.CWord; Re.CChr "-"; Re.CChr "_"])].

(** The three outcomes of the [try] block of [fetch_url]. *)
Inductive http_result :=
| GetRaised                 (* requests.get raised: network error, timeout *)
| StatusRaised              (* raise_for_status raised on the status *)
| Fetched (content : list byte) (url : string).

Record batch := {
  files : gmap string string;
  successful : nat;
  failed : nat;
  skipped : nat
}.

Section Network.
(** The HTTP client, [urlparse], the UTF-8 decoder with replacement,
    and the PDF libraries ([None] when the library raises). *)
Variable http_get : string -> http_result.
Variable url_path url_netloc : string -> string.
Variable decode : list byte -> string.
Variable HAS_PDFPLUMBER HAS_PYPDF2 : bool.
Variable pdfplumber_pages : list byte -> option (list (option string)).
Variable pypdf_pages : list byte -> option (list string).

(** The pair returned is [(None, None)] on any exception. *)
Definition fetch_url (url : string) : option (list byte) * option string :=
  match http_get url with
  | Fetched content final_url => (Some content, Some final_url)
  | GetRaised | StatusRaised => (None, None)
  end.

Definition extract_pdf_text (content : list byte) : option string :=
  if HAS_PDFPLUMBER then
    match pdfplumber_pages content with
    | Some pages => Some (join (NL +:+ NL) (ScrapePdfs.collect pages []))
    | None => None
    end
  else if HAS_PYPDF2 then
    match pypdf_pages content with
    | Some pages => Some (join (NL +:+ NL) pages)
    | None => None
    end
  else None.

Definition sanitize_filename (url : string) : string :=
  let filename := basename (url_path url) in
  let filename := if nonempty filename then filename else url_netloc url in
  let filename := Re.sub unsafe_char [Re.TLit "_"] filename in
  String.substring 0 100 filename.

Definition record_text (url : string) (final_url : option string)
    (text : string) : string :=
  "Source URL: " +:+ url +:+ NL
  +:+ "Final URL: " +:+ default "None" final_url +:+ NL
  +:+ repeat_char "=" 80 +:+ NL +:+ NL +:+ text.

Definition scrape_link (url output_dir : string) (fs : gmap string string)
    : bool * gmap string string :=
  let url := clean_url url in
  let '(content, final_url) := fetch_url url in
  match content with
  | None | Some [] => (false, fs)
  | Some content =>
      if is_pdf_content content then
        match extract_pdf_text content with
        | Some text =>
            if nonempty text then
              let filename := "pdf_" +:+ sanitize_filename url +:+ ".txt" in
              let filepath := path_join output_dir filename in
              (true, <[filepath := record_text url final_url text]> fs)
            else (false, fs)
        | None => (false, fs)
        end
      else
        let text := decode content in
        let filename := "web_" +:+ sanitize_filename url +:+ ".txt" in
        let filepath := path_join output_dir filename in
        (true, <[filepath := record_text url final_url text]> fs)
  end.

Definition is_video (url : string) : bool :=
  startswith url "https://www.youtube.com" || startswith url "https://youtu.be".

Definition already_scraped (url : string) : bool :=
  String.eqb url "https://cedric.cnam.fr/fichiers/RC474.pdf"
  || String.eqb url "https://raft.github.io/raft.pdf"
  || String.eqb url "https://lamport.azurewebsites.net/pubs/disk-paxos.pdf;".

Definition skip (st : batch) : batch :=
  {| files := files st; successful := successful st;
     failed := failed st; skipped := S (skipped st) |}.

(** One turn of the loop of [main]. *)
Definition main_step (output_dir : string) (st : batch) (url : string)
    : batch :=
  if is_video url then skip st
  else if already_scraped url then skip st
  else
    match scrape_link url output_dir (files st) with
    | (true, fs) =>
        {| files := fs; successful := S (successful st);
           failed := failed st; skipped := skipped st |}
    | (false, fs) =>
        {| files := fs; successful := successful st;
           failed := S (failed st); skipped := skipped st |}
    end.

Definition main_loop (output_dir : string) (urls : list string) (st : batch)
    : batch :=
  fold_left (main_step output_dir) urls st.

Definition main (fs : gmap string string) : batch :=
  main_loop "/home/espencer2/Papers-dataset/scraped_pdfs/external_links"
    LINKS
    {| files := fs; successful := 0; failed := 0; skipped := 0 |}.
End Network.

End ScrapeLinks.

(* ===================================================================== *)
(** * fix_github.py *)
(* ===================================================================== *)

Module FixGithub.
Import Py Re.

Definition segment : atom := plus (NCls [CChr "/"]).

(** [https://github\.com/([^/]+)/([^/]+)/blob/([^/]+)/(.+)] and the same
    with [tree] *)
Definition branch_url (kind : string) : regex :=
  lits "https://github.com/"
  ++ [Open; segment; Close; One (Lit "/"); Open; segment; Close]
  ++ lits ("/" +:+ kind +:+ "/")
  ++ [Open; segment; Close; One (Lit "/"); Open; plus Dot; Close].

(** [https://github\.com/([^/]+)/([^/]+)/?$] *)
Definition repo_url : regex :=
  lits "https://github.com/"
  ++ [Open; segment; Close; One (Lit "/"); Open; segment; Close;
      opt (Lit "/"); Eol].

Definition raw_host : string := "https://raw.githubusercontent.com/".

Definition convert_github_to_raw (url : string) : option string :=
  if contains "raw.githubusercontent.com" url then Some url
  else if negb (contains "github.com" url) then None
  else
    match option_map groups (match_ false (branch_url "blob") url) with
    | Some [user; repo; branch; path] =>
        Some (raw_host +:+ user +:+ "/" +:+ repo +:+ "/" +:+ branch
              +:+ "/" +:+ path)
    | _ =>
        match option_map groups (match_ false (branch_url "tree") url) with
        | Some [user; repo; branch; path] =>
            Some (raw_host +:+ user +:+ "/" +:+ repo +:+ "/" +:+ branch
                  +:+ "/" +:+ path +:+ "/README.md")
        | _ =>
            match option_map groups (match_ false repo_url url) with
            | Some [user; repo] =>
                Some (raw_host +:+ user +:+ "/" +:+ repo
                      +:+ "/master/README.md")
            | _ => None
            end
        end
    end.

End FixGithub.

(** More of the Python primitives. *)
Module PyMore.

(** [s[n:]] *)
Fixpoint drop_str (n : nat) (s : string) : string :=
  match n, s with
  | S k, String _ s' => drop_str k s'
  | _, _ => s
  end.

End PyMore.

(* ===================================================================== *)
(** * scrape_pdfs.py: links, conversion and file names *)
(* ===================================================================== *)

Module PdfScraper.
Import Py Re.

(** A letter of a pattern under [re.IGNORECASE], on the code points
    below 256 that a text of the model holds: there it matches itself in
    either case. (On other code points Python lets [s] also match U+017F;
    the letters [h], [t], [p], [d] and [f] match nothing else.) *)
Definition ci (c : ascii) : cset := Cls [CChr c; CChr (upper_char c)].

(** [https?://[^\s<>...]+\.pdf] with [re.IGNORECASE]; the class excludes
    whitespace, the angle brackets, the double quote, the braces, the
    bar, the backslash, the caret, the square brackets and the backtick. *)
Definition url_char : cset :=
  NCls [CSpace; CChr "<"; CChr ">"; CChr "034"; CChr "{"; CChr "}";
        CChr "|"; CChr "\"; CChr "^"; CChr "["; CChr "]"; CChr "`"].

Definition pdf_pattern : regex :=
  [One (ci "h"); One (ci "t"); One (ci "t"); One (ci "p"); opt (ci "s");
   One (Lit ":"); One (Lit "/"); One (Lit "/"); plus url_char;
   One (Lit "."); One (ci "p"); One (ci "d"); One (ci "f")].

(** The loop that removes duplicates and keeps the order. *)
Fixpoint unique_from (all_links : list string) (seen : gset string)
    (unique_links : list string) : list string :=
  match all_links with
  | [] => unique_links
  | link :: rest =>
      if bool_decide (link ∉ seen)
      then unique_from rest ({[ link ]} ∪ seen) (unique_links ++ [link])
      else unique_from rest seen unique_links
  end.

Definition extract_pdf_links (text : string) : list string :=
  if negb (nonempty text) then []
  else unique_from (map Re.text (findall pdf_pattern text)) ∅ [].

(** [extract_text_pypdf2]: every page's text, joined; [None] when the
    library raises. *)
Definition extract_text_pypdf2 (pages : option (list string)) : option string :=
  match pages with
  | Some ps => Some (join (NL +:+ NL) ps)
  | None => None
  end.

(** [if text: return text] *)
Definition usable (text : option string) : option string :=
  match text with
  | Some t => if nonempty t then Some t else None
  | None => None
  end.

(** [pdf_to_text]: pdfplumber first, PyPDF2 when it yields nothing. The
    two arguments are what the libraries make of the file. *)
Definition pdf_to_text (HAS_PDFPLUMBER HAS_PYPDF2 : bool)
    (plumber_pages : option (list (option string)))
    (pypdf_pages : option (list string)) : option string :=
  match
    (if HAS_PDFPLUMBER
     then usable (ScrapePdfs.extract_text_pdfplumber plumber_pages)
     else None)
  with
  | Some text => Some text
  | None =>
      if HAS_PYPDF2 then usable (extract_text_pypdf2 pypdf_pages) else None
  end.

(** [sanitize_filename]; [path] is [urlparse(url).path]. *)
Definition sanitize_filename (path : string) : string :=
  let filename := ScrapeLinks.basename path in
  let filename := replace filename ".pdf" "" in
  let filename := sub ScrapeLinks.unsafe_char [TLit "_"] filename in
  filename +:+ ".txt".

End PdfScraper.

(* ===================================================================== *)
(** * fix_github.py: re-fetching a record *)
(* ===================================================================== *)

Module FixGithubFile.
Import Py.

(** [s.split(sep, 1)[1]] when [sep in s]: the text after the first
    occurrence of [sep]. *)
Fixpoint after_first (sep s : string) : string :=
  if startswith s sep then PyMore.drop_str (len sep) s
  else match s with
       | EmptyString => EmptyString
       | String _ s' => after_first sep s'
       end.

Record urls := { final_url : option string; source_url : option string }.

(** One turn of the loop over all the lines of the file. *)
Definition urls_step (u : urls) (line : string) : urls :=
  if startswith line "Final URL:"
  then {| final_url := Some (strip (replace line "Final URL:" ""));
          source_url := source_url u |}
  else if startswith line "Source URL:"
  then {| final_url := final_url u;
          source_url := Some (strip (replace line "Source URL:" "")) |}
  else u.

Definition file_urls (content : string) : urls :=
  fold_left urls_step (split nl content)
    {| final_url := None; source_url := None |}.

(** Truthiness of an optional text: [None] and the empty text are false. *)
Definition truthy (v : option string) : option string :=
  match v with
  | Some t => if nonempty t then Some t else None
  | None => None
  end.

(** [not raw_content or len(raw_content) < 100] *)
Definition too_small (raw_content : option string) : bool :=
  match truthy raw_content with
  | Some t => len t <? 100
  | None => true
  end.

Definition record_text (source_url final_url raw_content : string) : string :=
  "Source URL: " +:+ source_url +:+ NL
  +:+ "Final URL: " +:+ final_url +:+ NL
  +:+ repeat_char "=" 80 +:+ NL +:+ NL
  +:+ strip raw_content.

Section Fetch.
(** [fetch_content]: the text of the response, [None] on an exception or
    a status other than 200. *)
Variable fetch_content : string -> option string.

(** [fix_github_file]: [None] when the file cannot be read. *)
Definition fix_github_file (fs : gmap string string) (file_path : string)
    : option ((bool * string) * gmap string string) :=
  match fs !! file_path with
  | None => None
  | Some stored =>
      let content := read_text stored in
      let u := file_urls content in
      match truthy (final_url u) with
      | None => Some ((false, "No URL"), fs)
      | Some final =>
          if negb (contains "github.com" final)
          then Some ((false, "Not GitHub"), fs)
          else
            let body :=
              if contains (repeat_char "=" 10) content
              then after_first (repeat_char "=" 10) content
              else EmptyString in
            if negb (contains "Search code" body) && (1000 <? len body)
            then Some ((false, "Already good"), fs)
            else
              match truthy (FixGithub.convert_github_to_raw final) with
              | None => Some ((false, "Cannot convert URL"), fs)
              | Some raw_url =>
                  let raw_content := fetch_content raw_url in
                  let raw_content :=
                    if too_small raw_content && contains "/blob/" final
                    then fetch_content (replace raw_url "blob/" "")
                    else raw_content in
                  match raw_content with
                  | Some raw =>
                      if too_small raw_content
                      then Some ((false, "Fetch failed or empty (tried "
                                         +:+ raw_url +:+ ")"), fs)
                      else
                        let source := default final (truthy (source_url u)) in
                        Some ((true, "Fixed (" +:+ str_of_nat (len raw)
                                     +:+ " bytes)"),
                              <[file_path := record_text source final raw]> fs)
                  | None =>
                      Some ((false, "Fetch failed or empty (tried "
                                    +:+ raw_url +:+ ")"), fs)
                  end
              end
      end
  end.

Record tally := { files : gmap string string; fixed : nat; failed : list (string * string) }.

(** One turn of the loop of [main] over the file names; a name without
    a file is passed over. [links_dir / filename] is [dir_path filename]. *)
Definition main_step (dir_path : string -> string) (st : tally)
    (filename : string) : tally :=
  match fix_github_file (files st) (dir_path filename) with
  | None => st
  | Some ((true, _), fs) =>
      {| files := fs; fixed := S (fixed st); failed := failed st |}
  | Some ((false, msg), fs) =>
      {| files := fs; fixed := fixed st;
         failed := failed st ++ [(filename, msg)] |}
  end.

Definition main_loop (dir_path : string -> string) (filenames : list string)
    (st : tally) : tally :=
  fold_left (main_step dir_path) filenames st.
End Fetch.

End FixGithubFile.

(* ===================================================================== *)
(** * scrape_pdfs.py: the rows of the CSV file *)
(* ===================================================================== *)

Module CsvScraper.
Import Py PdfScraper.

(** A row as [csv.DictReader] gives it, by the texts that [process_csv]
    formats: the description column, the notes, the project and the
    model. *)
Record row := {
  description : string;
  notes : string;
  project : string;
  model : string
}.

Record results := {
  total_rows : nat;
  rows_with_pdfs : nat;
  total_pdf_links : nat;
  successful_downloads : nat;
  failed_downloads : nat;
  pdf_links : list (string * string * string)
}.

Definition succeeded (res : results) : results :=
  {| total_rows := total_rows res; rows_with_pdfs := rows_with_pdfs res;
     total_pdf_links := total_pdf_links res;
     successful_downloads := S (successful_downloads res);
     failed_downloads := failed_downloads res; pdf_links := pdf_links res |}.

Definition failed (res : results) : results :=
  {| total_rows := total_rows res; rows_with_pdfs := rows_with_pdfs res;
     total_pdf_links := total_pdf_links res;
     successful_downloads := successful_downloads res;
     failed_downloads := S (failed_downloads res); pdf_links := pdf_links res |}.

Definition listed (item : string * string * string) (res : results) : results :=
  {| total_rows := total_rows res; rows_with_pdfs := rows_with_pdfs res;
     total_pdf_links := total_pdf_links res;
     successful_downloads := successful_downloads res;
     failed_downloads := failed_downloads res;
     pdf_links := pdf_links res ++ [item] |}.

Definition record_text (link project model text : string) : string :=
  "Source URL: " +:+ link +:+ NL
  +:+ "Project: " +:+ project +:+ NL
  +:+ "Model: " +:+ model +:+ NL
  +:+ repeat_char "=" 80 +:+ NL +:+ NL +:+ text.

Section Download.
(** [download_pdf]: the bytes of the response, [None] on an exception;
    [urlparse(url).path]; the PDF libraries as in [pdf_to_text]. *)
Variable download_pdf : string -> option (list byte).
Variable url_path : string -> string.
Variable HAS_PDFPLUMBER HAS_PYPDF2 : bool.
Variable pdfplumber_pages : list byte -> option (list (option string)).
Variable pypdf_pages : list byte -> option (list string).

(** One turn of the loop over the links of a row. *)
Definition link_step (output_dir : string) (r : row)
    (st : results * gmap string string) (link : string)
    : results * gmap string string :=
  let '(res, fs) := st in
  let res := listed (project r, model r, link) res in
  let filename := sanitize_filename (url_path link) in
  let output_path :=
    ScrapeLinks.path_join output_dir
      (project r +:+ "_" +:+ model r +:+ "_" +:+ filename) in
  match fs !! output_path with
  | Some _ => (succeeded res, fs)
  | None =>
      match download_pdf link with
      | Some pdf_data =>
          match pdf_to_text HAS_PDFPLUMBER HAS_PYPDF2
                  (pdfplumber_pages pdf_data) (pypdf_pages pdf_data) with
          | Some text =>
              (succeeded res,
               <[output_path := record_text link (project r) (model r) text]> fs)
          | None => (failed res, fs)
          end
      | None => (failed res, fs)
      end
  end.

(** One turn of the loop over the rows. *)
Definition row_step (output_dir : string) (st : results * gmap string string)
    (r : row) : results * gmap string string :=
  let '(res, fs) := st in
  let all_text := description r +:+ " " +:+ notes r in
  let links := extract_pdf_links all_text in
  let res :=
    {| total_rows := S (total_rows res); rows_with_pdfs := rows_with_pdfs res;
       total_pdf_links := total_pdf_links res;
       successful_downloads := successful_downloads res;
       failed_downloads := failed_downloads res; pdf_links := pdf_links res |} in
  match links with
  | [] => (res, fs)
  | _ =>
      let res :=
        {| total_rows := total_rows res;
           rows_with_pdfs := S (rows_with_pdfs res);
           total_pdf_links := total_pdf_links res + List.length links;
           successful_downloads := successful_downloads res;
           failed_downloads := failed_downloads res;
           pdf_links := pdf_links res |} in
      fold_left (link_step output_dir r) links (res, fs)
  end.

Definition process_csv (rows : list row) (output_dir : string)
    (fs : gmap string string) : results * gmap string string :=
  fold_left (row_step output_dir) rows
    ({| total_rows := 0; rows_with_pdfs := 0; total_pdf_links := 0;
        successful_downloads := 0; failed_downloads := 0; pdf_links := [] |},
     fs).
End Download.

End CsvScraper.

(* ===================================================================== *)
(** * audit_files.py: its own conversion of GitHub URLs *)
(* ===================================================================== *)

Module AuditFiles.
Import Py Re FixGithub.

(** [convert_github_url]: as [convert_github_to_raw] of fix_github.py,
    without the case of a bare repository URL. *)
Definition convert_github_url (url : string) : option string :=
  if contains "raw.githubusercontent.com" url then Some url
  else if negb (contains "github.com" url) then None
  else
    match option_map groups (match_ false (branch_url "blob") url) with
    | Some [user; repo; branch; path] =>
        Some (raw_host +:+ user +:+ "/" +:+ repo +:+ "/" +:+ branch
              +:+ "/" +:+ path)
    | _ =>
        match option_map groups (match_ false (branch_url "tree") url) with
        | Some [user; repo; branch; path] =>
            Some (raw_host +:+ user +:+ "/" +:+ repo +:+ "/" +:+ branch
                  +:+ "/" +:+ path +:+ "/README.md")
        | _ => None
        end
    end.

End AuditFiles.

(* ===================================================================== *)
(** * batch_convert_pymupdf.py: the batch and its report *)
(* ===================================================================== *)

Module BatchStats.
Import Py.

(** The statistics of the batch, without the times. *)
Record stats := {
  total : nat;
  successful : nat;
  failed : nat;
  total_chars : nat;
  total_pages : nat;
  errors : list (string * string);
  files : list (string * nat * nat)
}.

Definition RAW_PDF_DIR : string :=
  "/home/espencer2/Papers-dataset/scraped_pdfs/raw".
Definition OUTPUT_DIR : string :=
  "/home/espencer2/Papers-dataset/scraped_pdfs/pymupdf".

(** The report divides the number of successful conversions by the total
    and the total time by the number of successful conversions: a
    division by zero raises. *)
Definition report_raises (s : stats) : bool :=
  (total s =? 0) || (successful s =? 0).

Section Fitz.
(** [fitz.open] and [get_text] on every page: the texts of the pages, or
    the message of the exception; and what the script does after the
    report, the comparison and the summary file. *)
Variable open_pdf : string -> list string + string.
Variable finish : stats -> gmap string string -> gmap string string.

(** One turn of the loop over the PDF files. *)
Definition convert_step (st : stats * gmap string string) (pdf_file : string)
    : stats * gmap string string :=
  let '(s, fs) := st in
  let pdf_path := ScrapeLinks.path_join RAW_PDF_DIR pdf_file in
  let output_file :=
    ScrapeLinks.path_join OUTPUT_DIR (replace pdf_file ".pdf" ".txt") in
  match open_pdf pdf_path with
  | inl pages =>
      let text := BatchConvertPymupdf.convert pages in
      ({| total := total s; successful := S (successful s);
          failed := failed s;
          total_chars := total_chars s + len text;
          total_pages := total_pages s + List.length pages;
          errors := errors s;
          files := files s ++ [(pdf_file, List.length pages, len text)] |},
       <[output_file := text]> fs)
  | inr error_msg =>
      ({| total := total s; successful := successful s;
          failed := S (failed s);
          total_chars := total_chars s; total_pages := total_pages s;
          errors := errors s ++ [(pdf_file, String.substring 0 100 error_msg)];
          files := files s |},
       fs)
  end.

Definition convert_all (pdf_files : list string) (fs : gmap string string)
    : stats * gmap string string :=
  fold_left convert_step pdf_files
    ({| total := List.length pdf_files; successful := 0; failed := 0;
        total_chars := 0; total_pages := 0; errors := []; files := [] |},
     fs).

(** The script: the directory it leaves, and whether it ended in the
    exception of the report. *)
Definition script (pdf_files : list string) (fs : gmap string string)
    : gmap string string * bool :=
  let '(s, fs) := convert_all pdf_files fs in
  if report_raises s then (fs, true) else (finish s fs, false).
End Fitz.

End BatchStats.

(* ===================================================================== *)
(** * verify_scraping.py: the links it counts *)
(* ===================================================================== *)

Module VerifyScraping.
Import Py Re PdfScraper.

(** [https?://[^\s<>...]+] with [re.IGNORECASE], over the class of
    [pdf_pattern]. *)
Definition url_pattern : regex :=
  [One (ci "h"); One (ci "t"); One (ci "t"); One (ci "p"); opt (ci "s");
   One (Lit ":"); One (Lit "/"); One (Lit "/"); plus url_char].

(** [list(set(links))]: the links, each once, in no order. *)
Definition extract_all_links (text : string) : gset string :=
  if negb (nonempty text) then ∅
  else list_to_set (map Re.text (findall url_pattern text)).

(** [link.lower().endswith('.pdf')], the test that counts a link as a
    PDF link. *)
Definition is_pdf_link (link : string) : bool := endswith (lower link) ".pdf".

End VerifyScraping.

(* ===================================================================== *)
(** * cleanup_nav.py *)
(* ===================================================================== *)

Module CleanupNav.
Import Py Re.

(** The metadata loop of [cleanup_file]: the URL lines are kept as they
    are, up to the first separator line; [body_start] stays 0 when there
    is none. [i] is the index of the head of [lines]. *)
Fixpoint scan (lines : list string) (i : nat) (metadata : list string)
    : list string * nat :=
  match lines with
  | [] => (metadata, 0)
  | line :: rest =>
      if Header.is_url_line line then scan rest (S i) (metadata ++ [line])
      else if Header.has_separator line then (metadata, S i)
      else scan rest (S i) metadata
  end.

(** [re.match] of a pattern [^(w1|w2|...)rest]: one of the words, and
    [rest] after it. *)
Definition alt_match (alts : list string) (rest : regex) (line : string)
    : bool :=
  existsb
    (fun w => bool_decide (is_Some (match_ false (Bol :: lits w ++ rest) line)))
    alts.

(** [nav_patterns]: the words of each pattern and what follows them,
    [:.*$] in the first and [.*$] in the other two. *)
Definition nav_patterns : list (list string * regex) :=
  [(["Research areas"; "People"; "Microsoft"; "Labs"; "Other"; "Tech";
     "Industries"; "Search"; "Global"],
    [One (Lit ":"); star Dot; Eol]);
   (["Search"; "Tech"; "Industries"; "Global"; "Partners"; "Resources"],
    [star Dot; Eol]);
   (["Home"; "About"; "Contact"; "Careers"; "Events"],
    [star Dot; Eol])].

(** [any(re.match(pattern, line) for pattern in nav_patterns)] *)
Definition is_nav (line : string) : bool :=
  existsb (fun '(alts, rest) => alt_match alts rest line) nav_patterns.

(** [not line.strip()] *)
Definition blank (line : string) : bool := negb (nonempty (strip line)).

(** [while cleaned and not cleaned[0].strip(): cleaned.pop(0)] *)
Fixpoint pop_first (cleaned : list string) : list string :=
  match cleaned with
  | [] => []
  | line :: rest => if blank line then pop_first rest else cleaned
  end.

(** [while cleaned and not cleaned[-1].strip(): cleaned.pop()] *)
Fixpoint pop_last (cleaned : list string) : list string :=
  match cleaned with
  | [] => []
  | line :: rest =>
      match pop_last rest with
      | [] => if blank line then [] else [line]
      | r => line :: r
      end
  end.

(** The lines of the body that are written back. *)
Definition cleaned_lines (content : string) : list string :=
  let lines := split nl content in
  let '(_, body_start) := scan lines 0 [] in
  let body_lines := drop body_start lines in
  let cleaned := List.filter (fun line => negb (is_nav line)) body_lines in
  pop_last (pop_first cleaned).

(** What [cleanup_file] writes back, from what it read. *)
Definition output (content : string) : string :=
  let lines := split nl content in
  let '(metadata, _) := scan lines 0 [] in
  join NL metadata +:+ NL +:+ repeat_char "=" 80 +:+ NL +:+ NL
  +:+ join NL (cleaned_lines content).

(** [cleanup_file]: [None] when opening the file raises. *)
Definition cleanup_file (fs : gmap string string) (file_path : string)
    : option (gmap string string) :=
  match fs !! file_path with
  | Some stored => Some (<[file_path := output (read_text stored)]> fs)
  | None => None
  end.

End CleanupNav.

(* ===================================================================== *)
(** * Notions the statements use *)
(* ===================================================================== *)

Module Spec.
Import Py.

(** The pages with their indices, and the text the page markers promise:
    the pages that have text, in order, each under the marker of its own
    number. *)
Definition numbered (pages : list string) : list (nat * string) :=
  combine (seq 0 (List.length pages)) pages.

Definition with_text (pages : list (nat * string)) : list (nat * string) :=
  List.filter (fun p => nonempty (snd p)) pages.

Fixpoint marked_pages (pages : list (nat * string)) : string :=
  match pages with
  | [] => EmptyString
  | (page_num, page_text) :: rest =>
      BatchConvertPymupdf.page_marker page_num +:+ page_text
      +:+ marked_pages rest
  end.

(** The texts of the pages that have one. *)
Fixpoint page_texts (pages : list (option string)) : list string :=
  match pages with
  | [] => []
  | Some t :: rest => if nonempty t then t :: page_texts rest else page_texts rest
  | None :: rest => page_texts rest
  end.

(** [before ++ x ++ between ++ y ++ after]: [x] occurs, and [y] after it. *)
Definition occurs_then (x y s : string) : Prop :=
  exists before between after, s = before +:+ x +:+ between +:+ y +:+ after.

(** The first two lines of a text. *)
Definition first_two_lines (s : string) : list string := take 2 (split nl s).

(** A match that consumed the characters of [s] and then went on as [r]. *)
Fixpoint push_str (s : string) (r : option Re.mres) : option Re.mres :=
  match s with
  | EmptyString => r
  | String c s' => Re.push (Re.TChr c) (push_str s' r)
  end.

(** The character before the position reached after [s]. *)
Fixpoint prev_after (prev : option ascii) (s : string) : option ascii :=
  match s with
  | EmptyString => prev
  | String c s' => prev_after (Some c) s'
  end.

(** Every character of [s] is in the set [cs]. *)
Fixpoint all_in (cs : Re.cset) (s : string) : bool :=
  match s with
  | EmptyString => true
  | String c s' => Re.cs_mem cs c && all_in cs s'
  end.

(** [s] does not go on with a character of [cs]. *)
Definition stops (cs : Re.cset) (s : string) : bool :=
  match s with
  | EmptyString => true
  | String c _ => negb (Re.cs_mem cs c)
  end.

(** The characters of [s] as the tokens of a match. *)
Fixpoint chars (s : string) : list Re.tok :=
  match s with
  | EmptyString => []
  | String c s' => Re.TChr c :: chars s'
  end.


(** One segment of a URL path: not empty, no slash. *)
Definition is_segment (s : string) : bool :=
  nonempty s && all_in (Re.NCls [Re.CChr "/"]) s.

(** A URL, as a header line carries it: not empty, no whitespace. *)
Definition is_url (s : string) : bool :=
  nonempty s && all_in (Re.NCls [Re.CSpace]) s.

End Spec.

(* ===================================================================== *)
(** * Proof steps that recur *)
(* ===================================================================== *)

(** Two states of the extractor that agree on what is read: the step
    taken from both leaves them so. *)
Ltac same_flags IH :=
  apply IH;
  repeat match goal with |- context [if ?b then _ else _] => destruct b end;
  cbn [AggressiveClean.content AggressiveClean.append
       AggressiveClean.in_script AggressiveClean.in_style
       AggressiveClean.set_main AggressiveClean.set_skip];
  congruence.

(** A line that begins with the word [w] makes a disjunction of prefix
    tests true; otherwise the test of [w] with a colon is false too,
    by the lemma [shorter]. *)
Ltac nav_word line w :=
  let E := fresh "E" in
  destruct (Py.startswith line w) eqn:E;
  [ repeat (rewrite orb_true_r || rewrite orb_true_l); reflexivity | ].

Ltac nav_colon line w shorter :=
  let H := fresh "H" in
  assert (H : Py.startswith line (w +:+ ":") = false)
    by (apply not_true_is_false; intros H;
        apply (shorter w ":") in H; congruence);
  cbn [String.append] in H; rewrite H; clear H.

#[local] Arguments String.append : simpl nomatch.

(* ===================================================================== *)
(** * The matcher on sample texts *)
(* ===================================================================== *)

Section Samples.
Import Py Re.

Example sample_link :
  sub Patterns.link [TGroup 1] "a [b](c) [d[e](f) [](x) [g]h](i)"
  = "a b d[e [](x) [g]h](i)".
Proof. vm_compute. reflexivity. Qed.

Example sample_image :
  sub Patterns.image [] "x ![alt](src) ![a]b](c) ![](q) !![z](y)!"
  = "x    !!".
Proof. vm_compute. reflexivity. Qed.

Example sample_blank_lines :
  sub PolishFiles.blank_lines [TLit (NL +:+ NL)]
    ("a" +:+ NL +:+ NL +:+ " " +:+ NL +:+ String "009" NL +:+ NL +:+ NL
     +:+ "b" +:+ NL +:+ NL +:+ NL +:+ "c" +:+ NL +:+ " " +:+ NL +:+ " "
     +:+ NL +:+ " " +:+ NL +:+ "d")
  = "a" +:+ NL +:+ NL +:+ "b" +:+ NL +:+ NL +:+ NL +:+ "c" +:+ NL +:+ NL +:+ "d".
Proof. vm_compute. reflexivity. Qed.

Example sample_empty_header :
  sub_multiline PolishFiles.empty_header []
    ("# a" +:+ NL +:+ "##  " +:+ NL +:+ "#" +:+ NL +:+ NL +:+ "#b")
  = "# a" +:+ NL +:+ NL +:+ NL +:+ "#b".
Proof. vm_compute. reflexivity. Qed.

Example sample_stray_bar :
  sub_multiline PolishFiles.stray_bar []
    ("|" +:+ NL +:+ "|a" +:+ NL +:+ "|" +:+ NL)
  = NL +:+ "|a" +:+ NL +:+ NL.
Proof. vm_compute. reflexivity. Qed.

Example sample_header :
  sub_count false AggressiveClean.header [] (Some 1)
    ("Source URL: a" +:+ NL +:+ "Final URL: b" +:+ NL +:+ "============"
     +:+ NL +:+ NL +:+ "body" +:+ NL
     +:+ "Source URL: a" +:+ NL +:+ "Final URL: b" +:+ NL +:+ "============"
     +:+ NL)
  = NL +:+ "body" +:+ NL
    +:+ "Source URL: a" +:+ NL +:+ "Final URL: b" +:+ NL +:+ "============"
    +:+ NL.
Proof. vm_compute. reflexivity. Qed.

Example sample_emphasis :
  sub AggressiveClean.emphasis [TGroup 1] "**a** *b* ***c*** *d** x*y"
  = "a b *c d xy".
Proof. vm_compute. reflexivity. Qed.

Example sample_bracket_pair :
  sub AggressiveClean.image []
    ("p ![i](s) [l](t) q [x]" +:+ NL +:+ "(y) [a](b" +:+ NL +:+ "c)")
  = "p   q [x]" +:+ NL +:+ "(y) [a](b" +:+ NL +:+ "c)".
Proof. vm_compute. reflexivity. Qed.

Example sample_whitespace :
  sub AggressiveClean.whitespace [TLit " "]
    (" a " +:+ NL +:+ String "009" (" b" +:+ String "011" (String "012"
       ("c" +:+ String "160" "d "))))
  = " a b c d ".
Proof. vm_compute. reflexivity. Qed.

Example sample_tag :
  sub AggressiveClean.tag_re [] ("a<b>c<>d<e" +:+ NL +:+ "f>g") = "ac<>dg".
Proof. vm_compute. reflexivity. Qed.

Example sample_italic :
  sub (PolishFiles.wrapped "_") [TGroup 1]
    ("a _b_ __c__ _d" +:+ NL +:+ "e_ f_g")
  = "a b _c d" +:+ NL +:+ "e fg".
Proof. vm_compute. reflexivity. Qed.

Example sample_symbols :
  List.length (findall FinalExtract.symbols "a ){}[]]({}[]]x({}[]] b") = 3
  /\ List.length (findall FinalExtract.symbols "( ) [ ] { }") = 0.
Proof. split; vm_compute; reflexivity. Qed.

Example sample_unsafe_char :
  sub ScrapeLinks.unsafe_char [TLit "_"] ("a.b-c_d e/f" +:+ String "233" "")
  = "a_b-c_d_e_f" +:+ String "233" "".
Proof. vm_compute. reflexivity. Qed.

Example sample_symbols_only :
  is_Some (match_ false Patterns.symbols_only ("* [ ] -" +:+ NL))
  /\ match_ false Patterns.symbols_only ("* [ ] -" +:+ NL +:+ "x") = None.
Proof. split; [vm_compute; eauto | vm_compute; reflexivity]. Qed.

End Samples.

(* ===================================================================== *)
(** * The substance filter: short lines and headings *)
(* ===================================================================== *)

Section SubstanceFilter.
Import Py.

Lemma base_keep_line_short line :
  len (strip line) < 3 -> ExtractSubstance.keep_line line = None.
Proof.
  intros Hlen. unfold ExtractSubstance.keep_line.
  destruct (negb (nonempty (strip line))); [reflexivity|].
  apply Nat.ltb_lt in Hlen. now rewrite Hlen.
Qed.

Lemma strict_keep_line_short line :
  len (strip line) < 3 -> FinalExtract.keep_line line = None.
Proof.
  intros Hlen. unfold FinalExtract.keep_line.
  apply Nat.ltb_lt in Hlen. rewrite Hlen.
  now rewrite orb_true_r.
Qed.

Lemma base_filter_body_app l1 l2 :
  ExtractSubstance.filter_body (l1 ++ l2)
  = ExtractSubstance.filter_body l1 ++ ExtractSubstance.filter_body l2.
Proof.
  induction l1 as [|x l1 IH]; simpl; [reflexivity|].
  destruct (ExtractSubstance.keep_line x); simpl; now rewrite IH.
Qed.

Lemma strict_filter_body_app l1 l2 :
  FinalExtract.filter_body (l1 ++ l2)
  = FinalExtract.filter_body l1 ++ FinalExtract.filter_body l2.
Proof.
  induction l1 as [|x l1 IH]; simpl; [reflexivity|].
  destruct (FinalExtract.keep_line x); simpl; now rewrite IH.
Qed.

(** Every line of the output is what [keep_line] made of some line of
    the body. *)
Lemma base_filter_body_In o lines :
  In o (ExtractSubstance.filter_body lines) <->
  exists line, In line lines /\ ExtractSubstance.keep_line line = Some o.
Proof.
  induction lines as [|x lines IH]; simpl.
  - split; [tauto | intros (? & [] & _)].
  - destruct (ExtractSubstance.keep_line x) as [k|] eqn:Hx; simpl;
      rewrite IH; split.
    + intros [<- | (l & Hl & Hk)]; eauto.
    + intros (l & [<- | Hl] & Hk); [left; congruence | eauto].
    + intros (l & Hl & Hk); eauto.
    + intros (l & [<- | Hl] & Hk); [congruence | eauto].
Qed.

Lemma strict_filter_body_In o lines :
  In o (FinalExtract.filter_body lines) <->
  exists line, In line lines /\ FinalExtract.keep_line line = Some o.
Proof.
  induction lines as [|x lines IH]; simpl.
  - split; [tauto | intros (? & [] & _)].
  - destruct (FinalExtract.keep_line x) as [k|] eqn:Hx; simpl;
      rewrite IH; split.
    + intros [<- | (l & Hl & Hk)]; eauto.
    + intros (l & [<- | Hl] & Hk); [left; congruence | eauto].
    + intros (l & Hl & Hk); eauto.
    + intros (l & [<- | Hl] & Hk); [congruence | eauto].
Qed.

(** C4. Short-line drop: a body line whose stripped text has fewer than
    3 characters is dropped by the base filter and by the stricter
    variant: the loop appends nothing for it, so the output is the one
    of the body without that line, and every line of the output is what
    the filter made of a body line of at least 3 stripped characters.
    The length is that of the line before the markdown cleanup: what the
    cleanup leaves of a longer line may be shorter. *)
Theorem C4_short_line_dropped (line : string) :
  len (strip line) < 3 ->
  ExtractSubstance.keep_line line = None
  /\ FinalExtract.keep_line line = None
  /\ (forall before after,
        ExtractSubstance.filter_body (before ++ line :: after)
        = ExtractSubstance.filter_body (before ++ after))
  /\ (forall before after,
        FinalExtract.filter_body (before ++ line :: after)
        = FinalExtract.filter_body (before ++ after))
  /\ (forall body o,
        In o (ExtractSubstance.filter_body body) ->
        exists l, In l body /\ 3 <= len (strip l)
                  /\ ExtractSubstance.keep_line l = Some o)
  /\ (forall body o,
        In o (FinalExtract.filter_body body) ->
        exists l, In l body /\ 3 <= len (strip l)
                  /\ FinalExtract.keep_line l = Some o).
Proof.
  intros Hlen.
  pose proof (base_keep_line_short line Hlen) as Hb.
  pose proof (strict_keep_line_short line Hlen) as Hs.
  repeat split; try assumption.
  - intros before after. rewrite !base_filter_body_app. simpl. now rewrite Hb.
  - intros before after. rewrite !strict_filter_body_app. simpl. now rewrite Hs.
  - intros body o Ho. apply base_filter_body_In in Ho as (l & Hl & Hk).
    exists l. repeat split; try assumption.
    destruct (le_lt_dec 3 (len (strip l))) as [|Hlt]; [assumption|].
    rewrite (base_keep_line_short l Hlt) in Hk. discriminate.
  - intros body o Ho. apply strict_filter_body_In in Ho as (l & Hl & Hk).
    exists l. repeat split; try assumption.
    destruct (le_lt_dec 3 (len (strip l))) as [|Hlt]; [assumption|].
    rewrite (strict_keep_line_short l Hlt) in Hk. discriminate.
Qed.

Lemma C4_short_line_dropped_witness :
  len (strip " ab ") < 3
  /\ ExtractSubstance.filter_body ["A first sentence."; " ab "; "A second one."]
     = ExtractSubstance.filter_body ["A first sentence."; "A second one."].
Proof.
  assert (H : len (strip " ab ") < 3) by (vm_compute; lia).
  split; [exact H|].
  exact (proj1 (proj2 (proj2 (C4_short_line_dropped " ab " H)))
           ["A first sentence."] ["A second one."]).
Defined.

(** C4 fails as stated: both filters test the length of a line before
    they clean its markdown, so the text of a line of fewer than 3
    characters is in the output when it is what the cleanup leaves of a
    longer line of the body, here the text of a link. *)
Lemma C4_short_text_in_output :
  len (strip "ab") < 3
  /\ In "ab" ["ab"; "[ab](http://x.com/y)"]
  /\ ExtractSubstance.filter_body ["ab"; "[ab](http://x.com/y)"] = ["ab"]
  /\ len (strip "a") < 3
  /\ In "a" ["a"; "[a](x y z)"]
  /\ FinalExtract.filter_body ["a"; "[a](x y z)"] = ["a"].
Proof.
  repeat split; try (vm_compute; lia); try (vm_compute; reflexivity);
    now left.
Qed.

Lemma startswith_cons s c p :
  startswith s (String c p) = true -> exists s', s = String c s' /\ startswith s' p = true.
Proof.
  destruct s as [|a s']; simpl; [discriminate|].
  intros H. apply andb_prop in H as [Ha Hp].
  apply Ascii.eqb_eq in Ha as ->. eauto.
Qed.

Lemma startswith_contains s p : startswith s p = true -> contains p s = true.
Proof. intros H. destruct s; cbn [contains]; now rewrite H. Qed.

Lemma symbols_only_rejects_heading s :
  startswith s "#" = true -> Re.match_ false Patterns.symbols_only s = None.
Proof. intros H. apply startswith_cons in H as (s' & -> & _). reflexivity. Qed.

Lemma long_nonempty s : 3 <= len s -> nonempty s = true.
Proof. destruct s; simpl; [lia | reflexivity]. Qed.

Lemma strict_keeps_heading line :
  startswith (strip line) "#" = true -> 3 <= len (strip line) ->
  FinalExtract.keep_line line = Some (strip line).
Proof.
  intros Hh Hlen. unfold FinalExtract.keep_line.
  rewrite (long_nonempty _ Hlen), Hh. simpl.
  apply Nat.ltb_ge in Hlen. now rewrite Hlen.
Qed.

Lemma base_keeps_heading line :
  startswith (strip line) "#" = true -> 3 <= len (strip line) ->
  any_in ExtractSubstance.nav_words (lower (strip line))
    && (len (strip line) <? 30) = false ->
  ExtractSubstance.keep_line line
  = Some (ExtractSubstance.clean_markdown (strip line)).
Proof.
  intros Hh Hlen Hnav. unfold ExtractSubstance.keep_line.
  rewrite (long_nonempty _ Hlen), Hnav, (symbols_only_rejects_heading _ Hh).
  apply Nat.ltb_ge in Hlen. rewrite Hlen. simpl.
  unfold any_in. simpl.
  rewrite (startswith_contains _ _ Hh), !orb_true_r. reflexivity.
Qed.

(** C3 (as the code has it). Heading precedence holds from 3 characters
    on: a body line whose stripped text starts with [#] and has at least
    3 characters is kept verbatim by the stricter variant, whatever
    keywords it contains; the base filter keeps it, after its markdown
    cleanup, unless the line is shorter than 30 characters and contains a
    navigation keyword. *)
Theorem C3_heading_kept (line : string) :
  startswith (strip line) "#" = true ->
  3 <= len (strip line) ->
  (forall body, In line body -> In (strip line) (FinalExtract.filter_body body))
  /\ (any_in ExtractSubstance.nav_words (lower (strip line))
        && (len (strip line) <? 30) = false ->
      forall body, In line body ->
        In (ExtractSubstance.clean_markdown (strip line))
           (ExtractSubstance.filter_body body)).
Proof.
  intros Hh Hlen. split.
  - intros body Hin. apply strict_filter_body_In. exists line.
    split; [assumption | now apply strict_keeps_heading].
  - intros Hnav body Hin. apply base_filter_body_In. exists line.
    split; [assumption | now apply base_keeps_heading].
Qed.

Lemma C3_heading_kept_witness :
  In "# Privacy" (FinalExtract.filter_body ["Cookie"; "  # Privacy "])
  /\ In "# Terms and conditions of the service"
       (ExtractSubstance.filter_body
          ["# Terms and conditions of the service"]).
Proof.
  split.
  - apply (proj1 (C3_heading_kept "  # Privacy " eq_refl
                    ltac:(vm_compute; lia))).
    simpl; auto.
  - apply (proj2 (C3_heading_kept "# Terms and conditions of the service"
                    eq_refl ltac:(vm_compute; lia)) eq_refl).
    simpl; auto.
Defined.

(** C3 fails as stated: a heading of fewer than 3 characters is dropped
    by both filters, and the base filter drops a short heading that
    contains a navigation keyword. *)
Lemma C3_heading_dropped :
  startswith (strip "##") "#" = true
  /\ ExtractSubstance.filter_body ["##"] = []
  /\ FinalExtract.filter_body ["##"] = []
  /\ startswith (strip "# Menu") "#" = true
  /\ ExtractSubstance.filter_body ["# Menu"] = [].
Proof. repeat split; vm_compute; reflexivity. Qed.

End SubstanceFilter.

(* ===================================================================== *)
(** * Strings *)
(* ===================================================================== *)

Lemma str_app_nil_r (s : string) : s +:+ "" = s.
Proof. induction s as [|c s IH]; simpl; [reflexivity | now rewrite IH]. Qed.

Lemma str_app_assoc (a b c : string) : (a +:+ b) +:+ c = a +:+ (b +:+ c).
Proof. induction a as [|x a IH]; simpl; [reflexivity | now rewrite IH]. Qed.

Lemma str_app_length (a b : string) :
  Py.len (a +:+ b) = Py.len a + Py.len b.
Proof. induction a as [|x a IH]; simpl; [reflexivity | now rewrite <- IH]. Qed.

(* ===================================================================== *)
(** * PDF page markers *)
(* ===================================================================== *)

Section PageMarkers.
Import Py Spec.

Lemma page_loop_marked pages : forall page_num text,
  BatchConvertPymupdf.page_loop pages page_num text
  = text +:+ marked_pages
               (with_text (combine (seq page_num (List.length pages)) pages)).
Proof.
  unfold with_text.
  induction pages as [|t pages IH]; intros n text;
    cbn [BatchConvertPymupdf.page_loop List.length seq combine List.filter snd].
  - cbn [marked_pages]. now rewrite str_app_nil_r.
  - rewrite IH. destruct (nonempty t); cbn [marked_pages]; [|reflexivity].
    now rewrite !str_app_assoc.
Qed.

Lemma collect_page_texts pages : forall text,
  ScrapePdfs.collect pages text = text ++ page_texts pages.
Proof.
  induction pages as [|[t|] pages IH]; intros text; simpl.
  - now rewrite app_nil_r.
  - rewrite IH. destruct (nonempty t); [|reflexivity].
    now rewrite <- app_assoc.
  - apply IH.
Qed.

(** C9 (as the code has it). The PyMuPDF page loop writes, for the pages
    that yield text and in page order, the marker of the page's own
    number followed by the page's text; pages without text are skipped
    and the others keep their numbers. Two pages yielding Intro and Body
    give the marker of page 1 with Intro, then the marker of page 2 with
    Body. The pdfplumber extractor of scrape_pdfs.py writes no marker: it
    joins the texts of the pages that have one with a blank line. *)
Theorem C9_page_markers :
  (forall pages,
     BatchConvertPymupdf.convert pages = marked_pages (with_text (numbered pages)))
  /\ BatchConvertPymupdf.convert ["Intro"; "Body"]
     = NL +:+ "--- Page 1 ---" +:+ NL +:+ "Intro"
       +:+ NL +:+ "--- Page 2 ---" +:+ NL +:+ "Body"
  /\ occurs_then ("--- Page 1 ---" +:+ NL +:+ "Intro")
       ("--- Page 2 ---" +:+ NL +:+ "Body")
       (BatchConvertPymupdf.convert ["Intro"; "Body"])
  /\ BatchConvertPymupdf.convert ["Intro"; ""; "Body"]
     = NL +:+ "--- Page 1 ---" +:+ NL +:+ "Intro"
       +:+ NL +:+ "--- Page 3 ---" +:+ NL +:+ "Body"
  /\ (forall pages,
        ScrapePdfs.extract_text_pdfplumber (Some pages)
        = Some (join (NL +:+ NL) (page_texts pages))).
Proof.
  repeat split.
  - intros pages. unfold BatchConvertPymupdf.convert.
    now rewrite page_loop_marked.
  - exists NL, NL, EmptyString. reflexivity.
  - intros pages. unfold ScrapePdfs.extract_text_pdfplumber.
    now rewrite collect_page_texts.
Qed.

(** C9 fails as stated for the pdfplumber extractor: its output for the
    two pages has no page marker. *)
Lemma C9_pdfplumber_has_no_marker :
  ScrapePdfs.extract_text_pdfplumber (Some [Some "Intro"; Some "Body"])
  = Some ("Intro" +:+ NL +:+ NL +:+ "Body")
  /\ contains "--- Page 1 ---" ("Intro" +:+ NL +:+ NL +:+ "Body") = false.
Proof. split; reflexivity. Qed.

End PageMarkers.

(* ===================================================================== *)
(** * Fetching and classifying *)
(* ===================================================================== *)

Lemma bytes_eqb_eq (a b : list byte) : ScrapeLinks.bytes_eqb a b = true <-> a = b.
Proof.
  revert b. induction a as [|x a IH]; intros [|y b]; simpl;
    try (split; [discriminate | congruence]); [tauto|].
  rewrite andb_true_iff, IH. split.
  - intros [Hxy ->]. now rewrite (byte_dec_bl _ _ Hxy).
  - intros [= -> ->]. split; [now apply byte_dec_lb | reflexivity].
Qed.

Section Scraping.
Import Py ScrapeLinks.

Variable http_get : string -> http_result.
Variable url_path url_netloc : string -> string.
Variable decode : list byte -> string.
Variable HAS_PDFPLUMBER HAS_PYPDF2 : bool.
Variable pdfplumber_pages : list byte -> option (list (option string)).
Variable pypdf_pages : list byte -> option (list string).

Abbreviation scrape :=
  (scrape_link http_get url_path url_netloc decode HAS_PDFPLUMBER HAS_PYPDF2
     pdfplumber_pages pypdf_pages).
Abbreviation pdf_text :=
  (extract_pdf_text HAS_PDFPLUMBER HAS_PYPDF2 pdfplumber_pages pypdf_pages).
Abbreviation safe_name := (sanitize_filename url_path url_netloc).
Abbreviation loop :=
  (main_loop http_get url_path url_netloc decode HAS_PDFPLUMBER HAS_PYPDF2
     pdfplumber_pages pypdf_pages).
Abbreviation step :=
  (main_step http_get url_path url_netloc decode HAS_PDFPLUMBER HAS_PYPDF2
     pdfplumber_pages pypdf_pages).

(** C5. Content classification: [is_pdf_content] holds exactly when the
    first 4 bytes are the PDF magic marker. The content [scrape_link] has
    fetched goes to the PDF text extractor when it is so classified, and
    a record is then saved under a [pdf_] name (when the extractor yields
    text); any other content is decoded as text and saved under a [web_]
    name. *)
Theorem C5_content_classification :
  (forall content, is_pdf_content content = true <-> take 4 content = pdf_magic)
  /\ (forall url output_dir fs content final_url,
        http_get (clean_url url) = Fetched content final_url ->
        content <> [] ->
        (is_pdf_content content = true ->
         scrape url output_dir fs
         = match pdf_text content with
           | Some text =>
               if nonempty text
               then (true,
                     <[path_join output_dir
                         ("pdf_" +:+ safe_name (clean_url url) +:+ ".txt")
                       := record_text (clean_url url) (Some final_url) text]> fs)
               else (false, fs)
           | None => (false, fs)
           end)
        /\ (is_pdf_content content = false ->
            scrape url output_dir fs
            = (true,
               <[path_join output_dir
                   ("web_" +:+ safe_name (clean_url url) +:+ ".txt")
                 := record_text (clean_url url) (Some final_url)
                      (decode content)]> fs))).
Proof.
  split.
  - intros content. unfold is_pdf_content. apply bytes_eqb_eq.
  - intros url output_dir fs content final_url Hget Hne.
    unfold scrape_link, fetch_url. rewrite Hget.
    destruct content as [|b content]; [congruence|].
    split; intros ->; reflexivity.
Qed.

(** C8. Fetch failure is not fatal: when the request for a URL of the
    batch raises (in [requests.get] or in [raise_for_status]), [fetch_url]
    returns [(None, None)], [scrape_link] returns [False] and writes
    nothing, and the loop of [main] counts one failure and goes on with
    the URLs that follow. *)
Theorem C8_fetch_failure_is_not_fatal (url output_dir : string) :
  is_video url = false ->
  already_scraped url = false ->
  http_get (clean_url url) = GetRaised \/ http_get (clean_url url) = StatusRaised ->
  fetch_url http_get (clean_url url) = (None, None)
  /\ (forall fs, scrape url output_dir fs = (false, fs))
  /\ (forall before after st,
        loop output_dir (before ++ url :: after) st
        = loop output_dir after
            (let st' := loop output_dir before st in
             {| files := files st'; successful := successful st';
                failed := S (failed st'); skipped := skipped st' |})).
Proof.
  intros Hvideo Hdone Hraise.
  assert (Hfetch : fetch_url http_get (clean_url url) = (None, None)).
  { unfold fetch_url. now destruct Hraise as [-> | ->]. }
  assert (Hscrape : forall fs, scrape url output_dir fs = (false, fs)).
  { intros fs. unfold scrape_link. now rewrite Hfetch. }
  repeat split; try assumption.
  intros before after st. unfold main_loop.
  rewrite fold_left_app. simpl. f_equal.
  unfold main_step at 1. now rewrite Hvideo, Hdone, Hscrape.
Qed.

End Scraping.

Lemma C5_content_classification_witness :
  ScrapeLinks.scrape_link
    (fun _ => ScrapeLinks.Fetched [x25; x50; x44; x46; x2d] "https://x.org/a.pdf")
    (fun _ => "/a.pdf") (fun _ => "x.org") (fun _ => "")
    true false (fun _ => Some [Some "Intro"]) (fun _ => None)
    "https://x.org/a.pdf;" "out" ∅
  = (true, {[ "out/pdf_a_pdf.txt" :=
                ScrapeLinks.record_text "https://x.org/a.pdf"
                  (Some "https://x.org/a.pdf") "Intro" ]}).
Proof.
  apply (proj1 (proj2 (C5_content_classification
    (fun _ => ScrapeLinks.Fetched [x25; x50; x44; x46; x2d] "https://x.org/a.pdf")
    (fun _ => "/a.pdf") (fun _ => "x.org") (fun _ => "")
    true false (fun _ => Some [Some "Intro"]) (fun _ => None))
    "https://x.org/a.pdf;" "out" ∅ [x25; x50; x44; x46; x2d]
    "https://x.org/a.pdf" eq_refl ltac:(discriminate)) eq_refl).
Defined.

Lemma C8_fetch_failure_is_not_fatal_witness :
  ScrapeLinks.successful
    (ScrapeLinks.main_loop
       (fun u => if String.eqb u "http://down.example/a"
                 then ScrapeLinks.GetRaised
                 else ScrapeLinks.Fetched [x3c; x70; x3e] u)
       (fun _ => "/a") (fun _ => "") (fun _ => "<p>")
       false false (fun _ => None) (fun _ => None)
       "out" ["http://down.example/a;"; "http://up.example/b"]
       {| ScrapeLinks.files := ∅; ScrapeLinks.successful := 0;
          ScrapeLinks.failed := 0; ScrapeLinks.skipped := 0 |})
  = 1.
Proof.
  rewrite (proj2 (proj2 (C8_fetch_failure_is_not_fatal
    (fun u => if String.eqb u "http://down.example/a"
              then ScrapeLinks.GetRaised
              else ScrapeLinks.Fetched [x3c; x70; x3e] u)
    (fun _ => "/a") (fun _ => "") (fun _ => "<p>")
    false false (fun _ => None) (fun _ => None)
    "http://down.example/a;" "out" eq_refl eq_refl (or_introl eq_refl)))
    [] ["http://up.example/b"]).
  reflexivity.
Defined.

(* ===================================================================== *)
(** * The aggressive cleaning sweep *)
(* ===================================================================== *)

Section Sweep.
Import Py AggressiveClean.

Variable html_events : string -> option (list html_event).
Variable unescape : string -> string.

Abbreviation cleaned := (cleaned_of html_events unescape).
Abbreviation clean := (clean_file html_events unescape).
Abbreviation sweep_step := (main_step html_events unescape).

Abbreviation sweep_loop := (main_loop html_events unescape).

(** A turn of the loop touches no other file. *)
Lemma sweep_step_other st p q :
  p <> q -> files (sweep_step st q) !! p = files st !! p.
Proof.
  intros Hne. unfold main_step, clean_file.
  destruct (files st !! q) as [stored|] eqn:Hq; [|reflexivity].
  destruct (len (text_only (cleaned (read_text stored))) <? 150); cbn [files].
  - now apply lookup_delete_ne.
  - now apply lookup_insert_ne.
Qed.

Lemma sweep_loop_other paths : forall st p,
  ~ In p paths -> files (sweep_loop paths st) !! p = files st !! p.
Proof.
  unfold main_loop.
  induction paths as [|q paths IH]; intros st p Hp; [reflexivity|].
  cbn [fold_left]. rewrite IH by (intros ?; apply Hp; now right).
  apply sweep_step_other. intros <-. apply Hp. now left.
Qed.

(** C2. Minimum-substance deletion: for a record file of the sweep, when
    the cleaned text with its whitespace runs collapsed is shorter than
    150 characters, [clean_file] returns [False] and leaves the file as it
    is, and the sweep unlinks the file; from 150 characters on, the file
    is overwritten with the rebuilt record and is not deleted. Either way
    the file stays so to the end of the sweep over the other files.
    [content] is the text of the file as [clean_file] reads it. *)
Theorem C2_minimum_substance (st : sweep) (file_path stored : string) :
  files st !! file_path = Some stored ->
  let content := read_text stored in
  (len (text_only (cleaned content)) < 150 ->
   clean (files st) file_path = Some (false, files st)
   /\ sweep_step st file_path
      = {| files := delete file_path (files st);
           success := success st; deleted := S (deleted st) |}
   /\ (forall others, ~ In file_path others ->
         files (sweep_loop (file_path :: others) st) !! file_path = None))
  /\ (150 <= len (text_only (cleaned content)) ->
      clean (files st) file_path
      = Some (true, <[file_path := rebuilt content (cleaned content)]> (files st))
      /\ sweep_step st file_path
         = {| files := <[file_path := rebuilt content (cleaned content)]> (files st);
              success := S (success st); deleted := deleted st |}
      /\ (forall others, ~ In file_path others ->
            files (sweep_loop (file_path :: others) st) !! file_path
            = Some (rebuilt content (cleaned content)))).
Proof.
  intros Hfile content. split; intros Hlen.
  - assert (Hc : clean (files st) file_path = Some (false, files st)).
    { unfold clean_file. rewrite Hfile. fold content.
      apply Nat.ltb_lt in Hlen. now rewrite Hlen. }
    assert (Hs : sweep_step st file_path
                 = {| files := delete file_path (files st);
                      success := success st; deleted := S (deleted st) |}).
    { unfold main_step. now rewrite Hc. }
    repeat split; try assumption.
    intros others Hothers. unfold main_loop. cbn [fold_left].
    fold (sweep_loop others (sweep_step st file_path)).
    rewrite sweep_loop_other, Hs by assumption.
    apply lookup_delete_eq.
  - assert (Hc : clean (files st) file_path
                 = Some (true, <[file_path := rebuilt content (cleaned content)]>
                                 (files st))).
    { unfold clean_file. rewrite Hfile. fold content.
      apply Nat.ltb_ge in Hlen. now rewrite Hlen. }
    assert (Hs : sweep_step st file_path
                 = {| files := <[file_path := rebuilt content (cleaned content)]>
                                 (files st);
                      success := S (success st); deleted := deleted st |}).
    { unfold main_step. now rewrite Hc. }
    repeat split; try assumption.
    intros others Hothers. unfold main_loop. cbn [fold_left].
    fold (sweep_loop others (sweep_step st file_path)).
    rewrite sweep_loop_other, Hs by assumption.
    apply lookup_insert_eq.
Qed.

End Sweep.

Lemma C2_minimum_substance_witness :
  AggressiveClean.files
    (AggressiveClean.main_loop
       (fun _ => Some [AggressiveClean.Data "too short to keep"]) (fun d => d)
       ["web_a.txt"; "web_b.txt"]
       {| AggressiveClean.files := <["web_a.txt" := "too short to keep"]> ∅;
          AggressiveClean.success := 0; AggressiveClean.deleted := 0 |})
  !! "web_a.txt" = None.
Proof.
  apply (proj1 (C2_minimum_substance
    (fun _ => Some [AggressiveClean.Data "too short to keep"]) (fun d => d)
    {| AggressiveClean.files := <["web_a.txt" := "too short to keep"]> ∅;
       AggressiveClean.success := 0; AggressiveClean.deleted := 0 |}
    "web_a.txt" "too short to keep" (lookup_insert_eq _ _ _))).
  - vm_compute. lia.
  - intros [H | []]. discriminate H.
Defined.

(* ===================================================================== *)
(** * Real sentences and markdown cleanup *)
(* ===================================================================== *)

Section Sentences.
Import Py FinalExtract.

(** What [is_real_sentence] decides, test by test. *)
Lemma is_real_sentence_true_iff line :
  is_real_sentence line = true <->
  is_Some (Re.search false letter line)
  /\ 3 <= List.length (words line)
  /\ any_in junk_words (lower line) = false
  /\ contains "http" line && contains "://" line = false
  /\ 2 * symbol_count line <= List.length (words line).
Proof.
  unfold is_real_sentence.
  destruct (bool_decide_reflect (is_Some (Re.search false letter line)))
    as [Hl|Hl]; cbn [negb]; [|split; [discriminate | tauto]].
  destruct (Nat.ltb_spec (List.length (words line)) 3);
    [split; [discriminate | lia]|].
  destruct (any_in junk_words (lower line));
    [split; [discriminate | intros (_ & _ & ? & _); discriminate]|].
  destruct (contains "http" line && contains "://" line);
    [split; [discriminate | intros (_ & _ & _ & ? & _); discriminate]|].
  destruct (Nat.ltb_spec (List.length (words line)) (2 * symbol_count line));
    [split; [discriminate | lia]|].
  tauto.
Qed.

(** A one-character pattern is found exactly when the text has a
    character of the set. *)
Lemma search_one cs s : forall prev,
  is_Some (Re.search_from false [Re.One cs] prev s) <->
  exists c, has_char c s = true /\ Re.cs_mem cs c = true.
Proof.
  induction s as [|a s IH]; intros prev; cbn [Re.search_from Re.run].
  - split; [intros [? ?]; discriminate | intros (c & Hc & _); discriminate].
  - destruct (Re.cs_mem cs a) eqn:Ha; cbn [Re.push].
    + split; [intros _ | eauto]. exists a. cbn [has_char].
      now rewrite Ascii.eqb_refl.
    + rewrite IH. split; intros (c & Hc & Hm); exists c.
      * cbn [has_char]. rewrite Hc, orb_true_r. auto.
      * cbn [has_char] in Hc. destruct (Ascii.eqb_spec a c) as [->|];
          [congruence | auto].
Qed.

(** A real sentence has a letter. *)
Lemma is_real_sentence_has_letter line :
  is_real_sentence line = true ->
  exists c, has_char c line = true
            /\ Re.cs_mem (Re.Cls [Re.CRange "a" "z"; Re.CRange "A" "Z"]) c = true.
Proof.
  rewrite is_real_sentence_true_iff. intros (H & _).
  now apply (search_one _ line None).
Qed.

(** The exclusions by word count, keyword, bare URL and symbol count. *)
Lemma is_real_sentence_exclusions line :
  (List.length (words line) < 3 -> is_real_sentence line = false)
  /\ (any_in junk_words (lower line) = true -> is_real_sentence line = false)
  /\ (contains "http" line = true -> contains "://" line = true ->
      is_real_sentence line = false)
  /\ (List.length (words line) < 2 * symbol_count line ->
      is_real_sentence line = false).
Proof.
  repeat split; intros; apply not_true_is_false;
    rewrite is_real_sentence_true_iff; intros (_ & ? & ? & ? & ?);
    try lia; try congruence.
  rewrite H, H0 in *. discriminate.
Qed.

(** C7. The line below is dominated by symbol characters (twelve of
    them, for fifteen words), and [is_real_sentence] accepts it: the
    pattern of the symbol test has no match in it, so its symbol count
    is 0. *)
Theorem C7_symbol_line_accepted :
  let line := ") ( ] [ } { ) ( ] [ } { one two three" in
  List.length (words line) = 15
  /\ symbol_count line = 0
  /\ is_real_sentence line = true.
Proof. repeat split; vm_compute; reflexivity. Qed.

(** C6. The cleanup of a kept line turns the link of the example into
    its text, but an image with an alternative text is not dropped: the
    link pattern is applied first and takes the bracket part of the
    image, leaving the exclamation mark and the text. [polish_file],
    which applies the image pattern first, drops the image. *)
Theorem C6_image_not_dropped :
  ExtractSubstance.clean_markdown "See [here](http://x.com/y) for details."
  = "See here for details."
  /\ ExtractSubstance.keep_line "Logo ![alt](http://x.com/i.png) here."
     = Some "Logo !alt here."
  /\ ExtractSubstance.clean_markdown "Logo ![alt](http://x.com/i.png) here."
     = "Logo !alt here."
  /\ PolishFiles.polish_body "Logo ![alt](http://x.com/i.png) here."
     = "Logo here.".
Proof. repeat split; vm_compute; reflexivity. Qed.

End Sentences.

(* ===================================================================== *)
(** * The header across the filter passes *)
(* ===================================================================== *)

Section HeaderPasses.
Import Py Spec.

Lemma has_char_app c a b : has_char c (a +:+ b) = has_char c a || has_char c b.
Proof.
  induction a as [|x a IH]; simpl; [reflexivity|].
  now rewrite IH, orb_assoc.
Qed.

Lemma url_no_newline u : is_url u = true -> has_char nl u = false.
Proof.
  unfold is_url. intros H. apply andb_prop in H as [_ H].
  induction u as [|c u IH]; [reflexivity|].
  simpl in H. apply andb_prop in H as [Hc Hu].
  cbn [has_char]. rewrite (IH Hu), orb_false_r.
  apply negb_true_iff in Hc. rewrite orb_false_r in Hc.
  destruct (Ascii.eqb_spec c nl) as [->|]; [discriminate | reflexivity].
Qed.

Lemma repeat_no_newline n : has_char nl (repeat_char "=" n) = false.
Proof. induction n as [|n IH]; simpl; [reflexivity | assumption]. Qed.

Lemma readlines_line l rest :
  has_char nl l = false ->
  readlines (l +:+ NL +:+ rest) = (l +:+ NL) :: readlines rest.
Proof.
  induction l as [|a l IH]; intros H; [reflexivity|].
  cbn [has_char] in H. apply orb_false_elim in H as [Ha Hl].
  cbn [String.append readlines]. rewrite Ha.
  change (l +:+ String nl rest) with (l +:+ NL +:+ rest).
  now rewrite (IH Hl).
Qed.

Lemma split_line l rest :
  has_char nl l = false ->
  split nl (l +:+ NL +:+ rest) = l :: split nl rest.
Proof.
  induction l as [|a l IH]; intros H; [reflexivity|].
  cbn [has_char] in H. apply orb_false_elim in H as [Ha Hl].
  cbn [String.append split]. rewrite Ha.
  change (l +:+ String nl rest) with (l +:+ NL +:+ rest).
  now rewrite (IH Hl).
Qed.

Lemma first_two_lines_intro a b rest :
  has_char nl a = false -> has_char nl b = false ->
  first_two_lines (a +:+ NL +:+ b +:+ NL +:+ rest) = [a; b].
Proof.
  intros Ha Hb. unfold first_two_lines.
  now rewrite (split_line a), (split_line b).
Qed.

Lemma rstrip_app_drop a b : rstrip b = "" -> rstrip (a +:+ b) = rstrip a.
Proof.
  intros Hb. induction a as [|c a IH]; [assumption|].
  cbn [String.append rstrip]. now rewrite IH.
Qed.

Lemma rstrip_app_keep a b : rstrip b <> "" -> rstrip (a +:+ b) = a +:+ rstrip b.
Proof.
  intros Hb. induction a as [|c a IH]; [reflexivity|].
  cbn [String.append rstrip]. rewrite IH.
  destruct (a +:+ rstrip b) eqn:E; [|reflexivity].
  destruct a; [simpl in E; contradiction | discriminate].
Qed.

Lemma rstrip_head c s : isspace c = false -> rstrip (String c s) <> "".
Proof.
  intros Hc. cbn [rstrip]. destruct (rstrip s); [now rewrite Hc | discriminate].
Qed.

Lemma rstrip_url u : is_url u = true -> rstrip u = u /\ u <> "".
Proof.
  unfold is_url. intros H. apply andb_prop in H as [Hn H].
  split; [|destruct u; [discriminate | discriminate]].
  clear Hn. induction u as [|c u IH]; [reflexivity|].
  simpl in H. apply andb_prop in H as [Hc Hu].
  apply negb_true_iff in Hc. rewrite orb_false_r in Hc.
  cbn [rstrip]. rewrite (IH Hu). destruct u; [now rewrite Hc | reflexivity].
Qed.

(** What a pass leaves of a header line read with its newline. *)
Lemma rstrip_header_line prefix u :
  is_url u = true -> rstrip (prefix +:+ u +:+ NL) = prefix +:+ u.
Proof.
  intros Hu. apply rstrip_url in Hu as [Hr Hne].
  rewrite <- (str_app_assoc prefix u NL).
  rewrite rstrip_app_drop by reflexivity.
  rewrite rstrip_app_keep; now rewrite Hr.
Qed.

Lemma separator_found n rest :
  10 <= n -> Header.has_separator (repeat_char "=" n +:+ rest) = true.
Proof.
  intros Hn. unfold Header.has_separator.
  do 10 (destruct n as [|n]; [lia|]). reflexivity.
Qed.

Lemma separator_not_url n rest :
  10 <= n -> Header.is_url_line (repeat_char "=" n +:+ rest) = false.
Proof. intros Hn. destruct n as [|n]; [lia | reflexivity]. Qed.

(** The header as the two scripts named [extract_substance] re-parse
    it: the scan stops at the separator, whatever the body is. *)
Lemma header_scan_record u v n body :
  is_url u = true -> is_url v = true -> 10 <= n ->
  Header.scan
    (readlines ("Source URL: " +:+ u +:+ NL +:+ "Final URL: " +:+ v +:+ NL
                +:+ repeat_char "=" n +:+ NL +:+ body)) 0 []
  = (["Source URL: " +:+ u; "Final URL: " +:+ v], 3).
Proof.
  intros Hu Hv Hn.
  rewrite <- (str_app_assoc "Source URL: " u), <- (str_app_assoc "Final URL: " v).
  rewrite (readlines_line ("Source URL: " +:+ u)),
          (readlines_line ("Final URL: " +:+ v)),
          (readlines_line (repeat_char "=" n));
    try (rewrite has_char_app; cbn [orb has_char Ascii.eqb]);
    try (now apply url_no_newline); try apply repeat_no_newline.
  cbn [Header.scan].
  replace (Header.is_url_line (("Source URL: " +:+ u) +:+ NL)) with true
    by reflexivity.
  replace (Header.is_url_line (("Final URL: " +:+ v) +:+ NL)) with true
    by reflexivity.
  rewrite separator_not_url, separator_found by assumption.
  rewrite !str_app_assoc, !rstrip_header_line by assumption.
  reflexivity.
Qed.

Lemma rebuild_first_two_lines u v content_lines :
  is_url u = true -> is_url v = true ->
  first_two_lines
    (Header.rebuild ["Source URL: " +:+ u; "Final URL: " +:+ v] content_lines)
  = ["Source URL: " +:+ u; "Final URL: " +:+ v].
Proof.
  intros Hu Hv. unfold Header.rebuild. cbn [join].
  rewrite !str_app_assoc.
  rewrite <- (str_app_assoc "Source URL: " u), <- (str_app_assoc "Final URL: " v).
  apply first_two_lines_intro;
    rewrite has_char_app; cbn [orb has_char Ascii.eqb]; now apply url_no_newline.
Qed.

(** X14. Header idempotence of [extract_substance], in extract_substance.py
    and in final_extract.py, for every body. *)
Lemma extract_substance_keeps_header u v n body :
  is_url u = true -> is_url v = true -> 10 <= n ->
  let content := "Source URL: " +:+ u +:+ NL +:+ "Final URL: " +:+ v +:+ NL
                 +:+ repeat_char "=" n +:+ NL +:+ body in
  first_two_lines (ExtractSubstance.output content)
  = ["Source URL: " +:+ u; "Final URL: " +:+ v]
  /\ first_two_lines (FinalExtract.output content)
     = ["Source URL: " +:+ u; "Final URL: " +:+ v].
Proof.
  intros Hu Hv Hn content.
  unfold ExtractSubstance.output, FinalExtract.output, content.
  rewrite header_scan_record by assumption.
  split; now apply rebuild_first_two_lines.
Qed.

Lemma header_lines_from_ge lines : forall i h,
  h <= PolishFiles.header_lines_from lines i h
  \/ i + 2 <= PolishFiles.header_lines_from lines i h.
Proof.
  induction lines as [|l lines IH]; intros i h; cbn [PolishFiles.header_lines_from];
    [left; lia|].
  destruct (Header.is_url_line l || Header.has_separator l).
  - destruct (IH (S i) (i + 2)); right; lia.
  - destruct (IH (S i) h); [left | right]; lia.
Qed.

Lemma join_starts sep n l :
  10 <= n -> exists t, join sep (repeat_char "=" n :: l) = String "=" t.
Proof.
  intros Hn. destruct n as [|n]; [lia|].
  destruct l; cbn [join repeat_char String.append]; eauto.
Qed.

(** X15. Header idempotence of [polish_file], for every body: the header
    lines are part of the block copied verbatim. *)
Lemma polish_file_keeps_header u v n body :
  is_url u = true -> is_url v = true -> 10 <= n ->
  first_two_lines
    (PolishFiles.output
       ("Source URL: " +:+ u +:+ NL +:+ "Final URL: " +:+ v +:+ NL
        +:+ repeat_char "=" n +:+ NL +:+ body))
  = ["Source URL: " +:+ u; "Final URL: " +:+ v].
Proof.
  intros Hu Hv Hn. unfold PolishFiles.output.
  assert (H0 : has_char nl ("Source URL: " +:+ u) = false)
    by (rewrite has_char_app; cbn [orb has_char Ascii.eqb]; now apply url_no_newline).
  assert (H1 : has_char nl ("Final URL: " +:+ v) = false)
    by (rewrite has_char_app; cbn [orb has_char Ascii.eqb]; now apply url_no_newline).
  rewrite <- (str_app_assoc "Source URL: " u), <- (str_app_assoc "Final URL: " v).
  rewrite (split_line _ _ H0), (split_line _ _ H1),
          (split_line _ _ (repeat_no_newline n)).
  cbn [PolishFiles.header_lines_from].
  replace (Header.is_url_line ("Source URL: " +:+ u)) with true by reflexivity.
  replace (Header.is_url_line ("Final URL: " +:+ v)) with true by reflexivity.
  pose proof (separator_found n "" Hn) as Hsep.
  rewrite str_app_nil_r in Hsep. rewrite Hsep, orb_true_r.
  cbn [orb Nat.add].
  destruct (header_lines_from_ge (split nl body) 3 4) as [Hge|Hge];
    (destruct (PolishFiles.header_lines_from (split nl body) 3 4)
       as [|[|[|[|k]]]]; [lia ..|]);
    cbn [take drop];
    destruct (join_starts NL n (take (S k) (split nl body)) Hn) as [t Ht];
    cbn [join]; cbn [join] in Ht; rewrite Ht;
    rewrite <- !str_app_assoc;
    rewrite (rstrip_app_keep _ (String "=" t)) by (now apply rstrip_head);
    rewrite !str_app_assoc;
    rewrite <- (str_app_assoc "Source URL: " u), <- (str_app_assoc "Final URL: " v);
    now apply first_two_lines_intro.
Qed.

(** A text without whitespace has no occurrence of a header prefix. *)
Lemma no_prefix_in_url old new u :
  old = "Source URL:" \/ old = "Final URL:" ->
  all_in (Re.NCls [Re.CSpace]) u = true ->
  replace_go old new 0 u = u.
Proof.
  intros Hold. induction u as [|c u IH]; intros Hu; [reflexivity|].
  cbn [replace_go].
  destruct (startswith (String c u) old) eqn:Hs.
  - exfalso. revert Hs Hu. generalize (String c u). intros s Hs Hu.
    destruct Hold as [-> | ->].
    + do 6 (apply startswith_cons in Hs as (? & -> & Hs);
            cbn [all_in] in Hu; apply andb_prop in Hu as [_ Hu]).
      apply startswith_cons in Hs as (? & -> & Hs). discriminate Hu.
    + do 5 (apply startswith_cons in Hs as (? & -> & Hs);
            cbn [all_in] in Hu; apply andb_prop in Hu as [_ Hu]).
      apply startswith_cons in Hs as (? & -> & Hs). discriminate Hu.
  - cbn [all_in] in Hu. apply andb_prop in Hu as [_ Hu]. now rewrite IH.
Qed.

Lemma lstrip_url u : is_url u = true -> lstrip u = u.
Proof.
  unfold is_url. intros H. apply andb_prop in H as [_ H].
  destruct u as [|c u]; [reflexivity|].
  cbn [all_in] in H. apply andb_prop in H as [Hc _].
  simpl in Hc. apply negb_true_iff in Hc. rewrite orb_false_r in Hc.
  cbn [lstrip]. now rewrite Hc.
Qed.

Lemma header_value prefix u :
  prefix = "Source URL:" \/ prefix = "Final URL:" ->
  is_url u = true ->
  strip (replace (prefix +:+ " " +:+ u) prefix "") = u.
Proof.
  intros Hp Hu. assert (Hall : all_in (Re.NCls [Re.CSpace]) u = true).
  { unfold is_url in Hu. now apply andb_prop in Hu as [_ ?]. }
  unfold replace, strip.
  destruct Hp as [-> | ->]; cbn [String.append replace_go startswith Ascii.eqb
    Bool.eqb andb len String.length Nat.sub];
    rewrite (no_prefix_in_url _ _ u) by auto;
    cbn [lstrip]; replace (isspace " ") with true by reflexivity;
    rewrite lstrip_url by assumption; now apply rstrip_url.
Qed.





(** C1. A record whose body begins with a line that starts with the
    [Source URL:] prefix: [extract_substance] and [polish_file] write the
    two header lines back as they were, [process_file] does not: its
    metadata scan reads the first five lines of the file, one more than
    the header block, and takes the source URL from the body line. *)
Theorem C1_process_file_reads_body_line
    (soup_text html2text_handle : string -> option string) :
  let content :=
    "Source URL: http://a.example/page" +:+ NL
    +:+ "Final URL: http://a.example/final" +:+ NL
    +:+ repeat_char "=" 80 +:+ NL +:+ NL
    +:+ "Source URL: http://b.example/quoted in the text." +:+ NL
    +:+ "A sentence of the body." in
  first_two_lines content
  = ["Source URL: http://a.example/page"; "Final URL: http://a.example/final"]
  /\ first_two_lines (ExtractSubstance.output content)
     = ["Source URL: http://a.example/page"; "Final URL: http://a.example/final"]
  /\ first_two_lines (FinalExtract.output content)
     = ["Source URL: http://a.example/page"; "Final URL: http://a.example/final"]
  /\ first_two_lines (PolishFiles.output content)
     = ["Source URL: http://a.example/page"; "Final URL: http://a.example/final"]
  /\ first_two_lines (ConvertHtml.output soup_text html2text_handle content)
     = ["Source URL: http://b.example/quoted in the text.";
        "Final URL: http://a.example/final"].
Proof.
  intros content. repeat split; try (vm_compute; reflexivity).
Qed.

End HeaderPasses.

(* ===================================================================== *)
(** * Matching, on texts that are not known in full *)
(* ===================================================================== *)

Section Matching.
Import Py Re Spec.

Lemma push_none t : push t None = None.
Proof. reflexivity. Qed.

Lemma push_str_none s : push_str s None = None.
Proof. induction s as [|c s IH]; simpl; [reflexivity | now rewrite IH]. Qed.

Lemma push_str_some s ts rest :
  push_str s (Some (ts, rest)) = Some (chars s ++ ts, rest).
Proof. induction s as [|c s IH]; simpl; [reflexivity | now rewrite IH]. Qed.

Lemma push_str_app a b r : push_str (a +:+ b) r = push_str a (push_str b r).
Proof. induction a as [|c a IH]; simpl; [reflexivity | now rewrite IH]. Qed.

Lemma nonempty_len s : nonempty s = true -> 1 <= len s.
Proof. destruct s; simpl; [discriminate | lia]. Qed.

(** A greedy repetition takes the whole run of characters of its set
    when the rest of the pattern matches after it. *)
Lemma rep_greedy_success k cs s : forall rest r lo prev,
  all_in cs s = true -> stops cs rest = true -> lo <= len s ->
  k (prev_after prev s) rest = Some r ->
  rep k cs lo None true prev (s +:+ rest) = push_str s (Some r).
Proof.
  induction s as [|c s IH]; intros rest r lo prev Hall Hstop Hlo Hk.
  - simpl in *. assert (lo = 0) as -> by lia.
    destruct rest as [|c rest]; simpl; [assumption|].
    simpl in Hstop. apply negb_true_iff in Hstop. now rewrite Hstop.
  - simpl in Hall. apply andb_prop in Hall as [Hc Hall].
    cbn [String.append rep push_str prev_after] in *. rewrite Hc. cbn [hi_allows andb hi_pred].
    rewrite (IH rest r (pred lo) (Some c)); try assumption; [|simpl in Hlo; lia].
    destruct r as [ts rest']. now rewrite push_str_some.
Qed.

(** When the rest of the pattern cannot start on a character of the set,
    the whole run is the only stop there is. *)
Lemma rep_greedy_exact k cs
    (Hk : forall p c s, cs_mem cs c = true -> k p (String c s) = None) s :
  forall rest lo prev,
  all_in cs s = true -> stops cs rest = true -> lo <= len s ->
  rep k cs lo None true prev (s +:+ rest)
  = push_str s (k (prev_after prev s) rest).
Proof.
  induction s as [|c s IH]; intros rest lo prev Hall Hstop Hlo.
  - simpl in *. assert (lo = 0) as -> by lia.
    destruct rest as [|c rest]; simpl; [reflexivity|].
    simpl in Hstop. apply negb_true_iff in Hstop. now rewrite Hstop.
  - simpl in Hall. apply andb_prop in Hall as [Hc Hall].
    cbn [String.append rep push_str prev_after] in *. rewrite Hc. cbn [hi_allows andb hi_pred].
    rewrite (IH rest (pred lo) (Some c)); try assumption; [|simpl in Hlo; lia].
    destruct (push (TChr c) (push_str s (k (prev_after (Some c) s) rest)));
      [reflexivity|].
    destruct lo; [now apply Hk | reflexivity].
Qed.

Lemma run_lits ml lit p : forall prev s,
  run ml (lits lit ++ p) prev (lit +:+ s)
  = push_str lit (run ml p (prev_after prev lit) s).
Proof.
  induction lit as [|c lit IH]; intros prev s; [reflexivity|].
  cbn [lits app String.append run cs_mem push_str prev_after].
  now rewrite Ascii.eqb_refl, IH.
Qed.

Lemma groups_chars s ts : groups (chars s ++ ts) = groups ts.
Proof. induction s as [|c s IH]; simpl; [reflexivity | assumption]. Qed.

Lemma until_close_chars s ts : until_close (chars s ++ TClose :: ts) = s.
Proof. induction s as [|c s IH]; simpl; [reflexivity | now rewrite IH]. Qed.

Lemma groups_open s ts :
  groups (TOpen :: chars s ++ TClose :: ts) = s :: groups ts.
Proof. simpl. now rewrite until_close_chars, groups_chars. Qed.

End Matching.

(* ===================================================================== *)
(** * GitHub URLs *)
(* ===================================================================== *)

Section Github.
Import Py Re Spec FixGithub.

Lemma segment_parts seg :
  is_segment seg = true ->
  all_in (NCls [CChr "/"]) seg = true /\ 1 <= len seg.
Proof.
  unfold is_segment. intros H. apply andb_prop in H as [Hn Ha].
  split; [assumption | now apply nonempty_len].
Qed.

Lemma run_open ml p prev s : run ml (Open :: p) prev s = push TOpen (run ml p prev s).
Proof. reflexivity. Qed.

Lemma run_close ml p prev s : run ml (Close :: p) prev s = push TClose (run ml p prev s).
Proof. reflexivity. Qed.

Lemma run_one_lit ml c p prev s :
  run ml (One (Lit c) :: p) prev (String c s) = push (TChr c) (run ml p (Some c) s).
Proof. simpl. now rewrite Ascii.eqb_refl. Qed.

(** After a segment the patterns go on with a slash. *)
Lemma after_segment_fails ml p q c s :
  cs_mem (NCls [CChr "/"]) c = true ->
  run ml (Close :: One (Lit "/") :: p) q (String c s) = None.
Proof.
  simpl. intros H. apply negb_true_iff in H. rewrite orb_false_r in H.
  now rewrite H.
Qed.

Lemma run_segment_slash ml p prev seg rest :
  is_segment seg = true ->
  run ml (segment :: Close :: One (Lit "/") :: p) prev (seg +:+ "/" +:+ rest)
  = push_str seg (push TClose (push (TChr "/") (run ml p (Some "/"%char) rest))).
Proof.
  intros Hseg. apply segment_parts in Hseg as [Hall Hlen].
  unfold segment, plus. cbn [run].
  change ("/" +:+ rest) with (String "/" rest).
  rewrite rep_greedy_exact; try assumption; try reflexivity.
  intros q c s. apply (after_segment_fails ml p q).
Qed.

Lemma run_segment ml p prev seg rest :
  is_segment seg = true -> stops (NCls [CChr "/"]) rest = true ->
  run ml (segment :: Close :: One (Lit "/") :: p) prev (seg +:+ rest)
  = push_str seg (run ml (Close :: One (Lit "/") :: p) (prev_after prev seg) rest).
Proof.
  intros Hseg Hstop. apply segment_parts in Hseg as [Hall Hlen].
  unfold segment, plus. cbn [run].
  rewrite rep_greedy_exact; try assumption; try reflexivity.
  intros q c s. apply (after_segment_fails ml p q).
Qed.

Lemma run_lits_mismatch ml lit p : forall prev s,
  startswith s lit = false -> run ml (lits lit ++ p) prev s = None.
Proof.
  induction lit as [|c lit IH]; intros prev s H; [simpl in H; discriminate|].
  destruct s as [|a s]; [reflexivity|].
  cbn [lits app run cs_mem]. simpl in H.
  destruct (Ascii.eqb a c); [|reflexivity].
  simpl in H. now rewrite IH.
Qed.

Lemma lits_app a b : lits (a +:+ b) = lits a ++ lits b.
Proof. induction a as [|c a IH]; simpl; [reflexivity | now rewrite IH]. Qed.

Lemma groups_chr c ts : groups (TChr c :: ts) = groups ts.
Proof. reflexivity. Qed.



(** The pattern of one kind has no match on a URL of another shape: one
    that ends after the repository, or goes on with something else. *)
Lemma branch_url_stops kind user repo rest :
  is_segment user = true -> is_segment repo = true ->
  stops (NCls [CChr "/"]) rest = true ->
  startswith rest ("/" +:+ kind +:+ "/") = false ->
  match_ false (branch_url kind)
    ("https://github.com/" +:+ user +:+ "/" +:+ repo +:+ rest) = None.
Proof.
  intros Hu Hr Hstop Hrest. unfold match_, branch_url.
  rewrite run_lits. cbn [app]. rewrite run_open.
  rewrite run_segment_slash by assumption. rewrite run_open.
  change (lits ("/" +:+ kind +:+ "/")) with (One (Lit "/") :: lits (kind +:+ "/")).
  cbn [app].
  rewrite run_segment by assumption. rewrite run_close.
  change (One (Lit "/") :: lits (kind +:+ "/") ++ ?p)
    with (lits ("/" +:+ kind +:+ "/") ++ p).
  rewrite run_lits_mismatch by assumption.
  cbn [push]. rewrite push_str_none. cbn [push]. rewrite push_str_none.
  cbn [push]. now rewrite push_str_none.
Qed.

(** The pattern of a bare repository URL. *)
Lemma repo_url_matches user repo :
  is_segment user = true -> is_segment repo = true ->
  option_map groups
    (match_ false repo_url ("https://github.com/" +:+ user +:+ "/" +:+ repo))
  = Some [user; repo].
Proof.
  intros Hu Hr. unfold match_, repo_url.
  rewrite run_lits. cbn [app]. rewrite run_open.
  rewrite run_segment_slash by assumption. rewrite run_open.
  apply segment_parts in Hr as [Hall Hlen].
  unfold segment, plus. cbn [run].
  rewrite <- (str_app_nil_r repo) at 1.
  rewrite (rep_greedy_success _ _ _ _ ([TClose], EmptyString));
    try assumption; try reflexivity.
  repeat (cbn [push]; rewrite push_str_some). cbn [push option_map].
  repeat (rewrite groups_chars || rewrite groups_open || rewrite groups_chr).
  reflexivity.
Qed.


Lemma convert_raw url :
  contains "raw.githubusercontent.com" url = true ->
  convert_github_to_raw url = Some url.
Proof. intros H. unfold convert_github_to_raw. now rewrite H. Qed.




Lemma convert_repo user repo :
  is_segment user = true -> is_segment repo = true ->
  contains "raw.githubusercontent.com"
    ("https://github.com/" +:+ user +:+ "/" +:+ repo) = false ->
  convert_github_to_raw ("https://github.com/" +:+ user +:+ "/" +:+ repo)
  = Some ("https://raw.githubusercontent.com/" +:+ user +:+ "/" +:+ repo
          +:+ "/master/README.md").
Proof.
  intros Hu Hr Hraw. unfold convert_github_to_raw. rewrite Hraw.
  replace (contains "github.com" _) with true by reflexivity. cbn [negb].
  pose proof (branch_url_stops "blob" user repo "" Hu Hr eq_refl eq_refl) as Hb.
  pose proof (branch_url_stops "tree" user repo "" Hu Hr eq_refl eq_refl) as Ht.
  rewrite str_app_nil_r in Hb, Ht. rewrite Hb, Ht. cbn [option_map].
  now rewrite repo_url_matches.
Qed.



End Github.


(* ===================================================================== *)
(** * The scraping batch: counters, writes and records *)
(* ===================================================================== *)

Section Batch.
Import Py ScrapeLinks Spec.

Variable http_get : string -> http_result.
Variable url_path url_netloc : string -> string.
Variable decode : list byte -> string.
Variable HAS_PDFPLUMBER HAS_PYPDF2 : bool.
Variable pdfplumber_pages : list byte -> option (list (option string)).
Variable pypdf_pages : list byte -> option (list string).

Abbreviation scrape_one :=
  (scrape_link http_get url_path url_netloc decode HAS_PDFPLUMBER HAS_PYPDF2
     pdfplumber_pages pypdf_pages).
Abbreviation batch_step :=
  (main_step http_get url_path url_netloc decode HAS_PDFPLUMBER HAS_PYPDF2
     pdfplumber_pages pypdf_pages).
Abbreviation batch_loop :=
  (main_loop http_get url_path url_netloc decode HAS_PDFPLUMBER HAS_PYPDF2
     pdfplumber_pages pypdf_pages).

Lemma batch_step_total output_dir st url :
  let st' := batch_step output_dir st url in
  successful st' + failed st' + skipped st'
  = S (successful st + failed st + skipped st).
Proof.
  unfold main_step, skip.
  destruct (is_video url); [simpl; lia|].
  destruct (already_scraped url); [simpl; lia|].
  destruct (scrape_one url output_dir (files st)) as [[|] fs]; simpl; lia.
Qed.

(** X1. Every URL of the batch is counted once: after the loop the
    three counters have grown, together, by the number of URLs. *)
Theorem batch_counts_every_url output_dir urls : forall st,
  let st' := main_loop http_get url_path url_netloc decode HAS_PDFPLUMBER
               HAS_PYPDF2 pdfplumber_pages pypdf_pages output_dir urls st in
  successful st' + failed st' + skipped st'
  = successful st + failed st + skipped st + List.length urls.
Proof.
  unfold main_loop. induction urls as [|url urls IH]; intros st; cbn [fold_left].
  - simpl. lia.
  - specialize (IH (batch_step output_dir st url)). cbn zeta in IH.
    rewrite IH. pose proof (batch_step_total output_dir st url) as H.
    cbn zeta in H. simpl. lia.
Qed.

End Batch.

(* ===================================================================== *)
(** * What a match consumes *)
(* ===================================================================== *)

Section Consumed.
Import Py Re Spec.

Lemma push_some_inv t r ts rest :
  push t r = Some (ts, rest) ->
  exists ts', r = Some (ts', rest) /\ ts = t :: ts'.
Proof.
  destruct r as [[ts' rest']|]; simpl; [|discriminate].
  intros [= <- <-]. eauto.
Qed.

Lemma rep_text k cs
    (Hk : forall prev s ts rest, k prev s = Some (ts, rest) -> s = text ts +:+ rest) s :
  forall lo hi g prev ts rest,
  rep k cs lo hi g prev s = Some (ts, rest) -> s = text ts +:+ rest.
Proof.
  induction s as [|c s IH]; intros lo hi g prev ts rest; cbn [rep].
  - destruct lo; [apply Hk | discriminate].
  - assert (Hstop : match lo with 0 => k prev (String c s) | S _ => None end
                    = Some (ts, rest) -> String c s = text ts +:+ rest)
      by (destruct lo; [apply Hk | discriminate]).
    assert (Hmore : push (TChr c) (rep k cs (pred lo) (hi_pred hi) g (Some c) s)
                    = Some (ts, rest) -> String c s = text ts +:+ rest).
    { intros H. apply push_some_inv in H as (ts' & H & ->).
      apply IH in H. cbn [text String.append]. now rewrite <- H. }
    destruct (cs_mem cs c && hi_allows hi); [|assumption].
    destruct g.
    + destruct (push (TChr c) _) as [r|] eqn:E; [|assumption].
      intros [= ->]. now apply Hmore.
    + destruct (match lo with 0 => _ | S _ => None end) as [r|] eqn:E;
        [|assumption].
      intros [= ->]. now apply Hstop.
Qed.

(** The text of a match and what is left make up the subject. *)
Lemma run_text ml p : forall prev s ts rest,
  run ml p prev s = Some (ts, rest) -> s = text ts +:+ rest.
Proof.
  induction p as [|a p IH]; intros prev s ts rest; cbn [run].
  - now intros [= <- <-].
  - destruct a as [cs|cs lo hi g| | | |].
    + destruct s as [|c s]; [discriminate|].
      destruct (cs_mem cs c); [|discriminate].
      intros H. apply push_some_inv in H as (ts' & H & ->).
      apply IH in H. cbn [text String.append]. now rewrite <- H.
    + apply rep_text. apply IH.
    + intros H. apply push_some_inv in H as (ts' & H & ->). now apply IH in H.
    + intros H. apply push_some_inv in H as (ts' & H & ->). now apply IH in H.
    + destruct (at_bol ml prev); [apply IH | discriminate].
    + destruct (at_eol ml s); [apply IH | discriminate].
Qed.

Lemma drop_len_app a b : PyMore.drop_str (len a) (a +:+ b) = b.
Proof. induction a as [|c a IH]; [now destruct b | assumption]. Qed.

(** The pieces of a scan, each match left as its own text, are the
    subject again. *)
Lemma scan_reassembles ml p tmpl s : forall skip prev,
  subst tmpl (Some 0) (scan ml p skip prev s) = PyMore.drop_str skip s.
Proof.
  induction s as [|c s IH]; intros skip prev.
  - destruct skip as [|k]; cbn [scan]; [|reflexivity].
    destruct (run ml p prev "") as [[ts rest]|] eqn:E; [|reflexivity].
    apply run_text in E. cbn [subst].
    destruct (text ts); [reflexivity | discriminate].
  - destruct skip as [|k]; cbn [scan]; [|apply IH].
    destruct (run ml p prev (String c s)) as [[ts rest]|] eqn:E.
    + apply run_text in E. cbn [subst].
      destruct (text ts) as [|c' t] eqn:Et; cbn [len String.length].
      * cbn [subst]. now rewrite IH.
      * rewrite IH. cbn [String.append] in E. injection E as <- ->.
        cbn [String.append PyMore.drop_str].
        now rewrite drop_len_app.
    + cbn [subst]. now rewrite IH.
Qed.

(** Replacing the first match only: the replacement, then the rest of
    the subject as it was. *)
Lemma sub_first_at_start ml p tmpl s ts rest :
  run ml p None s = Some (ts, rest) -> text ts <> "" ->
  sub_count ml p tmpl (Some 1) s = expand tmpl ts +:+ rest.
Proof.
  intros Hrun Hne. unfold sub_count.
  pose proof (run_text _ _ _ _ _ _ Hrun) as Hs.
  destruct s as [|c s]; [destruct (text ts); [contradiction | discriminate]|].
  cbn [scan]. rewrite Hrun. cbn [subst hi_pred pred].
  destruct (text ts) as [|c' t] eqn:Et; [contradiction|].
  cbn [len String.length]. rewrite scan_reassembles.
  cbn [String.append] in Hs. injection Hs as <- ->.
  now rewrite drop_len_app.
Qed.

(** A lazy repetition stops at the first place where the rest of the
    pattern matches; when that rest cannot start on a character of the
    set, this is the end of the run. *)
Lemma rep_lazy_exact k cs
    (Hk : forall p c s, cs_mem cs c = true -> k p (String c s) = None) s :
  forall rest prev,
  all_in cs s = true -> stops cs rest = true ->
  rep k cs 0 None false prev (s +:+ rest)
  = push_str s (k (prev_after prev s) rest).
Proof.
  induction s as [|c s IH]; intros rest prev Hall Hstop.
  - simpl in *. destruct rest as [|c rest]; simpl; [reflexivity|].
    simpl in Hstop. apply negb_true_iff in Hstop. rewrite Hstop.
    reflexivity.
  - simpl in Hall. apply andb_prop in Hall as [Hc Hall].
    cbn [String.append rep push_str prev_after]. rewrite Hc.
    cbn [hi_allows andb hi_pred pred]. rewrite (Hk prev c), IH by assumption.
    reflexivity.
Qed.

End Consumed.

(* ===================================================================== *)
(** * Files read in text mode *)
(* ===================================================================== *)

Section TextMode.
Import Py Spec.

Lemma read_text_cons c s :
  read_text (String c s)
  = if Ascii.eqb c cr
    then String nl
           match s with
           | String b s' => if Ascii.eqb b nl then read_text s' else read_text s
           | EmptyString => EmptyString
           end
    else String c (read_text s).
Proof. reflexivity. Qed.

(** The text up to the first carriage return is read as it is. *)
Lemma read_text_app a b :
  has_char cr a = false -> read_text (a +:+ b) = a +:+ read_text b.
Proof.
  induction a as [|c a IH]; intros H; [reflexivity|].
  cbn [has_char] in H. apply orb_false_elim in H as [Hc Ha].
  cbn [String.append]. rewrite read_text_cons, Hc. now rewrite (IH Ha).
Qed.

Lemma read_text_id s : has_char cr s = false -> read_text s = s.
Proof.
  intros H. rewrite <- (str_app_nil_r s) at 1.
  rewrite read_text_app by assumption. apply str_app_nil_r.
Qed.

(** No carriage return is left in the text as read. *)
Lemma read_text_no_cr s : has_char cr (read_text s) = false.
Proof.
  assert (H : forall s, has_char cr (read_text s) = false
                        /\ forall c, has_char cr (read_text (String c s)) = false).
  { clear s. induction s as [|b s [IH1 IH2]].
    - split; [reflexivity|]. intros c. rewrite read_text_cons.
      destruct (Ascii.eqb c cr) eqn:E; cbn [read_text has_char];
        [reflexivity | now rewrite E].
    - split; [apply IH2|]. intros c. rewrite read_text_cons.
      destruct (Ascii.eqb c cr) eqn:E.
      + destruct (Ascii.eqb b nl); cbn [has_char Ascii.eqb nl cr orb];
          [apply IH1 | apply IH2].
      + cbn [has_char]. rewrite E. apply IH2. }
  apply H.
Qed.

Lemma url_no_cr u : is_url u = true -> has_char cr u = false.
Proof.
  unfold is_url. intros H. apply andb_prop in H as [_ H].
  induction u as [|c u IH]; [reflexivity|].
  simpl in H. apply andb_prop in H as [Hc Hu].
  cbn [has_char]. rewrite (IH Hu), orb_false_r.
  apply negb_true_iff in Hc. rewrite orb_false_r in Hc.
  destruct (Ascii.eqb_spec c cr) as [->|]; [discriminate | reflexivity].
Qed.

Lemma repeat_no_cr n : has_char cr (repeat_char "=" n) = false.
Proof. induction n as [|n IH]; simpl; [reflexivity | assumption]. Qed.

(** The lines of a text have no character that the text has not. *)
Lemma split_no_char c s :
  has_char c s = false -> forall l, In l (split nl s) -> has_char c l = false.
Proof.
  induction s as [|a s IH]; intros H l; cbn [split].
  - intros [<-|[]]. reflexivity.
  - cbn [has_char] in H. apply orb_false_elim in H as [Ha Hs].
    destruct (Ascii.eqb a nl).
    + intros [<-|Hl]; [reflexivity | now apply IH].
    + destruct (split nl s) as [|h t] eqn:E.
      * intros [<-|[]]. cbn [has_char]. now rewrite Ha.
      * intros [<-|Hl].
        -- cbn [has_char]. rewrite Ha. apply (IH Hs). now left.
        -- apply (IH Hs). now right.
Qed.

(** A record whose URLs have no whitespace is read with its header as
    written: only the text under the header is translated. *)
Lemma read_record u v n txt :
  is_url u = true -> is_url v = true ->
  read_text ("Source URL: " +:+ u +:+ NL +:+ "Final URL: " +:+ v +:+ NL
             +:+ repeat_char "=" n +:+ NL +:+ NL +:+ txt)
  = "Source URL: " +:+ u +:+ NL +:+ "Final URL: " +:+ v +:+ NL
    +:+ repeat_char "=" n +:+ NL +:+ NL +:+ read_text txt.
Proof.
  intros Hu Hv.
  replace ("Source URL: " +:+ u +:+ NL +:+ "Final URL: " +:+ v +:+ NL
           +:+ repeat_char "=" n +:+ NL +:+ NL +:+ txt)
    with (("Source URL: " +:+ u +:+ NL +:+ "Final URL: " +:+ v +:+ NL
           +:+ repeat_char "=" n +:+ NL +:+ NL) +:+ txt)
    by (rewrite !str_app_assoc; reflexivity).
  rewrite read_text_app; [rewrite !str_app_assoc; reflexivity|].
  rewrite !has_char_app, (url_no_cr u Hu), (url_no_cr v Hv), repeat_no_cr.
  reflexivity.
Qed.

End TextMode.

(* ===================================================================== *)
(** * A scraped record, read back *)
(* ===================================================================== *)

Section Records.
Import Py Re Spec.

Lemma chars_app a b : chars (a +:+ b) = chars a ++ chars b.
Proof. induction a as [|c a IH]; simpl; [reflexivity | now rewrite IH]. Qed.

Lemma url_all_dot u : is_url u = true -> all_in Dot u = true.
Proof.
  intros Hu. pose proof (url_no_newline u Hu) as H.
  clear Hu. induction u as [|c u IH]; [reflexivity|].
  cbn [has_char] in H. apply orb_false_elim in H as [Hc Hu].
  cbn [all_in cs_mem]. now rewrite Hc, IH.
Qed.

Lemma repeat_all_in c n : all_in (Lit c) (repeat_char c n) = true.
Proof.
  induction n as [|n IH]; [reflexivity|].
  cbn [repeat_char all_in cs_mem]. now rewrite Ascii.eqb_refl.
Qed.

Lemma repeat_len c n : len (repeat_char c n) = n.
Proof. induction n as [|n IH]; simpl; [reflexivity | now f_equal]. Qed.

Lemma rep_lazy_stop k cs hi prev s r :
  k prev s = Some r -> rep k cs 0 hi false prev s = Some r.
Proof.
  intros Hk. destruct s as [|c s]; cbn [rep]; [assumption|].
  rewrite Hk. now destruct (cs_mem cs c && hi_allows hi).
Qed.

(** After [.*?] the header pattern goes on with a newline. *)
Lemma after_value_fails ml p q c s :
  cs_mem Dot c = true -> run ml (One (Lit nl) :: p) q (String c s) = None.
Proof.
  cbn [run cs_mem]. intros H. apply negb_true_iff in H. now rewrite H.
Qed.

(** A header line and its newline under [prefix.*?\n]. *)
Lemma run_header_line ml prefix p prev u rest :
  is_url u = true ->
  run ml (lits prefix ++ star_lazy Dot :: One (Lit nl) :: p) prev
    (prefix +:+ (" " +:+ u) +:+ NL +:+ rest)
  = push_str (prefix +:+ " " +:+ u +:+ NL) (run ml p (Some nl) rest).
Proof.
  intros Hu. rewrite run_lits. unfold star_lazy. cbn [run].
  change (NL +:+ rest) with (String nl rest).
  rewrite rep_lazy_exact.
  - cbn [cs_mem]. rewrite Ascii.eqb_refl.
    rewrite !push_str_app. cbn [String.append push_str].
    rewrite ?push_str_app. reflexivity.
  - intros q c s. apply (after_value_fails ml p q).
  - cbn [String.append all_in cs_mem]. now apply url_all_dot.
  - reflexivity.
Qed.

Lemma run_header u v n body :
  is_url u = true -> is_url v = true -> 10 <= n ->
  run false AggressiveClean.header None
    ("Source URL: " +:+ u +:+ NL +:+ "Final URL: " +:+ v +:+ NL
     +:+ repeat_char "=" n +:+ NL +:+ body)
  = Some (chars ("Source URL: " +:+ u +:+ NL +:+ "Final URL: " +:+ v +:+ NL
                 +:+ repeat_char "=" n +:+ NL), body).
Proof.
  intros Hu Hv Hn. unfold AggressiveClean.header.
  cbn [app run at_bol].
  change ("Source URL: " +:+ u +:+ NL +:+ ?r)
    with ("Source URL:" +:+ (" " +:+ u) +:+ NL +:+ r).
  rewrite run_header_line by assumption.
  unfold star_lazy at 1. cbn [run].
  rewrite (rep_lazy_stop _ _ _ _ _
    (chars ("Final URL: " +:+ v +:+ NL +:+ repeat_char "=" n +:+ NL), body)).
  - rewrite push_str_some. do 2 f_equal.
    rewrite !chars_app. cbn [String.append chars app].
    rewrite ?chars_app, <- ?app_assoc. reflexivity.
  - change ("Final URL: " +:+ v +:+ NL +:+ ?r)
      with ("Final URL:" +:+ (" " +:+ v) +:+ NL +:+ r).
    rewrite run_header_line by assumption. cbn [run].
    rewrite (rep_greedy_success _ _ _ _ ([TChr nl], body));
      try apply repeat_all_in; try reflexivity.
    + rewrite !push_str_some. do 2 f_equal.
      rewrite !chars_app. cbn [String.append chars app].
      rewrite ?chars_app, <- ?app_assoc. reflexivity.
    + now rewrite repeat_len.
Qed.

(** X2. [scrape_link]'s record, read back in text mode by the passes
    that follow it, whatever the text of the page: the header scan of
    [extract_substance] finds the two header lines and the body under the
    separator, and the header pattern of [clean_file] removes the header
    and nothing else, leaving the text of the page as it is read, its
    carriage returns turned into newlines. *)
Theorem scraped_record_is_read_back u v txt :
  is_url u = true -> is_url v = true ->
  let content := read_text (ScrapeLinks.record_text u (Some v) txt) in
  Header.scan (readlines content) 0 []
  = (["Source URL: " +:+ u; "Final URL: " +:+ v], 3)
  /\ sub_count false AggressiveClean.header [] (Some 1) content
     = NL +:+ read_text txt.
Proof.
  intros Hu Hv content. unfold content, ScrapeLinks.record_text.
  cbn [default]. rewrite read_record by assumption. split.
  - apply header_scan_record; (assumption || lia).
  - erewrite sub_first_at_start;
      [| apply (run_header u v 80 (NL +:+ read_text txt)); (assumption || lia) |].
    + reflexivity.
    + cbn [String.append chars text]. discriminate.
Qed.

Lemma scraped_record_is_read_back_witness :
  sub_count false AggressiveClean.header [] (Some 1)
    (read_text
       (ScrapeLinks.record_text "http://a.org/x" (Some "http://a.org/y")
          ("<p>One</p>" +:+ String cr NL +:+ "<p>Two</p>")))
  = NL +:+ "<p>One</p>" +:+ NL +:+ "<p>Two</p>".
Proof.
  exact (proj2 (scraped_record_is_read_back "http://a.org/x" "http://a.org/y"
                  ("<p>One</p>" +:+ String cr NL +:+ "<p>Two</p>")
                  eq_refl eq_refl)).
Defined.

End Records.

(* ===================================================================== *)
(** * URLs and file names of the scraper *)
(* ===================================================================== *)

Section Names.
Import Py Re Spec ScrapeLinks.

Lemma substring_split s : forall n,
  n <= len s -> s = String.substring 0 n s +:+ String.substring n (len s - n) s.
Proof.
  induction s as [|c s IH]; intros [|n] Hn; simpl in *; try reflexivity; try lia.
  - f_equal. specialize (IH 0 ltac:(lia)). rewrite Nat.sub_0_r in IH.
    destruct s; [reflexivity|]. simpl in IH. simpl. now injection IH.
  - rewrite <- IH by lia. reflexivity.
Qed.

Lemma endswith_inv s p : endswith s p = true -> exists a, s = a +:+ p.
Proof.
  unfold endswith. intros H. apply andb_prop in H as [He Hl].
  apply String.eqb_eq in He. apply Nat.leb_le in Hl.
  exists (String.substring 0 (len s - len p) s).
  rewrite (substring_split s (len s - len p)) at 1 by lia.
  replace (len s - (len s - len p)) with (len p) by lia. now rewrite He.
Qed.

(** What [rstrip] of one character leaves does not end with it. *)
Lemma rstrip_char_end c s : forall a, rstrip_char c s <> a +:+ String c "".
Proof.
  induction s as [|x s IH]; intros a; cbn [rstrip_char].
  - destruct a; discriminate.
  - destruct (rstrip_char c s) as [|y r] eqn:E.
    + destruct (Ascii.eqb_spec x c) as [->|Hx]; [destruct a; discriminate|].
      destruct a as [|z a]; cbn [String.append]; [congruence|].
      destruct a; discriminate.
    + destruct a as [|z a]; cbn [String.append]; [discriminate|].
      intros [= _ H]. now apply (IH a).
Qed.

(** X3. [clean_url] strips the trailing semicolons and then the trailing
    full stops, and that is all it does: what is left never ends with a
    full stop, so the branch that completes a URL ending with an
    ellipsis is never taken. *)
Theorem clean_url_only_strips url :
  clean_url url = rstrip_char "." (rstrip_char ";" url)
  /\ endswith (clean_url url) "." = false
  /\ endswith (clean_url url) "..." = false.
Proof.
  assert (Hdot : forall s, endswith (rstrip_char "." s) "." = false).
  { intros s. apply not_true_is_false. intros H.
    apply endswith_inv in H as [a H]. now apply rstrip_char_end in H. }
  assert (Hell : forall s, endswith (rstrip_char "." s) "..." = false).
  { intros s. apply not_true_is_false. intros H.
    apply endswith_inv in H as [a H].
    apply (rstrip_char_end "." s (a +:+ "..")).
    now rewrite H, str_app_assoc. }
  unfold clean_url. rewrite Hell. auto.
Qed.

(** Replacing the matches of a one-character pattern by one character
    maps the subject character by character. *)
Lemma sub_one_char cs r s : forall prev,
  subst [TLit (String r "")] None (scan false [One cs] 0 prev s)
  = map_str (fun c => if cs_mem cs c then r else c) s.
Proof.
  induction s as [|c s IH]; intros prev; [reflexivity|].
  cbn [scan run map_str]. destruct (cs_mem cs c).
  - cbn [push text len String.length subst expand expand_item hi_pred
         String.append].
    now rewrite IH.
  - cbn [subst]. now rewrite IH.
Qed.

Lemma all_in_map cs' f s :
  (forall c, cs_mem cs' (f c) = true) -> all_in cs' (map_str f s) = true.
Proof.
  intros Hf. induction s as [|c s IH]; [reflexivity|].
  cbn [map_str all_in]. now rewrite Hf, IH.
Qed.

Lemma all_in_substring cs s : forall n m,
  all_in cs s = true -> all_in cs (String.substring n m s) = true.
Proof.
  induction s as [|c s IH]; intros n m H.
  - destruct n, m; reflexivity.
  - cbn [all_in] in H. apply andb_prop in H as [Hc Hs].
    destruct n as [|n]; [destruct m as [|m]|]; cbn [String.substring all_in];
      [reflexivity | rewrite Hc; now apply IH | now apply IH].
Qed.

Lemma substring_len s : forall n m, len (String.substring n m s) <= m.
Proof.
  induction s as [|c s IH]; intros [|n] [|m]; simpl; try lia.
  - specialize (IH 0 m). simpl in IH. lia.
  - apply (IH n 0).
  - apply (IH n (S m)).
Qed.

Lemma safe_after_sub s :
  all_in (Cls [CWord; CChr "-"; CChr "_"])
    (sub unsafe_char [TLit "_"] s) = true.
Proof.
  unfold sub, sub_count, unsafe_char. rewrite sub_one_char.
  apply all_in_map. intros c.
  destruct (cs_mem (NCls [CWord; CChr "-"; CChr "_"]) c) eqn:E; [reflexivity|].
  cbn [cs_mem] in *. now apply negb_false_iff in E.
Qed.

Section Urlparse.
Variable url_path url_netloc : string -> string.

(** X4. The file name [sanitize_filename] makes of a URL has at most
    100 characters, each a word character, a hyphen or an underscore,
    whatever [urlparse] makes of the URL: it has no path separator and
    no dot. *)
Theorem sanitize_filename_safe url :
  let filename := sanitize_filename url_path url_netloc url in
  len filename <= 100
  /\ all_in (Cls [CWord; CChr "-"; CChr "_"]) filename = true
  /\ has_char "/" filename = false
  /\ has_char "." filename = false.
Proof.
  intros filename. unfold filename, sanitize_filename.
  assert (Hsafe : forall s,
    all_in (Cls [CWord; CChr "-"; CChr "_"]) s = true ->
    has_char "/" s = false /\ has_char "." s = false).
  { induction s as [|c s IH]; [auto|]. cbn [all_in has_char]. intros H.
    apply andb_prop in H as [Hc Hs]. destruct (IH Hs) as [-> ->].
    rewrite !orb_false_r.
    split; [destruct (Ascii.eqb_spec c "/") as [->|] |
            destruct (Ascii.eqb_spec c ".") as [->|]];
      try reflexivity; vm_compute in Hc; discriminate Hc. }
  pose proof (all_in_substring _ _ 0 100 (safe_after_sub
    (if nonempty (basename (url_path url)) then basename (url_path url)
     else url_netloc url))) as H.
  split; [apply substring_len|]. split; [exact H|]. now apply Hsafe.
Qed.

End Urlparse.

(** X5. The file name scrape_pdfs.py makes of the path of a URL ends
    with [.txt], and before it there are only word characters, hyphens
    and underscores. *)
Theorem pdf_filename_safe path :
  exists stem,
    PdfScraper.sanitize_filename path = stem +:+ ".txt"
    /\ all_in (Cls [CWord; CChr "-"; CChr "_"]) stem = true.
Proof.
  unfold PdfScraper.sanitize_filename. eexists. split; [reflexivity|].
  apply safe_after_sub.
Qed.

End Names.

(* ===================================================================== *)
(** * The PDF links of a text *)
(* ===================================================================== *)

Section PdfLinks.
Import Py Re Spec PdfScraper.

Lemma unique_from_spec all_links : forall seen unique_links,
  (forall x, x ∈ seen <-> In x unique_links) -> NoDup unique_links ->
  let r := unique_from all_links seen unique_links in
  NoDup r
  /\ (forall x, In x r <-> In x unique_links \/ In x all_links)
  /\ exists added, r = unique_links ++ added /\ sublist added all_links.
Proof.
  induction all_links as [|link rest IH]; intros seen uniq Hseen Hnd;
    cbn [unique_from].
  - split; [assumption|]. split; [intros x; cbn [In]; tauto|].
    exists []. rewrite app_nil_r. split; [reflexivity | constructor].
  - destruct (bool_decide_reflect (link ∉ seen)) as [Hnew|Hold].
    + destruct (IH ({[link]} ∪ seen) (uniq ++ [link])) as (H1 & H2 & added & H3 & H4).
      * intros x. rewrite elem_of_union, elem_of_singleton, in_app_iff, Hseen.
        cbn [In]. intuition congruence.
      * apply NoDup_app. repeat split; [assumption | | apply NoDup_singleton].
        intros x Hx Hx'. apply list_elem_of_singleton in Hx'. subst x.
        apply Hnew, Hseen. now apply list_elem_of_In.
      * split; [assumption|]. split.
        -- intros x. rewrite H2, in_app_iff. cbn [In]. intuition congruence.
        -- exists (link :: added). rewrite H3, <- app_assoc.
           split; [reflexivity | now constructor].
    + destruct (IH seen uniq Hseen Hnd) as (H1 & H2 & added & H3 & H4).
      split; [assumption|]. split.
      * intros x. rewrite H2. cbn [In]. split; [tauto|].
        intros [?|[<-|?]]; auto. left. apply Hseen.
        destruct (decide (link ∈ seen)); [assumption | contradiction].
      * exists added. split; [assumption | now constructor].
Qed.

(** X6. The links [extract_pdf_links] returns are the matches of the
    pattern in the text, each once, in the order of the text: no link
    is returned twice, no match is lost, and none is added. *)
Theorem extract_pdf_links_unique txt :
  NoDup (extract_pdf_links txt)
  /\ (forall x, In x (extract_pdf_links txt)
                <-> In x (map text (findall pdf_pattern txt)))
  /\ sublist (extract_pdf_links txt) (map text (findall pdf_pattern txt)).
Proof.
  unfold extract_pdf_links. destruct txt as [|c txt]; cbn [nonempty negb].
  - split; [constructor|]. split; [intros x; reflexivity | constructor].
  - destruct (unique_from_spec (map text (findall pdf_pattern (String c txt))) ∅ [])
      as (H1 & H2 & added & H3 & H4).
    + intros x. rewrite elem_of_empty. cbn [In]. tauto.
    + constructor.
    + split; [assumption|]. split; [|now rewrite H3].
      intros x. rewrite H2. cbn [In]. tauto.
Qed.






Lemma all_in_app cs a b : all_in cs (a +:+ b) = all_in cs a && all_in cs b.
Proof.
  induction a as [|c a IH]; [reflexivity|].
  cbn [String.append all_in]. now rewrite IH, andb_assoc.
Qed.

Lemma map_str_app f a b : map_str f (a +:+ b) = map_str f a +:+ map_str f b.
Proof.
  induction a as [|c a IH]; [reflexivity|].
  cbn [String.append map_str]. now rewrite IH.
Qed.

Lemma substring_app a p : String.substring (len a) (len p) (a +:+ p) = p.
Proof.
  induction a as [|c a IH]; [|assumption].
  cbn [len String.length String.append].
  induction p as [|x p IHp]; [reflexivity|]. simpl. now rewrite IHp.
Qed.

Lemma endswith_app a p : endswith (a +:+ p) p = true.
Proof.
  unfold endswith.
  assert (Hl : len (a +:+ p) = len a + len p) by apply str_app_length.
  rewrite Hl. replace (len a + len p - len p) with (len a) by lia.
  rewrite substring_app, String.eqb_refl. apply Nat.leb_le. lia.
Qed.






End PdfLinks.

(* ===================================================================== *)
(** * What the content extractor reads of its own state *)
(* ===================================================================== *)

Section Extractor.
Import Py AggressiveClean.

Variable unescape : string -> string.

Abbreviation feed_events := (feed unescape).
Abbreviation on_data := (handle_data unescape).

(** Two states of the extractor that differ only in the flags [in_nav],
    [in_footer] and [in_main]. *)
Lemma feed_flags evs : forall e e',
  content e = content e' -> in_script e = in_script e' ->
  in_style e = in_style e' ->
  match feed_events evs e, feed_events evs e' with
  | Some r, Some r' =>
      content r = content r' /\ in_script r = in_script r'
      /\ in_style r = in_style r'
  | None, None => True
  | _, _ => False
  end.
Proof.
  induction evs as [|ev evs IH]; intros e e' Hc Hs Ht; cbn [feed]; [auto|].
  destruct ev as [tag attrs|tag|data].
  - unfold handle_starttag.
    destruct (mem tag skip_tags); [same_flags IH|].
    destruct (get_class attrs (Some "")) as [class_name|]; [|exact I].
    destruct (any_in ignore_classes (lower class_name)); [same_flags IH|].
    destruct (mem tag ["h1"; "h2"; "h3"; "h4"; "h5"; "h6"; "p"; "li"; "code"; "pre"]);
      [|same_flags IH].
    destruct (startswith tag "h");
      [|destruct (String.eqb tag "pre"); [|destruct (String.eqb tag "code")]];
      same_flags IH.
  - unfold handle_endtag.
    destruct (mem tag ["h1"; "h2"; "h3"; "h4"; "h5"; "h6"]);
      [|destruct (String.eqb tag "pre");
        [|destruct (String.eqb tag "code");
          [|destruct (String.eqb tag "p");
            [|destruct (mem tag ["li"; "tr"; "td"])]]]];
      same_flags IH.
  - unfold handle_data. rewrite Hs, Ht.
    destruct (in_script e' || in_style e'); [now apply IH|].
    destruct (nonempty (strip (unescape data)) && (2 <? len (strip (unescape data))));
      same_flags IH.
Qed.

(** X8. The extractor sets the flag [in_main] and never reads it, nor
    [in_nav] and [in_footer]: the text it extracts from a document is
    the same whatever these flags are when it starts, so being inside
    [main] or [article] changes nothing. *)
Theorem extractor_ignores_region_flags evs c s t n f m n' f' m' :
  option_map get_content
    (feed_events evs {| content := c; in_script := s; in_style := t;
                        in_nav := n; in_footer := f; in_main := m |})
  = option_map get_content
      (feed_events evs {| content := c; in_script := s; in_style := t;
                          in_nav := n'; in_footer := f'; in_main := m' |}).
Proof.
  pose proof (feed_flags evs
    {| content := c; in_script := s; in_style := t;
       in_nav := n; in_footer := f; in_main := m |}
    {| content := c; in_script := s; in_style := t;
       in_nav := n'; in_footer := f'; in_main := m' |}
    eq_refl eq_refl eq_refl) as H.
  destruct (feed_events evs _) as [r|], (feed_events evs _) as [r'|];
    try contradiction; [|reflexivity].
  destruct H as (H & _). cbn [option_map]. unfold get_content. now rewrite H.
Qed.

(** X9. A class of the ignore list does not keep the text of its element
    out: the start tag of such an element adds nothing, not even the
    marker of a heading, and what follows it, the text of the element
    included, is extracted as if the tag were not there. *)
Theorem ignored_class_keeps_text tag attrs class_name rest e :
  mem tag skip_tags = false ->
  get_class attrs (Some "") = Some class_name ->
  any_in ignore_classes (lower class_name) = true ->
  option_map get_content (feed_events (StartTag tag attrs :: rest) e)
  = option_map get_content (feed_events rest e).
Proof.
  intros Hskip Hclass Hignore. cbn [feed]. unfold handle_starttag.
  rewrite Hskip, Hclass, Hignore.
  pose proof (feed_flags rest
    (if mem tag ["main"; "article"] then set_main true e else e) e) as H.
  destruct (feed_events rest (if mem tag ["main"; "article"] then _ else e))
    as [r|], (feed_events rest e) as [r'|];
    try (exfalso; apply H; destruct (mem tag ["main"; "article"]); reflexivity);
    [|reflexivity].
  destruct H as (H & _);
    try (destruct (mem tag ["main"; "article"]); reflexivity).
  cbn [option_map]. unfold get_content. now rewrite H.
Qed.

End Extractor.

Lemma ignored_class_keeps_text_witness :
  option_map AggressiveClean.get_content
    (AggressiveClean.feed (fun d => d)
       [AggressiveClean.StartTag "h2" [("class", Some "Sidebar-title")];
        AggressiveClean.Data "Related posts"; AggressiveClean.EndTag "h2"]
       AggressiveClean.init)
  = Some "Related posts".
Proof.
  rewrite (ignored_class_keeps_text (fun d => d) "h2"
             [("class", Some "Sidebar-title")] "Sidebar-title"
             [AggressiveClean.Data "Related posts"; AggressiveClean.EndTag "h2"]
             AggressiveClean.init eq_refl eq_refl eq_refl).
  reflexivity.
Defined.

(* ===================================================================== *)
(** * GitHub URLs that are converted, and those that are not *)
(* ===================================================================== *)

Section GithubMore.
Import Py Re Spec FixGithub.

(** X10. What [convert_github_to_raw] returns is a URL of the raw host,
    and converting it again returns it unchanged. *)
Theorem convert_github_to_raw_idempotent url raw_url :
  convert_github_to_raw url = Some raw_url ->
  contains "raw.githubusercontent.com" raw_url = true
  /\ convert_github_to_raw raw_url = Some raw_url.
Proof.
  intros H.
  assert (Hraw : contains "raw.githubusercontent.com" raw_url = true).
  { unfold convert_github_to_raw in H.
    destruct (contains "raw.githubusercontent.com" url) eqn:E;
      [now injection H as <-|].
    repeat match type of H with
           | context [match ?x with _ => _ end] => destruct x
           end; try discriminate; injection H as <-; reflexivity. }
  split; [assumption | now apply convert_raw].
Qed.

Lemma convert_github_to_raw_idempotent_witness :
  convert_github_to_raw
    "https://raw.githubusercontent.com/nano-o/MultiPaxos/master/DiskPaxos.tla"
  = Some "https://raw.githubusercontent.com/nano-o/MultiPaxos/master/DiskPaxos.tla".
Proof.
  exact (proj2 (convert_github_to_raw_idempotent
    "https://github.com/nano-o/MultiPaxos/blob/master/DiskPaxos.tla"
    "https://raw.githubusercontent.com/nano-o/MultiPaxos/master/DiskPaxos.tla"
    eq_refl)).
Defined.

Lemma branch_url_lits kind :
  branch_url kind
  = lits "https://github.com/"
    ++ [Open; segment; Close; One (Lit "/"); Open; segment; Close]
    ++ lits ("/" +:+ kind +:+ "/")
    ++ [Open; segment; Close; One (Lit "/"); Open; plus Dot; Close].
Proof. reflexivity. Qed.

(** The three patterns on the page of a user or an organisation. *)
Lemma user_page_matches_nothing user p :
  is_segment user = true ->
  run false (lits "https://github.com/"
             ++ Open :: segment :: Close :: One (Lit "/") :: p)
    None ("https://github.com/" +:+ user) = None.
Proof.
  intros Hu. rewrite run_lits. cbn [app]. rewrite run_open.
  rewrite <- (str_app_nil_r user) at 1.
  rewrite run_segment by (assumption || reflexivity).
  cbn [run push]. rewrite push_str_none. cbn [push].
  now rewrite push_str_none.
Qed.

(** X11. URLs [convert_github_to_raw] gives up on: a URL with
    [github.com] in it that does not begin with [https://github.com/],
    as one with the scheme [http] or the host [www.github.com], and the
    page of a user or an organisation, which has one path segment. *)
Theorem convert_github_to_raw_gives_up :
  (forall url,
     contains "raw.githubusercontent.com" url = false ->
     startswith url "https://github.com/" = false ->
     convert_github_to_raw url = None)
  /\ (forall user,
        is_segment user = true ->
        contains "raw.githubusercontent.com" ("https://github.com/" +:+ user)
        = false ->
        convert_github_to_raw ("https://github.com/" +:+ user) = None).
Proof.
  split.
  - intros url Hraw Hstart. unfold convert_github_to_raw. rewrite Hraw.
    destruct (contains "github.com" url); [|reflexivity]. cbn [negb].
    unfold match_. rewrite !branch_url_lits. unfold repo_url.
    now rewrite !run_lits_mismatch by assumption.
  - intros user Hu Hraw. unfold convert_github_to_raw. rewrite Hraw.
    replace (contains "github.com" _) with true by reflexivity. cbn [negb].
    unfold match_. rewrite !branch_url_lits. unfold repo_url. cbn [app].
    now rewrite !user_page_matches_nothing by assumption.
Qed.

Lemma convert_github_to_raw_gives_up_witness :
  convert_github_to_raw "http://github.com/tlaplus/Examples" = None
  /\ convert_github_to_raw "https://github.com/sudogandhi" = None.
Proof.
  split.
  - exact (proj1 convert_github_to_raw_gives_up
             "http://github.com/tlaplus/Examples" eq_refl eq_refl).
  - exact (proj2 convert_github_to_raw_gives_up "sudogandhi" eq_refl eq_refl).
Defined.

End GithubMore.

(* ===================================================================== *)
(** * Re-fetching the record of a GitHub page *)
(* ===================================================================== *)

Section Refetch.
Import Py Spec FixGithubFile.

Variable fetch_content : string -> option string.

Abbreviation fix_file := (fix_github_file fetch_content).
Abbreviation fix_step := (FixGithubFile.main_step fetch_content).
Abbreviation fix_loop := (FixGithubFile.main_loop fetch_content).

Lemma split_no_newline s : forall l, In l (split nl s) -> has_char nl l = false.
Proof.
  induction s as [|a s IH]; intros l; cbn [split].
  - intros [<-|[]]. reflexivity.
  - destruct (Ascii.eqb a nl) eqn:Ha.
    + intros [<-|H]; [reflexivity | now apply IH].
    + destruct (split nl s) as [|h t] eqn:E.
      * intros [<-|[]]. cbn [has_char]. now rewrite Ha.
      * intros [<-|H].
        -- cbn [has_char]. rewrite Ha. apply IH. now left.
        -- apply IH. now right.
Qed.

Lemma replace_go_no_char c old s : forall skip,
  has_char c s = false -> has_char c (replace_go old "" skip s) = false.
Proof.
  induction s as [|a s IH]; intros skip H; [reflexivity|].
  cbn [has_char] in H. apply orb_false_elim in H as [Ha Hs].
  cbn [replace_go]. destruct skip as [|k]; [|now apply IH].
  destruct (startswith (String a s) old).
  - cbn [String.append]. now apply IH.
  - cbn [has_char]. rewrite Ha. now apply IH.
Qed.

Lemma lstrip_no_char c s : has_char c s = false -> has_char c (lstrip s) = false.
Proof.
  induction s as [|a s IH]; intros H; [reflexivity|].
  cbn [lstrip]. destruct (isspace a); [|assumption].
  cbn [has_char] in H. apply orb_false_elim in H as [_ Hs]. now apply IH.
Qed.

Lemma rstrip_no_char c s : has_char c s = false -> has_char c (rstrip s) = false.
Proof.
  induction s as [|a s IH]; intros H; [reflexivity|].
  cbn [has_char] in H. apply orb_false_elim in H as [Ha Hs].
  cbn [rstrip]. specialize (IH Hs). destruct (rstrip s) as [|b r].
  - destruct (isspace a); [reflexivity|]. cbn [has_char]. now rewrite Ha.
  - cbn [has_char] in *. now rewrite Ha, IH.
Qed.

Lemma header_value_no_char c prefix line :
  has_char c line = false ->
  has_char c (strip (replace line prefix "")) = false.
Proof.
  intros H. unfold strip, replace.
  now apply rstrip_no_char, lstrip_no_char, replace_go_no_char.
Qed.

(** The URLs read from a file have no character that its lines have
    not. *)
Lemma file_urls_no_char c content :
  (forall l, In l (split nl content) -> has_char c l = false) ->
  let u := file_urls content in
  (forall v, final_url u = Some v -> has_char c v = false)
  /\ (forall v, source_url u = Some v -> has_char c v = false).
Proof.
  unfold file_urls. intros Hlines.
  assert (H : forall lines u,
    (forall l, In l lines -> has_char c l = false) ->
    (forall v, final_url u = Some v -> has_char c v = false) ->
    (forall v, source_url u = Some v -> has_char c v = false) ->
    (forall v, final_url (fold_left urls_step lines u) = Some v ->
               has_char c v = false)
    /\ (forall v, source_url (fold_left urls_step lines u) = Some v ->
                  has_char c v = false)).
  { induction lines as [|l lines IH]; intros u Hl Hf Hs; [auto|].
    cbn [fold_left]. apply IH.
    - intros l' Hl'. apply Hl. now right.
    - unfold urls_step. destruct (startswith l "Final URL:");
        [|destruct (startswith l "Source URL:")]; cbn [final_url]; try assumption.
      intros v [= <-]. apply header_value_no_char, Hl. now left.
    - unfold urls_step. destruct (startswith l "Final URL:");
        [|destruct (startswith l "Source URL:")]; cbn [source_url]; try assumption.
      intros v [= <-]. apply header_value_no_char, Hl. now left. }
  apply H; [assumption | discriminate | discriminate].
Qed.

Lemma truthy_inv v t : truthy v = Some t -> v = Some t.
Proof.
  destruct v as [x|]; [|discriminate]. cbn [truthy].
  destruct (nonempty x); [congruence | discriminate].
Qed.

(** The first two lines of a record, as a pass reads them. *)
Lemma record_first_two_lines source final raw :
  has_char nl source = false -> has_char nl final = false ->
  has_char cr source = false -> has_char cr final = false ->
  first_two_lines (read_text (record_text source final raw))
  = ["Source URL: " +:+ source; "Final URL: " +:+ final].
Proof.
  intros Hs Hf Hs' Hf'. unfold record_text.
  replace ("Source URL: " +:+ source +:+ NL +:+ "Final URL: " +:+ final +:+ NL
           +:+ repeat_char "=" 80 +:+ NL +:+ NL +:+ strip raw)
    with (("Source URL: " +:+ source +:+ NL +:+ "Final URL: " +:+ final +:+ NL)
          +:+ repeat_char "=" 80 +:+ NL +:+ NL +:+ strip raw)
    by (rewrite !str_app_assoc; reflexivity).
  rewrite read_text_app.
  - rewrite !str_app_assoc.
    rewrite <- (str_app_assoc "Source URL: " source),
            <- (str_app_assoc "Final URL: " final).
    apply first_two_lines_intro;
      rewrite has_char_app; cbn [orb has_char Ascii.eqb]; assumption.
  - rewrite !has_char_app, Hs', Hf'. reflexivity.
Qed.

(** X12. [fix_github_file] either leaves the directory as it is and
    returns [False], or returns [True] with the message that counts the
    characters fetched, after overwriting the one file with a record.
    The final URL of the record is the GitHub URL read from the file, its
    source URL the one read from the file, or the final URL when the file
    gave none. The text under the header is what [fetch_content] gave
    for the raw URL, or, when that was missing or shorter than 100
    characters and the final URL has [/blob/] in it, what it gave for
    the raw URL without [blob/]; the text fetched has at least 100
    characters, and the record holds it stripped. Read back, the first
    two lines of the record are the two header lines. *)
Theorem fix_github_file_outcome fs file_path :
  match fix_file fs file_path with
  | None => fs !! file_path = None
  | Some ((false, _), fs') => fs' = fs
  | Some ((true, msg), fs') =>
      exists stored final raw_url raw,
        let content := read_text stored in
        let source := default final (truthy (source_url (file_urls content))) in
        fs !! file_path = Some stored
        /\ truthy (final_url (file_urls content)) = Some final
        /\ contains "github.com" final = true
        /\ truthy (FixGithub.convert_github_to_raw final) = Some raw_url
        /\ (fetch_content raw_url = Some raw
            \/ too_small (fetch_content raw_url) = true
               /\ contains "/blob/" final = true
               /\ fetch_content (replace raw_url "blob/" "") = Some raw)
        /\ 100 <= len raw
        /\ msg = "Fixed (" +:+ str_of_nat (len raw) +:+ " bytes)"
        /\ fs' = <[file_path := "Source URL: " +:+ source +:+ NL
                                 +:+ "Final URL: " +:+ final +:+ NL
                                 +:+ repeat_char "=" 80 +:+ NL +:+ NL
                                 +:+ strip raw]> fs
        /\ first_two_lines (read_text (record_text source final raw))
           = ["Source URL: " +:+ source; "Final URL: " +:+ final]
  end.
Proof.
  unfold fix_github_file.
  destruct (fs !! file_path) as [stored|] eqn:Hfile; [|reflexivity].
  cbn zeta.
  destruct (truthy (final_url (file_urls (read_text stored)))) as [final|]
    eqn:Hfinal; [|reflexivity].
  destruct (contains "github.com" final) eqn:Hgit; cbn [negb]; [|reflexivity].
  match goal with |- context [if ?b then Some (false, "Already good", fs) else _] =>
    destruct b end; [reflexivity|].
  destruct (truthy (FixGithub.convert_github_to_raw final)) as [raw_url|] eqn:Hraw;
    [|reflexivity].
  assert (Hfetch : forall raw,
    (if too_small (fetch_content raw_url) && contains "/blob/" final
     then fetch_content (replace raw_url "blob/" "")
     else fetch_content raw_url) = Some raw ->
    fetch_content raw_url = Some raw
    \/ too_small (fetch_content raw_url) = true
       /\ contains "/blob/" final = true
       /\ fetch_content (replace raw_url "blob/" "") = Some raw).
  { intros raw. destruct (too_small (fetch_content raw_url));
      [destruct (contains "/blob/" final)|]; cbn [andb]; auto. }
  destruct (if too_small (fetch_content raw_url) && contains "/blob/" final
            then fetch_content (replace raw_url "blob/" "")
            else fetch_content raw_url) as [raw|]; [|reflexivity].
  specialize (Hfetch raw eq_refl).
  unfold too_small at 1. cbn [truthy].
  destruct (nonempty raw) eqn:Hne; [|reflexivity].
  destruct (Nat.ltb_spec (len raw) 100) as [Hlt|Hge]; [reflexivity|].
  exists stored, final, raw_url, raw. cbn zeta.
  repeat match goal with |- _ /\ _ => split end; try assumption; try reflexivity.
  pose proof (read_text_no_cr stored) as Hcr.
  destruct (file_urls_no_char nl (read_text stored)
              (split_no_newline (read_text stored))) as [Hf Hs].
  destruct (file_urls_no_char cr (read_text stored)
              (split_no_char cr (read_text stored) Hcr)) as [Hf' Hs'].
  assert (Hfn : has_char nl final = false)
    by (apply Hf; now apply truthy_inv).
  assert (Hfc : has_char cr final = false)
    by (apply Hf'; now apply truthy_inv).
  destruct (truthy (source_url (file_urls (read_text stored)))) as [source|]
    eqn:Hsource; cbn [default].
  - apply record_first_two_lines; try assumption;
      [apply Hs | apply Hs']; now apply truthy_inv.
  - now apply record_first_two_lines.
Qed.

(** The text fetched is counted before it is stripped: the record of a
    file that is fixed can hold fewer than 100 characters of it. *)
Lemma fixed_record_may_be_short :
  let fetched := repeat_char "a" 99 +:+ NL in
  fix_github_file (fun _ => Some fetched)
    {[ "web_9.txt" := "Final URL: https://github.com/tlaplus/Examples" ]}
    "web_9.txt"
  = Some ((true, "Fixed (100 bytes)"),
          {[ "web_9.txt" :=
               record_text "https://github.com/tlaplus/Examples"
                 "https://github.com/tlaplus/Examples" (repeat_char "a" 99) ]})
  /\ len (strip fetched) = 99.
Proof.
  split; [|reflexivity]. unfold fix_github_file.
  rewrite lookup_singleton_eq. vm_compute. reflexivity.
Qed.

Lemma fix_file_cases fs file_path :
  (fix_file fs file_path = None /\ fs !! file_path = None)
  \/ (is_Some (fs !! file_path)
      /\ ((exists msg, fix_file fs file_path = Some ((false, msg), fs))
          \/ (exists msg new, fix_file fs file_path
                              = Some ((true, msg), <[file_path := new]> fs)))).
Proof.
  unfold fix_github_file.
  destruct (fs !! file_path) as [content|] eqn:Hfile; [right | now left].
  split; [eauto|].
  repeat match goal with
         | |- context [match ?x with _ => _ end] => destruct x
         end; eauto.
Qed.

Lemma fix_step_counts dir_path st filename :
  let st' := fix_step dir_path st filename in
  fixed st' + List.length (failed st')
  = fixed st + List.length (failed st)
    + (if bool_decide (is_Some (files st !! dir_path filename)) then 1 else 0)
  /\ forall q, is_Some (files st' !! q) <-> is_Some (files st !! q).
Proof.
  unfold FixGithubFile.main_step.
  destruct (fix_file_cases (files st) (dir_path filename))
    as [[-> Hnone] | [Hsome [[msg ->] | [msg [new ->]]]]].
  - rewrite Hnone. rewrite bool_decide_eq_false_2 by (intros [? ?]; discriminate).
    split; [lia | reflexivity].
  - rewrite bool_decide_eq_true_2 by assumption. cbn [fixed failed files].
    rewrite length_app. cbn [List.length]. split; [lia | reflexivity].
  - rewrite bool_decide_eq_true_2 by assumption. cbn [fixed failed files].
    split; [lia|]. intros q.
    destruct (decide (dir_path filename = q)) as [<-|Hne].
    + rewrite lookup_insert_eq. split; [now intros _ | eauto].
    + now rewrite lookup_insert_ne.
Qed.

(** X13. The loop of [main] passes over the names that have no file and
    counts every other name once, as fixed or as failed; it creates no
    file and removes none. *)
Theorem fix_loop_counts_files dir_path filenames : forall st,
  let st' := FixGithubFile.main_loop fetch_content dir_path filenames st in
  fixed st' + List.length (failed st')
  = fixed st + List.length (failed st)
    + List.length
        (List.filter
           (fun filename => bool_decide (is_Some (files st !! dir_path filename)))
           filenames)
  /\ forall q, is_Some (files st' !! q) <-> is_Some (files st !! q).
Proof.
  unfold FixGithubFile.main_loop.
  induction filenames as [|filename filenames IH]; intros st; cbn [fold_left].
  - cbn [List.filter List.length]. split; [lia | reflexivity].
  - destruct (IH (fix_step dir_path st filename)) as [Hcount Hdom].
    destruct (fix_step_counts dir_path st filename) as [Hone Hsame].
    cbn zeta in *. split.
    + rewrite Hcount, Hone. cbn [List.filter].
      rewrite (List.filter_ext
        (fun f => bool_decide (is_Some (files (fix_step dir_path st filename) !! dir_path f)))
        (fun f => bool_decide (is_Some (files st !! dir_path f))))
        by (intros f; apply bool_decide_ext, Hsame).
      destruct (bool_decide (is_Some (files st !! dir_path filename)));
        cbn [List.length]; lia.
    + intros q. now rewrite Hdom, Hsame.
Qed.

End Refetch.

(* ===================================================================== *)
(** * The header passes on a sample record *)
(* ===================================================================== *)

Lemma extract_substance_keeps_header_witness :
  Spec.first_two_lines
    (ExtractSubstance.output
       (ScrapeLinks.record_text "http://a.org/x" (Some "http://a.org/y")
          "A first sentence of the body, long enough."))
  = ["Source URL: http://a.org/x"; "Final URL: http://a.org/y"].
Proof.
  refine (proj1 (extract_substance_keeps_header "http://a.org/x" "http://a.org/y"
                   80 (Py.NL +:+ "A first sentence of the body, long enough.")
                   eq_refl eq_refl _)).
  lia.
Defined.

Lemma polish_file_keeps_header_witness :
  Spec.first_two_lines
    (PolishFiles.output
       (ScrapeLinks.record_text "http://a.org/x" (Some "http://a.org/y")
          "A first sentence of the body, long enough."))
  = ["Source URL: http://a.org/x"; "Final URL: http://a.org/y"].
Proof.
  refine (polish_file_keeps_header "http://a.org/x" "http://a.org/y"
            80 (Py.NL +:+ "A first sentence of the body, long enough.")
            eq_refl eq_refl _).
  lia.
Defined.


(* ===================================================================== *)
(** * cleanup_nav.py: the lines that are dropped, and a second pass *)
(* ===================================================================== *)

Section NavCleanup.
Import Py Re Spec CleanupNav.

Lemma startswith_split p : forall s,
  startswith s p = true -> exists r, s = p +:+ r.
Proof.
  induction p as [|b p IH]; intros s H; [now exists s|].
  apply startswith_cons in H as (s' & -> & H).
  apply IH in H as [r ->]. now exists r.
Qed.

Lemma startswith_app_l a b : forall s,
  startswith s (a +:+ b) = true -> startswith s a = true.
Proof.
  induction a as [|c a IH]; intros s H; [reflexivity|].
  cbn [String.append] in H. apply startswith_cons in H as (s' & -> & H).
  cbn [startswith]. rewrite Ascii.eqb_refl. now apply IH.
Qed.

Lemma no_newline_all_dot s : has_char nl s = false -> all_in Dot s = true.
Proof.
  induction s as [|c s IH]; [reflexivity|]. cbn [has_char all_in cs_mem].
  intros H. apply orb_false_elim in H as [-> H]. now rewrite IH.
Qed.

(** [.*$] on what is left of a line. *)
Lemma run_dot_eol prev s :
  has_char nl s = false ->
  run false [star Dot; Eol] prev s = Some (chars s, "").
Proof.
  intros H. unfold star. cbn [run]. rewrite <- (str_app_nil_r s) at 1.
  rewrite (rep_greedy_success _ _ _ _ ([], ""));
    try reflexivity; [| now apply no_newline_all_dot | lia].
  rewrite push_str_some. now rewrite app_nil_r.
Qed.

(** A word of a pattern matches the lines that begin with it. *)
Lemma word_match w line :
  has_char nl line = false ->
  bool_decide (is_Some (match_ false (Bol :: lits w ++ [star Dot; Eol]) line))
  = startswith line w.
Proof.
  intros Hline. unfold match_. cbn [run at_bol].
  destruct (startswith line w) eqn:Hw.
  - apply startswith_split in Hw as [r ->].
    rewrite has_char_app in Hline. apply orb_false_elim in Hline as [_ Hr].
    rewrite run_lits, run_dot_eol, push_str_some by assumption.
    apply bool_decide_eq_true_2. eauto.
  - rewrite run_lits_mismatch by assumption.
    apply bool_decide_eq_false_2. intros [? ?]. discriminate.
Qed.

Lemma word_colon_match w line :
  has_char nl line = false ->
  bool_decide (is_Some (match_ false
                          (Bol :: lits w ++ [One (Lit ":"); star Dot; Eol]) line))
  = startswith line (w +:+ ":").
Proof.
  intros Hline. rewrite <- (word_match (w +:+ ":")) by assumption.
  now rewrite lits_app, <- app_assoc.
Qed.

(** X17. The lines [cleanup_file] takes for navigation are the lines that
    begin with one of sixteen prefixes, whatever follows: a word of the
    second or third pattern, as in [Homework] or [Searching], or a word
    of the first pattern and a colon. *)
Theorem is_nav_by_prefix line :
  has_char nl line = false ->
  is_nav line
  = existsb (startswith line)
      ["Research areas:"; "People:"; "Microsoft:"; "Labs:"; "Other:";
       "Search"; "Tech"; "Industries"; "Global"; "Partners"; "Resources";
       "Home"; "About"; "Contact"; "Careers"; "Events"].
Proof.
  intros Hline. unfold is_nav, nav_patterns, alt_match. cbn [existsb].
  rewrite !word_colon_match, !word_match by assumption.
  cbn [String.append].
  nav_word line "Research areas:". nav_word line "People:".
  nav_word line "Microsoft:". nav_word line "Labs:". nav_word line "Other:".
  nav_word line "Search". nav_colon line "Search" startswith_app_l.
  nav_word line "Tech". nav_colon line "Tech" startswith_app_l.
  nav_word line "Industries". nav_colon line "Industries" startswith_app_l.
  nav_word line "Global". nav_colon line "Global" startswith_app_l.
  nav_word line "Partners". nav_word line "Resources".
  nav_word line "Home". nav_word line "About". nav_word line "Contact".
  nav_word line "Careers". nav_word line "Events".
  reflexivity.
Qed.

Lemma is_nav_by_prefix_witness :
  is_nav "Homework for the course" = true.
Proof.
  rewrite (is_nav_by_prefix "Homework for the course" eq_refl). reflexivity.
Defined.

Lemma pop_first_In l : forall x, In x (pop_first l) -> In x l.
Proof.
  induction l as [|a l IH]; intros x; cbn [pop_first]; [auto|].
  destruct (blank a); [intros H; right; now apply IH | auto].
Qed.

Lemma pop_last_In l : forall x, In x (pop_last l) -> In x l.
Proof.
  induction l as [|a l IH]; intros x; cbn [pop_last]; [auto|].
  destruct (pop_last l) as [|b r].
  - destruct (blank a); [intros [] | intros [<-|[]]; now left].
  - intros [<-|H]; [now left | right; now apply IH].
Qed.

Lemma pop_first_head l :
  pop_first l = [] \/ exists h t, pop_first l = h :: t /\ blank h = false.
Proof.
  induction l as [|a l IH]; cbn [pop_first]; [now left|].
  destruct (blank a) eqn:E; [assumption | right; eauto].
Qed.

Lemma pop_last_again l : pop_last (pop_last l) = pop_last l.
Proof.
  induction l as [|a l IH]; [reflexivity|]. cbn [pop_last].
  destruct (pop_last l) as [|b r] eqn:E.
  - destruct (blank a) eqn:Ea; [reflexivity|]. cbn [pop_last]. now rewrite Ea.
  - cbn [pop_last]. cbn [pop_last] in IH. now rewrite IH.
Qed.

Lemma pop_last_head h t :
  blank h = false -> exists r, pop_last (h :: t) = h :: r.
Proof.
  intros Hh. cbn [pop_last]. destruct (pop_last t); rewrite ?Hh; eauto.
Qed.

(** What the two loops leave is left as it is by both. *)
Lemma trimmed_again l :
  let c := pop_last (pop_first l) in
  pop_last (pop_first c) = c.
Proof.
  cbn zeta. destruct (pop_first_head l) as [-> | (h & t & -> & Hh)];
    [reflexivity|].
  destruct (pop_last_head h t Hh) as [r Hr]. rewrite Hr.
  cbn [pop_first]. rewrite Hh, <- Hr. apply pop_last_again.
Qed.

Lemma filter_kept (f : string -> bool) l :
  (forall x, In x l -> f x = true) -> List.filter f l = l.
Proof.
  induction l as [|a l IH]; intros H; [reflexivity|]. cbn [List.filter].
  rewrite (H a) by now left. f_equal. apply IH. intros x Hx. apply H. now right.
Qed.

Lemma split_joined ls rest :
  (forall l, In l ls -> has_char nl l = false) ->
  split nl (join NL ls +:+ NL +:+ rest)
  = match ls with [] => [""] | _ => ls end ++ split nl rest.
Proof.
  induction ls as [|x ls IH]; intros H; [reflexivity|].
  destruct ls as [|y ls].
  - cbn [join app]. apply split_line, H. now left.
  - change (join NL (x :: y :: ls)) with (x +:+ NL +:+ join NL (y :: ls)).
    rewrite !str_app_assoc. rewrite split_line by (apply H; now left).
    rewrite <- !str_app_assoc, (str_app_assoc _ NL rest).
    rewrite IH by (intros l Hl; apply H; now right). reflexivity.
Qed.

Lemma split_join ls :
  (forall l, In l ls -> has_char nl l = false) ->
  split nl (join NL ls) = match ls with [] => [""] | _ => ls end.
Proof.
  induction ls as [|x ls IH]; intros H; [reflexivity|].
  destruct ls as [|y ls].
  - cbn [join]. assert (Hx : has_char nl x = false) by (apply H; now left).
    clear -Hx. induction x as [|c x IHx]; [reflexivity|].
    cbn [has_char] in Hx. apply orb_false_elim in Hx as [Hc Hx].
    cbn [split]. rewrite Hc, (IHx Hx). reflexivity.
  - change (join NL (x :: y :: ls)) with (x +:+ NL +:+ join NL (y :: ls)).
    rewrite split_line by (apply H; now left).
    rewrite IH by (intros l Hl; apply H; now right). reflexivity.
Qed.

(** The metadata of a scan: the lines already found, then URL lines of
    the text. *)
Lemma scan_metadata lines : forall i acc,
  exists found, fst (scan lines i acc) = acc ++ found
    /\ forall l, In l found -> In l lines /\ Header.is_url_line l = true.
Proof.
  induction lines as [|line lines IH]; intros i acc; cbn [scan].
  - exists []. rewrite app_nil_r. split; [reflexivity | intros l []].
  - destruct (Header.is_url_line line) eqn:Hurl.
    + destruct (IH (S i) (acc ++ [line])) as (found & -> & Hf).
      exists (line :: found). rewrite <- app_assoc. split; [reflexivity|].
      intros l [<-|Hl]; [split; [now left | assumption]|].
      destruct (Hf l Hl). split; [now right | assumption].
    + destruct (Header.has_separator line).
      * exists []. rewrite app_nil_r. split; [reflexivity | intros l []].
      * destruct (IH (S i) acc) as (found & -> & Hf).
        exists found. split; [reflexivity|].
        intros l Hl. destruct (Hf l Hl). split; [now right | assumption].
Qed.

Lemma scan_urls found rest : forall i acc,
  (forall l, In l found -> Header.is_url_line l = true) ->
  scan (found ++ rest) i acc = scan rest (i + List.length found) (acc ++ found).
Proof.
  induction found as [|l found IH]; intros i acc H.
  - cbn [app List.length]. now rewrite Nat.add_0_r, app_nil_r.
  - cbn [app scan List.length]. rewrite (H l) by now left.
    rewrite IH by (intros x Hx; apply H; now right).
    rewrite <- app_assoc. f_equal. lia.
Qed.

(** The scan of a text that [cleanup_file] wrote. *)
Lemma scan_written metadata rest :
  (forall l, In l metadata -> Header.is_url_line l = true) ->
  exists body_start,
    scan (match metadata with [] => [""] | _ => metadata end
          ++ repeat_char "=" 80 :: rest) 0 []
    = (metadata, body_start)
    /\ drop body_start
         (match metadata with [] => [""] | _ => metadata end
          ++ repeat_char "=" 80 :: rest) = rest.
Proof.
  intros H. destruct metadata as [|m metadata].
  - exists 2. split; reflexivity.
  - exists (S (0 + List.length (m :: metadata))).
    rewrite scan_urls by assumption. cbn [scan].
    replace (Header.is_url_line (repeat_char "=" 80)) with false by reflexivity.
    replace (Header.has_separator (repeat_char "=" 80)) with true by reflexivity.
    split; [reflexivity|].
    replace (S (0 + List.length (m :: metadata)))
      with (List.length (m :: metadata) + 1) by lia.
    rewrite <- drop_drop, drop_app_length. reflexivity.
Qed.

Lemma cleaned_lines_spec content :
  (forall l, In l (cleaned_lines content) ->
     has_char nl l = false /\ is_nav l = false)
  /\ pop_last (pop_first (cleaned_lines content)) = cleaned_lines content.
Proof.
  unfold cleaned_lines.
  destruct (scan (split nl content) 0 []) as [metadata body_start].
  split; [|apply trimmed_again].
  intros l Hl. apply pop_last_In, pop_first_In, filter_In in Hl as [Hl Hnav].
  apply negb_true_iff in Hnav. split; [|assumption].
  apply (split_no_newline content).
  apply list_elem_of_In, (subseteq_drop body_start), list_elem_of_In, Hl.
Qed.

(** X18. A second pass of [cleanup_file] changes nothing: what it writes
    is what it would write again from its own output, for every file. *)
Theorem cleanup_file_idempotent content :
  output (output content) = output content.
Proof.
  assert (Hout : output content
    = join NL (fst (scan (split nl content) 0 [])) +:+ NL
      +:+ repeat_char "=" 80 +:+ NL +:+ NL +:+ join NL (cleaned_lines content)).
  { unfold output. now destruct (scan (split nl content) 0 []). }
  destruct (scan_metadata (split nl content) 0 []) as (metadata & HM & Hmeta).
  cbn [app] in HM. rewrite HM in Hout. clear HM.
  destruct (cleaned_lines_spec content) as [Hclean Htrim].
  set (cleaned := cleaned_lines content) in *.
  assert (Hsplit : split nl (output content)
    = match metadata with [] => [""] | _ => metadata end
      ++ repeat_char "=" 80
         :: "" :: match cleaned with [] => [""] | _ => cleaned end).
  { rewrite Hout.
    rewrite split_joined
      by (intros l Hl; apply (split_no_newline content), Hmeta, Hl).
    rewrite split_line by apply repeat_no_newline.
    change (NL +:+ join NL cleaned) with ("" +:+ NL +:+ join NL cleaned).
    rewrite (split_line "") by reflexivity.
    rewrite split_join by (intros l Hl; now apply Hclean). reflexivity. }
  destruct (scan_written metadata
              ("" :: match cleaned with [] => [""] | _ => cleaned end))
    as (body_start & Hscan & Hdrop); [intros l Hl; now apply Hmeta|].
  assert (Hagain : cleaned_lines (output content) = cleaned).
  { unfold cleaned_lines at 1. rewrite Hsplit, Hscan, Hdrop.
    destruct cleaned as [|c cleaned'] eqn:E; [reflexivity|].
    rewrite filter_kept.
    - cbn [pop_first]. replace (blank "") with true by reflexivity.
      exact Htrim.
    - intros x [<-|Hx]; [reflexivity|].
      apply negb_true_iff. now apply Hclean. }
  unfold output at 1. rewrite Hagain, Hsplit, Hscan. now rewrite Hout.
Qed.

(** X19. [cleanup_file] keeps the header of a record: the two URL lines
    are written back as they were, for every body. *)
Theorem cleanup_file_keeps_header u v n body :
  is_url u = true -> is_url v = true -> 10 <= n ->
  first_two_lines
    (output ("Source URL: " +:+ u +:+ NL +:+ "Final URL: " +:+ v +:+ NL
             +:+ repeat_char "=" n +:+ NL +:+ body))
  = ["Source URL: " +:+ u; "Final URL: " +:+ v].
Proof.
  intros Hu Hv Hn.
  assert (H0 : has_char nl ("Source URL: " +:+ u) = false)
    by (rewrite has_char_app; cbn [orb has_char Ascii.eqb]; now apply url_no_newline).
  assert (H1 : has_char nl ("Final URL: " +:+ v) = false)
    by (rewrite has_char_app; cbn [orb has_char Ascii.eqb]; now apply url_no_newline).
  unfold output.
  rewrite <- (str_app_assoc "Source URL: " u), <- (str_app_assoc "Final URL: " v).
  rewrite (split_line _ _ H0), (split_line _ _ H1),
          (split_line _ _ (repeat_no_newline n)).
  cbn [scan].
  replace (Header.is_url_line ("Source URL: " +:+ u)) with true by reflexivity.
  replace (Header.is_url_line ("Final URL: " +:+ v)) with true by reflexivity.
  pose proof (separator_found n "" Hn) as Hsep.
  pose proof (separator_not_url n "" Hn) as Hnot.
  rewrite str_app_nil_r in Hsep, Hnot. rewrite Hsep, Hnot.
  cbn [app join]. rewrite !str_app_assoc.
  rewrite <- (str_app_assoc "Source URL: " u), <- (str_app_assoc "Final URL: " v).
  now apply first_two_lines_intro.
Qed.

Lemma cleanup_file_keeps_header_witness :
  first_two_lines
    (output (ScrapeLinks.record_text "http://a.org/x" (Some "http://a.org/y")
               ("Home" +:+ NL +:+ "A line of the page.")))
  = ["Source URL: http://a.org/x"; "Final URL: http://a.org/y"].
Proof.
  refine (cleanup_file_keeps_header "http://a.org/x" "http://a.org/y" 80
            (NL +:+ "Home" +:+ NL +:+ "A line of the page.")
            eq_refl eq_refl _).
  lia.
Defined.

End NavCleanup.

(* ===================================================================== *)
(** * Blank lines in the text of a converted page *)
(* ===================================================================== *)

Section CleanText.
Import Py Re Spec ConvertHtml.

Variable soup_text : string -> option string.
Variable html2text_handle : string -> option string.

Abbreviation clean_text := (convert_html_to_clean_text soup_text html2text_handle).

(** The pattern of three newlines or more matches where three newlines
    stand, and nowhere else. *)
Lemma newlines3_fails prev s :
  startswith s (NL +:+ NL +:+ NL) = false -> run false newlines3 prev s = None.
Proof.
  unfold newlines3. cbn [run]. intros H.
  destruct s as [|c1 s]; [reflexivity|]. cbn [rep cs_mem hi_allows].
  cbn [startswith String.append NL] in H.
  destruct (Ascii.eqb c1 nl); [|reflexivity]. cbn [andb pred hi_pred] in *.
  destruct s as [|c2 s]; [reflexivity|]. cbn [rep cs_mem hi_allows].
  destruct (Ascii.eqb c2 nl); [|reflexivity]. cbn [andb pred hi_pred] in *.
  destruct s as [|c3 s]; [reflexivity|]. cbn [rep cs_mem hi_allows].
  destruct (Ascii.eqb c3 nl); [discriminate | reflexivity].
Qed.

Lemma sub_newlines3_none tmpl s : forall prev,
  contains (NL +:+ NL +:+ NL) s = false ->
  subst tmpl None (scan false newlines3 0 prev s) = s.
Proof.
  induction s as [|c s IH]; intros prev H; [reflexivity|].
  cbn [contains] in H. apply orb_false_elim in H as [Hs Hc].
  cbn [scan]. rewrite newlines3_fails by assumption.
  cbn [subst]. now rewrite IH.
Qed.

Lemma contains_after_line x rest :
  has_char nl x = false ->
  startswith rest (NL +:+ NL) = false ->
  contains (NL +:+ NL +:+ NL) rest = false ->
  contains (NL +:+ NL +:+ NL) (x +:+ NL +:+ rest) = false.
Proof.
  intros Hx Hs Hc. induction x as [|c x IH].
  - change (contains (NL +:+ NL +:+ NL) ("" +:+ NL +:+ rest))
      with (Ascii.eqb nl nl && startswith rest (NL +:+ NL)
            || contains (NL +:+ NL +:+ NL) rest).
    now rewrite Hs, Hc.
  - cbn [has_char] in Hx. apply orb_false_elim in Hx as [Hc1 Hx].
    change (contains (NL +:+ NL +:+ NL) (String c x +:+ NL +:+ rest))
      with (Ascii.eqb c nl && startswith (x +:+ NL +:+ rest) (NL +:+ NL)
            || contains (NL +:+ NL +:+ NL) (x +:+ NL +:+ rest)).
    rewrite Hc1. now apply IH.
Qed.

Lemma contains_no_newline x :
  has_char nl x = false -> contains (NL +:+ NL +:+ NL) x = false.
Proof.
  induction x as [|c x IH]; [reflexivity|]. cbn [has_char]. intros H.
  apply orb_false_elim in H as [Hc Hx].
  change (contains (NL +:+ NL +:+ NL) (String c x))
    with (Ascii.eqb c nl && startswith x (NL +:+ NL)
          || contains (NL +:+ NL +:+ NL) x).
  rewrite Hc. now apply IH.
Qed.

Lemma strip_no_newline line :
  has_char nl line = false -> has_char nl (strip line) = false.
Proof. intros H. now apply rstrip_no_char, lstrip_no_char. Qed.

(** The lines the loop keeps, joined: no three newlines in a row, and
    no blank line at the start after a blank line. *)
Lemma squeeze_joined lines : forall prev_empty,
  (forall l, In l lines -> has_char nl l = false) ->
  let joined := join NL (squeeze lines prev_empty) in
  contains (NL +:+ NL +:+ NL) joined = false
  /\ startswith joined (NL +:+ NL) = false
  /\ (prev_empty = true -> startswith joined NL = false).
Proof.
  induction lines as [|line lines IH]; intros prev_empty Hl; cbn zeta;
    [repeat split|].
  assert (Hrest : forall l, In l lines -> has_char nl l = false)
    by (intros l H; apply Hl; now right).
  assert (Hline : has_char nl (strip line) = false)
    by (apply strip_no_newline, Hl; now left).
  cbn [squeeze]. destruct (strip line) as [|c s] eqn:E; cbn [nonempty negb].
  - destruct prev_empty; [now apply IH|].
    destruct (IH true Hrest) as (H1 & H2 & H3). specialize (H3 eq_refl).
    cbn zeta in *. destruct (squeeze lines true) as [|y l] eqn:Es;
      [repeat split|].
    change (join NL ("" :: y :: l)) with (String nl (join NL (y :: l))).
    change (contains (NL +:+ NL +:+ NL) (String nl (join NL (y :: l))))
      with (Ascii.eqb nl nl && startswith (join NL (y :: l)) (NL +:+ NL)
            || contains (NL +:+ NL +:+ NL) (join NL (y :: l))).
    change (startswith (String nl (join NL (y :: l))) (NL +:+ NL))
      with (Ascii.eqb nl nl && startswith (join NL (y :: l)) NL).
    rewrite H1, H2, H3. repeat split. discriminate.
  - destruct (IH false Hrest) as (H1 & H2 & _). cbn zeta in *.
    cbn [has_char] in Hline. apply orb_false_elim in Hline as [Hc Hs].
    assert (Hstart : forall t p, startswith (String c t) (String nl p) = false).
    { intros t p.
      change (startswith (String c t) (String nl p))
        with (Ascii.eqb c nl && startswith t p).
      now rewrite Hc. }
    destruct (squeeze lines false) as [|y l] eqn:Es.
    + cbn [join]. split; [|split; [apply Hstart | intros _; apply Hstart]].
      apply contains_no_newline. cbn [has_char]. now rewrite Hc.
    + change (join NL (String c s :: y :: l))
        with (String c s +:+ NL +:+ join NL (y :: l)).
      split; [|split; [apply Hstart | intros _; apply Hstart]].
      apply contains_after_line; try assumption.
      cbn [has_char]. now rewrite Hc.
Qed.

Lemma startswith_app_r p : forall a w,
  startswith a p = true -> startswith (a +:+ w) p = true.
Proof.
  induction p as [|b p IH]; intros a w H; [reflexivity|].
  apply startswith_cons in H as (a' & -> & H).
  cbn [String.append startswith]. rewrite Ascii.eqb_refl. now apply IH.
Qed.

Lemma contains_prefix p w a :
  contains p (a +:+ w) = false -> contains p a = false.
Proof.
  induction a as [|c a IH]; intros H.
  - cbn [contains]. rewrite orb_false_r. destruct p as [|b p]; [|reflexivity].
    destruct w; discriminate H.
  - cbn [String.append contains] in *. apply orb_false_elim in H as [Hs Hc].
    rewrite (IH Hc), orb_false_r. apply not_true_is_false. intros Ha.
    apply (startswith_app_r _ _ w) in Ha. cbn [String.append] in Ha. congruence.
Qed.

Lemma rstrip_prefix s : exists w, s = rstrip s +:+ w.
Proof.
  induction s as [|c s [w IH]]; [now exists ""|]. cbn [rstrip].
  destruct (rstrip s) as [|b r].
  - destruct (isspace c); [now exists (String c s)|].
    exists s. reflexivity.
  - exists w. cbn [String.append]. now rewrite IH at 1.
Qed.

Lemma contains_strip p s : contains p s = false -> contains p (strip s) = false.
Proof.
  intros H. unfold strip.
  assert (Hl : contains p (lstrip s) = false).
  { induction s as [|c s IH]; [assumption|]. cbn [lstrip].
    destruct (isspace c); [|assumption].
    cbn [contains] in H. apply orb_false_elim in H as [_ H]. now apply IH. }
  destruct (rstrip_prefix (lstrip s)) as [w Hw]. rewrite Hw in Hl.
  now apply contains_prefix in Hl.
Qed.

(** X20. The text of a converted page has no three newlines in a row,
    that is no two blank lines one after the other: the loop over the
    lines sees to it, and the substitution that follows it finds nothing
    to replace. *)
Theorem clean_text_blank_lines html_content :
  is_Some (soup_text html_content) ->
  contains (NL +:+ NL +:+ NL) (clean_text html_content) = false
  /\ exists txt,
       clean_text html_content
       = strip (join NL (squeeze (split nl txt) false)).
Proof.
  intros [txt Hsoup]. unfold convert_html_to_clean_text. rewrite Hsoup.
  match goal with |- context [split nl ?t] => set (chosen := t) end.
  assert (Hno : contains (NL +:+ NL +:+ NL)
                  (strip (join NL (squeeze (split nl chosen) false))) = false).
  { apply contains_strip.
    now destruct (squeeze_joined (split nl chosen) false
                    (split_no_newline chosen)) as [H _]. }
  unfold sub, sub_count. rewrite sub_newlines3_none by assumption.
  split; [assumption | now exists chosen].
Qed.

End CleanText.

Lemma clean_text_blank_lines_witness :
  Py.contains (Py.NL +:+ Py.NL +:+ Py.NL)
    (ConvertHtml.convert_html_to_clean_text
       (fun _ => Some ("Title" +:+ Py.NL +:+ Py.NL +:+ " " +:+ Py.NL +:+ Py.NL
                       +:+ "Text"))
       (fun _ => None) "<h1>Title</h1>")
  = false.
Proof.
  exact (proj1 (clean_text_blank_lines
                  (fun _ => Some ("Title" +:+ Py.NL +:+ Py.NL +:+ " " +:+ Py.NL
                                  +:+ Py.NL +:+ "Text"))
                  (fun _ => None) "<h1>Title</h1>" (ex_intro _ _ eq_refl))).
Defined.

(* ===================================================================== *)
(** * Two URLs, one file *)
(* ===================================================================== *)

Section SameName.
Import Py ScrapeLinks Spec.

Variable http_get : string -> http_result.
Variable url_path url_netloc : string -> string.
Variable decode : list byte -> string.
Variable HAS_PDFPLUMBER HAS_PYPDF2 : bool.
Variable pdfplumber_pages : list byte -> option (list (option string)).
Variable pypdf_pages : list byte -> option (list string).

Abbreviation scrape_page :=
  (scrape_link http_get url_path url_netloc decode HAS_PDFPLUMBER HAS_PYPDF2
     pdfplumber_pages pypdf_pages).
Abbreviation page_name := (sanitize_filename url_path url_netloc).

(** [os.path.basename(parsed.path) or parsed.netloc]: what the name of
    a record is made of. *)
Abbreviation named_after url :=
  (if nonempty (basename (url_path url)) then basename (url_path url)
   else url_netloc url).

(** X21. The name of a record is made of the last segment of the path of
    its URL, or of the host when the path ends with a slash or is empty,
    and of nothing else of the URL: two pages whose URLs agree on it, as
    two that differ in the query, or two of one host whose paths end
    with a slash, get the same name; the second is then written over the
    first, and the directory is as if the first had not been scraped. *)
Theorem same_name_overwrites url1 url2 content1 content2 final1 final2
    output_dir fs :
  http_get (clean_url url1) = Fetched content1 final1 ->
  http_get (clean_url url2) = Fetched content2 final2 ->
  content1 <> [] -> content2 <> [] ->
  is_pdf_content content1 = false -> is_pdf_content content2 = false ->
  named_after (clean_url url1) = named_after (clean_url url2) ->
  page_name (clean_url url1) = page_name (clean_url url2)
  /\ snd (scrape_page url2 output_dir (snd (scrape_page url1 output_dir fs)))
     = snd (scrape_page url2 output_dir fs)
  /\ snd (scrape_page url2 output_dir fs)
     !! path_join output_dir ("web_" +:+ page_name (clean_url url1) +:+ ".txt")
     = Some (record_text (clean_url url2) (Some final2) (decode content2)).
Proof.
  intros Hget1 Hget2 Hne1 Hne2 Hpdf1 Hpdf2 Hpart.
  assert (Hname : page_name (clean_url url1) = page_name (clean_url url2))
    by (unfold sanitize_filename; cbn zeta; now rewrite Hpart).
  split; [exact Hname|].
  unfold scrape_link, fetch_url. rewrite Hget1, Hget2.
  destruct content1 as [|b1 content1]; [congruence|].
  destruct content2 as [|b2 content2]; [congruence|].
  rewrite Hpdf1, Hpdf2, Hname. cbn [snd].
  split; [apply insert_insert_eq | apply lookup_insert_eq].
Qed.

End SameName.

Lemma same_name_overwrites_witness :
  snd (ScrapeLinks.scrape_link (fun url => ScrapeLinks.Fetched [x3c; x70; x3e] url)
         (fun url =>
            if String.eqb url "https://ieeexplore.ieee.org/document/1209964/"
            then "/document/1209964/" else "/abstract/document/1633503/")
         (fun _ => "ieeexplore.ieee.org") (fun _ => "<p>")
         false false (fun _ => None) (fun _ => None)
         "https://ieeexplore.ieee.org/document/1209964/" "links" ∅)
  !! "links/web_ieeexplore_ieee_org.txt"
  = Some (ScrapeLinks.record_text "https://ieeexplore.ieee.org/document/1209964/"
            (Some "https://ieeexplore.ieee.org/document/1209964/") "<p>").
Proof.
  refine (proj2 (proj2 (same_name_overwrites
    (fun url => ScrapeLinks.Fetched [x3c; x70; x3e] url)
    (fun url =>
       if String.eqb url "https://ieeexplore.ieee.org/document/1209964/"
       then "/document/1209964/" else "/abstract/document/1633503/")
    (fun _ => "ieeexplore.ieee.org") (fun _ => "<p>")
    false false (fun _ => None) (fun _ => None)
    "https://ieeexplore.ieee.org/abstract/document/1633503/"
    "https://ieeexplore.ieee.org/document/1209964/"
    [x3c; x70; x3e] [x3c; x70; x3e]
    "https://ieeexplore.ieee.org/abstract/document/1633503/"
    "https://ieeexplore.ieee.org/document/1209964/"
    "links" ∅ eq_refl eq_refl _ _ eq_refl eq_refl eq_refl)));
    discriminate.
Defined.

(* ===================================================================== *)
(** * The header that the aggressive cleaning rebuilds *)
(* ===================================================================== *)

Section Rebuilt.
Import Py Spec AggressiveClean.

Lemma clean_step_other md line :
  Header.is_url_line line = false -> metadata_step md line = md.
Proof.
  unfold Header.is_url_line, metadata_step.
  intros H. apply orb_false_elim in H as [-> ->]. reflexivity.
Qed.

Lemma clean_fold_other lines : forall md,
  (forall l, In l lines -> Header.is_url_line l = false) ->
  fold_left metadata_step lines md = md.
Proof.
  induction lines as [|l lines IH]; intros md H; [reflexivity|].
  cbn [fold_left]. rewrite clean_step_other by (apply H; now left).
  apply IH. intros x Hx. apply H. now right.
Qed.

(** X22. [clean_file] rebuilds the header of a record from the first ten
    lines of the file as it reads it, in text mode: the two URL lines come
    back as they were when none of the first six lines of the body, as
    read, begins like a URL line. A carriage return of the file ends a
    line as a newline does. *)
Theorem clean_file_keeps_header u v n txt cleaned :
  is_url u = true -> is_url v = true -> 10 <= n ->
  (forall l, In l (take 6 (split nl (read_text txt))) ->
             Header.is_url_line l = false) ->
  first_two_lines
    (rebuilt
       (read_text ("Source URL: " +:+ u +:+ NL +:+ "Final URL: " +:+ v +:+ NL
                   +:+ repeat_char "=" n +:+ NL +:+ NL +:+ txt)) cleaned)
  = ["Source URL: " +:+ u; "Final URL: " +:+ v].
Proof.
  intros Hu Hv Hn Hbody. rewrite read_record by assumption.
  revert Hbody. generalize (read_text txt) as body. intros body Hbody.
  unfold rebuilt.
  assert (H0 : has_char nl ("Source URL: " +:+ u) = false)
    by (rewrite has_char_app; cbn [orb has_char Ascii.eqb]; now apply url_no_newline).
  assert (H1 : has_char nl ("Final URL: " +:+ v) = false)
    by (rewrite has_char_app; cbn [orb has_char Ascii.eqb]; now apply url_no_newline).
  rewrite <- (str_app_assoc "Source URL: " u), <- (str_app_assoc "Final URL: " v).
  rewrite (split_line _ _ H0), (split_line _ _ H1),
          (split_line _ _ (repeat_no_newline n)).
  change (NL +:+ body) with ("" +:+ NL +:+ body).
  rewrite (split_line "" _ eq_refl). cbn [take fold_left].
  assert (Hsrc : metadata_step {| source_url := None; final_url := None |}
                   ("Source URL: " +:+ u)
                 = {| source_url := Some u; final_url := None |}).
  { unfold metadata_step.
    replace (startswith ("Source URL: " +:+ u) "Source URL:") with true
      by reflexivity.
    change ("Source URL: " +:+ u) with ("Source URL:" +:+ " " +:+ u).
    rewrite header_value; auto. }
  assert (Hfin : metadata_step {| source_url := Some u; final_url := None |}
                   ("Final URL: " +:+ v)
                 = {| source_url := Some u; final_url := Some v |}).
  { unfold metadata_step.
    replace (startswith ("Final URL: " +:+ v) "Source URL:") with false
      by reflexivity.
    replace (startswith ("Final URL: " +:+ v) "Final URL:") with true
      by reflexivity.
    change ("Final URL: " +:+ v) with ("Final URL:" +:+ " " +:+ v).
    rewrite header_value; auto. }
  rewrite Hsrc, Hfin.
  pose proof (separator_not_url n "" Hn) as Hsep. rewrite str_app_nil_r in Hsep.
  rewrite (clean_step_other _ _ Hsep), (clean_step_other _ "" eq_refl).
  rewrite clean_fold_other by assumption.
  cbn [source_url final_url truthy].
  destruct (rstrip_url u Hu) as [_ Hu'], (rstrip_url v Hv) as [_ Hv'].
  destruct u as [|cu u]; [contradiction|]. destruct v as [|cv v]; [contradiction|].
  cbn [nonempty app join]. rewrite !str_app_assoc.
  rewrite <- (str_app_assoc "Source URL: " (String cu u)),
          <- (str_app_assoc "Final URL: " (String cv v)).
  now apply first_two_lines_intro.
Qed.

Lemma clean_file_keeps_header_witness :
  first_two_lines
    (rebuilt
       (read_text
          (ScrapeLinks.record_text "http://a.org/x" (Some "http://a.org/y")
             ("<p>A page.</p>" +:+ String cr "<p>More.</p>")))
       "A page. More.")
  = ["Source URL: http://a.org/x"; "Final URL: http://a.org/y"].
Proof.
  refine (clean_file_keeps_header "http://a.org/x" "http://a.org/y" 80
            ("<p>A page.</p>" +:+ String cr "<p>More.</p>") "A page. More."
            eq_refl eq_refl _ _).
  - lia.
  - intros l [<-|[<-|[]]]; reflexivity.
Defined.

(** A line that begins like a URL line after a carriage return is one of
    the lines [clean_file] reads, and its URL is the one written back. *)
Lemma rebuilt_after_carriage_return :
  first_two_lines
    (rebuilt
       (read_text
          (ScrapeLinks.record_text "http://a.org/x" (Some "http://a.org/y")
             ("abc" +:+ String cr "Source URL: http://b.org/z" +:+ NL)))
       "abc")
  = ["Source URL: http://b.org/z"; "Final URL: http://a.org/y"].
Proof. vm_compute. reflexivity. Qed.

End Rebuilt.

(* ===================================================================== *)
(** * The metadata lines on a second pass of the substance filters *)
(* ===================================================================== *)

Section MetadataAgain.
Import Py Spec.

Lemma rstrip_rstrip s : rstrip (rstrip s) = rstrip s.
Proof.
  induction s as [|c s IH]; [reflexivity|]. cbn [rstrip].
  destruct (rstrip s) as [|b r] eqn:E.
  - destruct (isspace c) eqn:Ec; [reflexivity|]. cbn [rstrip]. now rewrite Ec.
  - cbn [rstrip]. cbn [rstrip] in IH. now rewrite IH.
Qed.

Lemma startswith_self p r : startswith (p +:+ r) p = true.
Proof.
  induction p as [|b p IH]; [reflexivity|].
  cbn [String.append startswith]. now rewrite Ascii.eqb_refl.
Qed.

(** A URL line is still one without its trailing whitespace. *)
Lemma rstrip_url_line line :
  Header.is_url_line line = true -> Header.is_url_line (rstrip line) = true.
Proof.
  assert (H : forall p, rstrip p = p -> p <> "" ->
            startswith line p = true -> startswith (rstrip line) p = true).
  { intros p Hp Hne Hs. apply startswith_split in Hs as [r ->].
    destruct (rstrip r) as [|c r'] eqn:E.
    - rewrite rstrip_app_drop by assumption. rewrite Hp.
      rewrite <- (str_app_nil_r p) at 1. apply startswith_self.
    - rewrite rstrip_app_keep by (rewrite E; discriminate). apply startswith_self. }
  unfold Header.is_url_line. intros Hl. apply orb_prop in Hl as [Hl|Hl].
  - rewrite (H "Source URL:"); [reflexivity | reflexivity | discriminate | assumption].
  - rewrite (H "Final URL:"); [apply orb_true_r | reflexivity | discriminate | assumption].
Qed.

Lemma readlines_shape s : forall line,
  In line (readlines s) ->
  exists l, has_char nl l = false /\ (line = l \/ line = l +:+ NL).
Proof.
  induction s as [|a s IH]; intros line; cbn [readlines]; [intros []|].
  destruct (Ascii.eqb_spec a nl) as [->|Ha].
  - intros [<-|H]; [|now apply IH]. exists "". split; [reflexivity | now right].
  - apply Ascii.eqb_neq in Ha. destruct (readlines s) as [|h t] eqn:E.
    + intros [<-|[]]. exists (String a ""). cbn [has_char]. rewrite Ha.
      split; [reflexivity | now left].
    + intros [<-|H].
      * destruct (IH h (or_introl eq_refl)) as (l & Hl & Hh).
        exists (String a l). cbn [has_char]. rewrite Ha, Hl.
        split; [reflexivity|]. destruct Hh as [-> | ->]; [now left | now right].
      * apply IH. now right.
Qed.

Lemma rstrip_line_no_newline s line :
  In line (readlines s) -> has_char nl (rstrip line) = false.
Proof.
  intros H. apply readlines_shape in H as (l & Hl & [-> | ->]).
  - now apply rstrip_no_char.
  - rewrite rstrip_app_drop by reflexivity. now apply rstrip_no_char.
Qed.

(** The metadata lines of a scan: URL lines of the text without their
    trailing whitespace. *)
Lemma header_scan_metadata lines : forall i acc,
  exists found, fst (Header.scan lines i acc) = acc ++ found
    /\ forall l, In l found ->
         exists line, In line lines /\ Header.is_url_line line = true
                      /\ l = rstrip line.
Proof.
  induction lines as [|line lines IH]; intros i acc; cbn [Header.scan].
  - exists []. rewrite app_nil_r. split; [reflexivity | intros l []].
  - destruct (Header.is_url_line line) eqn:Hurl.
    + destruct (IH (S i) (acc ++ [rstrip line])) as (found & -> & Hf).
      exists (rstrip line :: found). rewrite <- app_assoc. split; [reflexivity|].
      intros l [<-|Hl]; [exists line; split; [now left | auto]|].
      destruct (Hf l Hl) as (line0 & H0 & H1). exists line0.
      split; [now right | assumption].
    + destruct (Header.has_separator line).
      * exists []. rewrite app_nil_r. split; [reflexivity | intros l []].
      * destruct (IH (S i) acc) as (found & -> & Hf).
        exists found. split; [reflexivity|].
        intros l Hl. destruct (Hf l Hl) as (line0 & H0 & H1). exists line0.
        split; [now right | assumption].
Qed.

Lemma header_scan_lines found rest : forall i acc,
  (forall l, In l found -> Header.is_url_line l = true /\ rstrip l = l) ->
  Header.scan (map (fun l => l +:+ NL) found ++ rest) i acc
  = Header.scan rest (i + List.length found) (acc ++ found).
Proof.
  induction found as [|l found IH]; intros i acc H.
  - cbn [map app List.length]. now rewrite Nat.add_0_r, app_nil_r.
  - cbn [map app Header.scan List.length].
    destruct (H l (or_introl eq_refl)) as [Hurl Hr].
    assert (Hline : Header.is_url_line (l +:+ NL) = true).
    { unfold Header.is_url_line in *. apply orb_prop in Hurl as [Hu|Hu];
        rewrite (startswith_app_r _ _ NL Hu); [reflexivity | apply orb_true_r]. }
    rewrite Hline, rstrip_app_drop, Hr by reflexivity.
    rewrite IH by (intros x Hx; apply H; now right).
    rewrite <- app_assoc. f_equal. lia.
Qed.

Lemma readlines_joined ls rest :
  (forall l, In l ls -> has_char nl l = false) ->
  readlines (join NL ls +:+ NL +:+ rest)
  = map (fun l => l +:+ NL) (match ls with [] => [""] | _ => ls end)
    ++ readlines rest.
Proof.
  induction ls as [|x ls IH]; intros H; [reflexivity|].
  destruct ls as [|y ls].
  - cbn [join map app]. apply readlines_line, H. now left.
  - change (join NL (x :: y :: ls)) with (x +:+ NL +:+ join NL (y :: ls)).
    rewrite !str_app_assoc. rewrite readlines_line by (apply H; now left).
    rewrite <- !str_app_assoc, (str_app_assoc _ NL rest).
    rewrite IH by (intros l Hl; apply H; now right). reflexivity.
Qed.

(** The scan of what the reconstruction writes. *)
Lemma rebuild_scan metadata_lines content_lines :
  (forall l, In l metadata_lines ->
     Header.is_url_line l = true /\ rstrip l = l /\ has_char nl l = false) ->
  fst (Header.scan (readlines (Header.rebuild metadata_lines content_lines)) 0 [])
  = metadata_lines.
Proof.
  intros H. unfold Header.rebuild.
  rewrite readlines_joined by (intros l Hl; now apply H).
  rewrite (readlines_line (repeat_char "=" 80)) by apply repeat_no_newline.
  destruct metadata_lines as [|m ms].
  - reflexivity.
  - rewrite header_scan_lines by (intros l Hl; split; now apply H).
    cbn [Header.scan].
    replace (Header.is_url_line (repeat_char "=" 80 +:+ NL)) with false
      by reflexivity.
    replace (Header.has_separator (repeat_char "=" 80 +:+ NL)) with true
      by reflexivity.
    reflexivity.
Qed.

Lemma scanned_metadata content :
  forall l, In l (fst (Header.scan (readlines content) 0 [])) ->
    Header.is_url_line l = true /\ rstrip l = l /\ has_char nl l = false.
Proof.
  destruct (header_scan_metadata (readlines content) 0 []) as (found & -> & Hf).
  cbn [app]. intros l Hl. destruct (Hf l Hl) as (line & Hin & Hurl & ->).
  split; [now apply rstrip_url_line|].
  split; [apply rstrip_rstrip | now apply (rstrip_line_no_newline content)].
Qed.

(** X23. The metadata lines are a fixed point of the substance filters,
    for every file: what [extract_substance] writes, in extract_substance.py
    and in final_extract.py, has the metadata lines the pass found and no
    others, before one separator, so that a second pass finds the same
    lines. *)
Theorem extract_substance_metadata_again content :
  fst (Header.scan (readlines (ExtractSubstance.output content)) 0 [])
  = fst (Header.scan (readlines content) 0 [])
  /\ fst (Header.scan (readlines (FinalExtract.output content)) 0 [])
     = fst (Header.scan (readlines content) 0 []).
Proof.
  pose proof (scanned_metadata content) as H.
  unfold ExtractSubstance.output, FinalExtract.output.
  destruct (Header.scan (readlines content) 0 []) as [metadata_lines body_start].
  cbn [fst] in *. split; now apply rebuild_scan.
Qed.

End MetadataAgain.

(* ===================================================================== *)
(** * scrape_pdfs.py: the counts of a run over the rows *)
(* ===================================================================== *)

Section CsvRows.
Import Py CsvScraper.

Variable download_pdf : string -> option (list byte).
Variable url_path : string -> string.
Variable HAS_PDFPLUMBER HAS_PYPDF2 : bool.
Variable pdfplumber_pages : list byte -> option (list (option string)).
Variable pypdf_pages : list byte -> option (list string).

Abbreviation csv_link :=
  (link_step download_pdf url_path HAS_PDFPLUMBER HAS_PYPDF2
     pdfplumber_pages pypdf_pages).
Abbreviation csv_row :=
  (row_step download_pdf url_path HAS_PDFPLUMBER HAS_PYPDF2
     pdfplumber_pages pypdf_pages).
Abbreviation csv_run :=
  (process_csv download_pdf url_path HAS_PDFPLUMBER HAS_PYPDF2
     pdfplumber_pages pypdf_pages).

Lemma link_step_counts output_dir r res fs link :
  let st' := csv_link output_dir r (res, fs) link in
  total_rows (fst st') = total_rows res
  /\ rows_with_pdfs (fst st') = rows_with_pdfs res
  /\ total_pdf_links (fst st') = total_pdf_links res
  /\ successful_downloads (fst st') + failed_downloads (fst st')
     = S (successful_downloads res + failed_downloads res)
  /\ List.length (pdf_links (fst st')) = S (List.length (pdf_links res))
  /\ fs ⊆ snd st'.
Proof.
  cbn zeta. unfold link_step.
  assert (Hlen : List.length (pdf_links res ++ [(project r, model r, link)])
                 = S (List.length (pdf_links res)))
    by (rewrite length_app; cbn [List.length]; lia).
  destruct (fs !! _) as [old|] eqn:Hfile.
  - cbn [fst snd succeeded listed total_rows rows_with_pdfs total_pdf_links
         successful_downloads failed_downloads pdf_links].
    repeat split; try reflexivity; try lia.
  - destruct (download_pdf link) as [pdf_data|];
      [destruct (PdfScraper.pdf_to_text _ _ _ _) as [text|]|];
      cbn [fst snd succeeded failed listed total_rows rows_with_pdfs
           total_pdf_links successful_downloads failed_downloads pdf_links];
      repeat split; try reflexivity; try lia.
    now apply insert_subseteq.
Qed.

Lemma link_fold_counts output_dir r links : forall res fs,
  let st' := fold_left (csv_link output_dir r) links (res, fs) in
  total_rows (fst st') = total_rows res
  /\ rows_with_pdfs (fst st') = rows_with_pdfs res
  /\ total_pdf_links (fst st') = total_pdf_links res
  /\ successful_downloads (fst st') + failed_downloads (fst st')
     = successful_downloads res + failed_downloads res + List.length links
  /\ List.length (pdf_links (fst st'))
     = List.length (pdf_links res) + List.length links
  /\ fs ⊆ snd st'.
Proof.
  induction links as [|link links IH]; intros res fs; cbn zeta.
  - cbn [fold_left fst snd List.length]. repeat split; lia || reflexivity.
  - cbn [fold_left List.length].
    pose proof (link_step_counts output_dir r res fs link) as H1.
    cbn zeta in H1.
    destruct (csv_link output_dir r (res, fs) link) as [res1 fs1].
    cbn [fst snd] in H1. destruct H1 as (A1 & A2 & A3 & A4 & A5 & A6).
    specialize (IH res1 fs1). cbn zeta in IH.
    destruct IH as (B1 & B2 & B3 & B4 & B5 & B6).
    repeat split; try lia. now transitivity fs1.
Qed.

Lemma row_step_counts output_dir res fs r :
  total_pdf_links res = successful_downloads res + failed_downloads res ->
  total_pdf_links res = List.length (pdf_links res) ->
  rows_with_pdfs res <= total_rows res ->
  let st' := csv_row output_dir (res, fs) r in
  total_rows (fst st') = S (total_rows res)
  /\ total_pdf_links (fst st')
     = successful_downloads (fst st') + failed_downloads (fst st')
  /\ total_pdf_links (fst st') = List.length (pdf_links (fst st'))
  /\ rows_with_pdfs (fst st') <= total_rows (fst st')
  /\ fs ⊆ snd st'.
Proof.
  intros H1 H2 H3. cbn zeta. unfold row_step.
  destruct (PdfScraper.extract_pdf_links _) as [|link links].
  - cbn [fst snd total_rows rows_with_pdfs total_pdf_links
         successful_downloads failed_downloads pdf_links].
    repeat split; (lia || reflexivity).
  - cbn [total_rows rows_with_pdfs total_pdf_links successful_downloads
         failed_downloads pdf_links].
    match goal with |- context [fold_left ?f ?l (?res0, fs)] =>
      pose proof (link_fold_counts output_dir r l res0 fs) as H end.
    cbn zeta in H.
    cbn [total_rows rows_with_pdfs total_pdf_links successful_downloads
         failed_downloads pdf_links] in H.
    destruct H as (A1 & A2 & A3 & A4 & A5 & A6).
    repeat split; try lia. assumption.
Qed.

(** X24. The counts [process_csv] returns agree with each other: every
    row is counted, every link found is counted once as a successful or
    as a failed download and listed once, and no more rows have links
    than there are rows. A file that is in the output directory before
    the run is not written again. *)
Theorem process_csv_accounts rows output_dir fs :
  let '(res, fs') := process_csv download_pdf url_path HAS_PDFPLUMBER HAS_PYPDF2
                     pdfplumber_pages pypdf_pages rows output_dir fs in
  total_rows res = List.length rows
  /\ total_pdf_links res = successful_downloads res + failed_downloads res
  /\ total_pdf_links res = List.length (pdf_links res)
  /\ rows_with_pdfs res <= total_rows res
  /\ fs ⊆ fs'.
Proof.
  unfold process_csv.
  assert (H : forall rows res fs0,
    total_pdf_links res = successful_downloads res + failed_downloads res ->
    total_pdf_links res = List.length (pdf_links res) ->
    rows_with_pdfs res <= total_rows res ->
    let st' := fold_left (csv_row output_dir) rows (res, fs0) in
    total_rows (fst st') = total_rows res + List.length rows
    /\ total_pdf_links (fst st')
       = successful_downloads (fst st') + failed_downloads (fst st')
    /\ total_pdf_links (fst st') = List.length (pdf_links (fst st'))
    /\ rows_with_pdfs (fst st') <= total_rows (fst st')
    /\ fs0 ⊆ snd st').
  { clear rows fs. induction rows as [|r rows IH]; intros res fs0 H1 H2 H3.
    - cbn [fold_left fst snd List.length]. repeat split; (lia || reflexivity).
    - cbn [fold_left List.length].
      pose proof (row_step_counts output_dir res fs0 r H1 H2 H3) as Hr.
      cbn zeta in Hr.
      destruct (csv_row output_dir (res, fs0) r) as [res1 fs1].
      cbn [fst snd] in Hr. destruct Hr as (A1 & A2 & A3 & A4 & A5).
      specialize (IH res1 fs1 A2 A3 A4). cbn zeta in IH.
      destruct IH as (B1 & B2 & B3 & B4 & B5).
      repeat split; try lia; try assumption. now transitivity fs1. }
  specialize (H rows
    {| total_rows := 0; rows_with_pdfs := 0; total_pdf_links := 0;
       successful_downloads := 0; failed_downloads := 0; pdf_links := [] |}
    fs eq_refl eq_refl (le_n 0)). cbn zeta in H.
  destruct (fold_left _ rows _) as [res fs']. cbn [fst snd] in H.
  cbn [total_rows] in H. tauto.
Qed.

End CsvRows.

(* ===================================================================== *)
(** * The counts of the aggressive cleaning sweep *)
(* ===================================================================== *)

Section SweepCounts.
Import Py AggressiveClean.

Variable html_events : string -> option (list html_event).
Variable unescape : string -> string.

Abbreviation clean_step := (main_step html_events unescape).
Abbreviation clean_loop := (main_loop html_events unescape).

Lemma clean_step_counts st file_path :
  is_Some (files st !! file_path) ->
  success (clean_step st file_path) + deleted (clean_step st file_path)
  = S (success st + deleted st)
  /\ forall q, is_Some (files (clean_step st file_path) !! q) ->
               is_Some (files st !! q).
Proof.
  intros [content Hfile]. unfold main_step, clean_file. rewrite Hfile.
  destruct (len (text_only _) <? 150); cbn [success deleted files].
  - split; [lia|]. intros q Hq.
    destruct (decide (file_path = q)) as [<-|Hne].
    + rewrite lookup_delete_eq in Hq. now destruct Hq.
    + now rewrite lookup_delete_ne in Hq.
  - split; [lia|]. intros q Hq.
    destruct (decide (file_path = q)) as [<-|Hne]; [eauto|].
    now rewrite lookup_insert_ne in Hq.
Qed.

(** X25. Every file of the sweep is either cleaned or deleted: over
    distinct paths that all have a file, the two counters grow together
    by the number of paths, and the sweep creates no file. *)
Theorem sweep_counts_every_file paths : forall st,
  NoDup paths ->
  (forall p, In p paths -> is_Some (files st !! p)) ->
  let st' := main_loop html_events unescape paths st in
  success st' + deleted st' = success st + deleted st + List.length paths
  /\ forall q, is_Some (files st' !! q) -> is_Some (files st !! q).
Proof.
  unfold main_loop.
  induction paths as [|p paths IH]; intros st Hnd Hall; cbn [fold_left].
  - cbn [List.length]. split; [lia | auto].
  - apply NoDup_cons in Hnd as [Hp Hnd].
    destruct (clean_step_counts st p (Hall p (or_introl eq_refl))) as [Hc Hf].
    destruct (IH (clean_step st p) Hnd) as [Hc' Hf'].
    + intros q Hq. rewrite sweep_step_other; [apply Hall; now right|].
      intros ->. apply Hp. now apply list_elem_of_In.
    + cbn [List.length]. split; [lia|].
      intros q Hq. now apply Hf, Hf'.
Qed.

End SweepCounts.

Lemma sweep_counts_every_file_witness :
  AggressiveClean.success
    (AggressiveClean.main_loop
       (fun _ => Some [AggressiveClean.Data "too short to keep"])
       (fun d => d) ["web_a.txt"]
       {| AggressiveClean.files := <["web_a.txt" := "too short to keep"]> ∅;
          AggressiveClean.success := 0; AggressiveClean.deleted := 0 |})
  + AggressiveClean.deleted
      (AggressiveClean.main_loop
         (fun _ => Some [AggressiveClean.Data "too short to keep"])
         (fun d => d) ["web_a.txt"]
         {| AggressiveClean.files := <["web_a.txt" := "too short to keep"]> ∅;
            AggressiveClean.success := 0; AggressiveClean.deleted := 0 |})
  = 1.
Proof.
  refine (proj1 (sweep_counts_every_file
    (fun _ => Some [AggressiveClean.Data "too short to keep"]) (fun d => d)
    ["web_a.txt"]
    {| AggressiveClean.files := <["web_a.txt" := "too short to keep"]> ∅;
       AggressiveClean.success := 0; AggressiveClean.deleted := 0 |} _ _)).
  - apply NoDup_singleton.
  - intros p [<-|[]]. cbn [AggressiveClean.files].
    rewrite lookup_insert_eq. eauto.
Defined.

(* ===================================================================== *)
(** * The two conversions of GitHub URLs *)
(* ===================================================================== *)

Section TwoConverters.
Import Py Re Spec FixGithub AuditFiles.

(** X26. The conversion of audit_files.py and that of fix_github.py
    agree on every URL but the bare repository URLs: there the first
    gives nothing and the second the README of the master branch. *)
Theorem converters_agree :
  (forall url,
     convert_github_url url = convert_github_to_raw url
     \/ (convert_github_url url = None
         /\ exists user repo,
              option_map groups (match_ false repo_url url) = Some [user; repo]
              /\ convert_github_to_raw url
                 = Some (raw_host +:+ user +:+ "/" +:+ repo
                         +:+ "/master/README.md")))
  /\ (forall user repo,
        is_segment user = true -> is_segment repo = true ->
        contains "raw.githubusercontent.com"
          ("https://github.com/" +:+ user +:+ "/" +:+ repo) = false ->
        convert_github_url ("https://github.com/" +:+ user +:+ "/" +:+ repo)
        = None
        /\ convert_github_to_raw ("https://github.com/" +:+ user +:+ "/" +:+ repo)
           = Some (raw_host +:+ user +:+ "/" +:+ repo +:+ "/master/README.md")).
Proof.
  split.
  - intros url. unfold convert_github_url, convert_github_to_raw.
    destruct (contains "raw.githubusercontent.com" url); [now left|].
    destruct (negb (contains "github.com" url)); [now left|].
    destruct (option_map groups (match_ false (branch_url "blob") url))
      as [[|a [|b [|c [|d [|e l]]]]]|];
      destruct (option_map groups (match_ false (branch_url "tree") url))
        as [[|a' [|b' [|c' [|d' [|e' l']]]]]|];
      try (now left);
      destruct (option_map groups (match_ false repo_url url))
        as [[|user [|repo [|x l'']]]|];
      try (now left); right; (split; [reflexivity|]); now exists user, repo.
  - intros user repo Hu Hr Hraw. split; [|now apply convert_repo].
    unfold convert_github_url. rewrite Hraw.
    replace (contains "github.com" _) with true by reflexivity. cbn [negb].
    pose proof (branch_url_stops "blob" user repo "" Hu Hr eq_refl eq_refl) as Hb.
    pose proof (branch_url_stops "tree" user repo "" Hu Hr eq_refl eq_refl) as Ht.
    rewrite str_app_nil_r in Hb, Ht. now rewrite Hb, Ht.
Qed.

Lemma converters_agree_witness :
  convert_github_url "https://github.com/ongardie/raft.tla" = None
  /\ convert_github_to_raw "https://github.com/ongardie/raft.tla"
     = Some "https://raw.githubusercontent.com/ongardie/raft.tla/master/README.md".
Proof.
  exact (proj2 converters_agree "ongardie" "raft.tla" eq_refl eq_refl eq_refl).
Defined.

End TwoConverters.

(* ===================================================================== *)
(** * The batch conversion and its report *)
(* ===================================================================== *)

Section BatchReport.
Import Py BatchStats.

Variable open_pdf : string -> list string + string.
Variable finish : stats -> gmap string string -> gmap string string.

Abbreviation pdf_step := (convert_step open_pdf).
Abbreviation pdf_batch := (convert_all open_pdf).
Abbreviation pdf_script := (script open_pdf finish).

Lemma convert_fold pdf_files : forall s fs,
  let st' := fold_left pdf_step pdf_files (s, fs) in
  total (fst st') = total s
  /\ successful (fst st') + failed (fst st')
     = successful s + failed s + List.length pdf_files
  /\ List.length (files (fst st')) + successful s
     = List.length (files s) + successful (fst st')
  /\ List.length (errors (fst st')) + failed s
     = List.length (errors s) + failed (fst st')
  /\ successful s <= successful (fst st')
  /\ (successful (fst st') = successful s <->
      forall f, In f pdf_files ->
        exists e, open_pdf (ScrapeLinks.path_join RAW_PDF_DIR f) = inr e)
  /\ (successful (fst st') = successful s -> snd st' = fs).
Proof.
  induction pdf_files as [|f pdf_files IH]; intros s fs; cbn zeta.
  - cbn [fold_left fst snd List.length]. repeat split; try lia.
    intros _ f [].
  - cbn [fold_left List.length].
    destruct (open_pdf (ScrapeLinks.path_join RAW_PDF_DIR f)) as [pages|e] eqn:E.
    + assert (Hstep : pdf_step (s, fs) f
        = ({| total := total s; successful := S (successful s);
              failed := failed s;
              total_chars := total_chars s + len (BatchConvertPymupdf.convert pages);
              total_pages := total_pages s + List.length pages;
              errors := errors s;
              files := files s ++ [(f, List.length pages,
                                    len (BatchConvertPymupdf.convert pages))] |},
           <[ScrapeLinks.path_join OUTPUT_DIR (replace f ".pdf" ".txt")
             := BatchConvertPymupdf.convert pages]> fs))
        by (unfold convert_step; now rewrite E).
      rewrite Hstep.
      match goal with |- context [fold_left _ _ (?s1, ?fs1)] =>
        specialize (IH s1 fs1) end.
      cbn zeta in IH.
      cbn [total successful failed files errors] in IH.
      destruct IH as (A1 & A2 & A3 & A4 & A5 & A6 & A7).
      rewrite length_app in A3. cbn [List.length] in A3.
      repeat split; try lia.
      intros H. specialize (H f (or_introl eq_refl)) as [e' He'].
      congruence.
    + assert (Hstep : pdf_step (s, fs) f
        = ({| total := total s; successful := successful s;
              failed := S (failed s);
              total_chars := total_chars s; total_pages := total_pages s;
              errors := errors s ++ [(f, String.substring 0 100 e)];
              files := files s |}, fs))
        by (unfold convert_step; now rewrite E).
      rewrite Hstep.
      match goal with |- context [fold_left _ _ (?s1, ?fs1)] =>
        specialize (IH s1 fs1) end.
      cbn zeta in IH.
      cbn [total successful failed files errors] in IH.
      destruct IH as (A1 & A2 & A3 & A4 & A5 & A6 & A7).
      rewrite length_app in A4. cbn [List.length] in A4.
      repeat split; try lia; try assumption.
      * intros H f' [<-|Hf]; [eauto | now apply A6].
      * intros H. apply A6. intros f' Hf. apply H. now right.
Qed.

(** X27. The statistics of the batch add up: every PDF file is counted
    once, as converted or as failed, and listed once. When no PDF file is
    converted, because there is none or because none can be opened, the
    report divides by zero: the script ends in the exception with the
    directory as it was, and the summary is not written. With one
    conversion or more it goes on to the end. *)
Theorem batch_report_raises pdf_files fs :
  (let s := fst (pdf_batch pdf_files fs) in
   total s = List.length pdf_files
   /\ successful s + failed s = total s
   /\ List.length (files s) = successful s
   /\ List.length (errors s) = failed s)
  /\ (snd (pdf_script pdf_files fs) = true <->
      forall f, In f pdf_files ->
        exists e, open_pdf (ScrapeLinks.path_join RAW_PDF_DIR f) = inr e)
  /\ (snd (pdf_script pdf_files fs) = true -> fst (pdf_script pdf_files fs) = fs).
Proof.
  pose proof (convert_fold pdf_files
    {| total := List.length pdf_files; successful := 0; failed := 0;
       total_chars := 0; total_pages := 0; errors := []; files := [] |} fs) as H.
  cbn zeta in H. cbn [total successful failed files errors List.length] in H.
  unfold script, convert_all.
  destruct (fold_left pdf_step pdf_files _) as [s fs'].
  cbn [fst snd] in *. destruct H as (A1 & A2 & A3 & A4 & A5 & A6 & A7).
  split; [cbn zeta; lia|].
  unfold report_raises. rewrite A1.
  destruct (Nat.eqb_spec (successful s) 0) as [Hz|Hz].
  - rewrite orb_true_r. cbn [fst snd].
    split; [split; [intros _; now apply A6 | reflexivity] | intros _; now apply A7].
  - assert (Hlen : List.length pdf_files <> 0) by lia.
    apply Nat.eqb_neq in Hlen. rewrite Hlen. cbn [orb fst snd].
    split; [|discriminate].
    split; [discriminate|]. intros Hall. apply A6 in Hall. congruence.
Qed.

End BatchReport.

(* ===================================================================== *)
(** * A PDF link before a full stop, for the scraper and for the report *)
(* ===================================================================== *)

Section LinkBeforeStop.
Import Py Re Spec PdfScraper VerifyScraping.

Lemma run_one_in ml cs c p prev s :
  cs_mem cs c = true ->
  run ml (One cs :: p) prev (String c s) = push (TChr c) (run ml p (Some c) s).
Proof. intros H. cbn [run]. now rewrite H. Qed.

Lemma run_opt_skip ml cs p prev c s :
  cs_mem cs c = false ->
  run ml (opt cs :: p) prev (String c s) = run ml p prev (String c s).
Proof. intros H. unfold opt. cbn [run rep]. now rewrite H. Qed.

(** A greedy repetition goes on over a run of characters of its set
    when it has a match after the run. *)
Lemma rep_greedy_prefix k cs s1 : forall t r lo prev,
  all_in cs s1 = true ->
  rep k cs (lo - len s1) None true (prev_after prev s1) t = Some r ->
  rep k cs lo None true prev (s1 +:+ t) = push_str s1 (Some r).
Proof.
  induction s1 as [|c s1 IH]; intros t r lo prev Hall Ht.
  - cbn [String.append push_str]. cbn [len String.length prev_after] in Ht.
    now rewrite Nat.sub_0_r in Ht.
  - cbn [all_in] in Hall. apply andb_prop in Hall as [Hc Hall].
    cbn [String.append rep push_str]. rewrite Hc. cbn [andb hi_allows hi_pred].
    rewrite (IH t r (pred lo) (Some c) Hall).
    + destruct r as [ts rest]. now rewrite push_str_some.
    + cbn [len String.length prev_after] in Ht.
      replace (pred lo - len s1) with (lo - S (len s1)) by lia. exact Ht.
Qed.

Lemma scan_skip ml p a : forall prev b,
  scan ml p (len a) prev (a +:+ b) = scan ml p 0 (prev_after prev a) b.
Proof.
  induction a as [|c a IH]; intros prev b; [reflexivity|].
  cbn [len String.length String.append scan prev_after]. apply IH.
Qed.

Lemma text_chars s : text (chars s) = s.
Proof. induction s as [|c s IH]; [reflexivity|]. cbn [chars text]. now rewrite IH. Qed.

Lemma last_char_eq x : forall y c d,
  x +:+ String c "" = y +:+ String d "" -> c = d.
Proof.
  induction x as [|a x IH]; intros [|b y] c d H; cbn [String.append] in H.
  - now injection H.
  - injection H as _ H. destruct y; discriminate.
  - injection H as _ H. destruct x; discriminate.
  - injection H as _ H. now apply (IH y).
Qed.

Lemma run_rep_eq ml cs lo hi g p prev s :
  run ml (Rep cs lo hi g :: p) prev s = rep (run ml p) cs lo hi g prev s.
Proof. reflexivity. Qed.

(** The pattern of the scraper on the link and the full stop: the match
    ends with the extension. *)
Lemma run_pdf_before_stop m :
  all_in url_char m = true -> nonempty m = true ->
  run false pdf_pattern None ("http://" +:+ m +:+ ".pdf" +:+ ".")
  = Some (chars ("http://" +:+ m +:+ ".pdf"), ".").
Proof.
  intros Hm Hne. unfold pdf_pattern. cbn [String.append].
  rewrite !run_one_in by reflexivity. rewrite run_opt_skip by reflexivity.
  rewrite !run_one_in by reflexivity. unfold plus. rewrite run_rep_eq.
  rewrite (rep_greedy_prefix _ _ m ".pdf." (chars ".pdf", ".")); try assumption.
  - rewrite push_str_some. cbn [push]. do 2 f_equal.
    cbn [chars]. do 7 f_equal. now rewrite chars_app.
  - destruct m as [|c m]; [discriminate|].
    cbn [len String.length Nat.sub]. reflexivity.
Qed.

(** The pattern of the report on the same text: the match takes the full
    stop too. *)
Lemma run_url_before_stop m :
  all_in url_char m = true -> nonempty m = true ->
  run false url_pattern None ("http://" +:+ m +:+ ".pdf" +:+ ".")
  = Some (chars ("http://" +:+ m +:+ ".pdf" +:+ "."), "").
Proof.
  intros Hm Hne. unfold url_pattern. cbn [String.append].
  rewrite !run_one_in by reflexivity. rewrite run_opt_skip by reflexivity.
  rewrite !run_one_in by reflexivity. unfold plus. rewrite run_rep_eq.
  rewrite <- (str_app_nil_r (m +:+ ".pdf.")) at 1.
  rewrite (rep_greedy_success _ _ _ _ ([], "")); try reflexivity.
  - rewrite push_str_some, app_nil_r. reflexivity.
  - rewrite all_in_app, Hm. reflexivity.
  - apply nonempty_len in Hne. pose proof (str_app_length m ".pdf.") as Hl.
    unfold len in *. rewrite Hl. lia.
Qed.

Lemma scan_first_match ml p c s ts a rest :
  run ml p None (String c s) = Some (ts, rest) ->
  text ts = String c a -> s = a +:+ rest ->
  scan ml p 0 None (String c s)
  = PMatch ts :: scan ml p 0 (prev_after (Some c) a) rest.
Proof.
  intros Hrun Ht ->. cbn [scan]. rewrite Hrun, Ht.
  cbn [len String.length]. now rewrite scan_skip.
Qed.

(** X28. A PDF link followed by a full stop, as at the end of a sentence:
    [extract_pdf_links] of scrape_pdfs.py returns the link, which is
    downloaded, while [extract_all_links] of verify_scraping.py returns
    the link with the full stop, which its test does not count as a PDF
    link. The two scripts disagree on such a link. *)
Theorem pdf_link_before_stop m :
  all_in url_char m = true -> nonempty m = true ->
  let link := "http://" +:+ m +:+ ".pdf" in
  extract_pdf_links (link +:+ ".") = [link]
  /\ extract_all_links (link +:+ ".") = {[ link +:+ "." ]}
  /\ is_pdf_link link = true
  /\ is_pdf_link (link +:+ ".") = false.
Proof.
  intros Hm Hne link.
  assert (Hlink : link +:+ "." = "http://" +:+ m +:+ ".pdf" +:+ ".")
    by (unfold link; now rewrite !str_app_assoc).
  rewrite Hlink. split; [|split; [|split]].
  - unfold extract_pdf_links, findall. cbn [String.append nonempty negb].
    erewrite scan_first_match;
      [| apply (run_pdf_before_stop m Hm Hne)
       | rewrite text_chars; reflexivity
       | cbn [String.append]; rewrite !str_app_assoc; reflexivity ].
    replace (scan false pdf_pattern 0 _ ".") with [PChr "."] by reflexivity.
    cbn [matches map unique_from]. rewrite text_chars.
    rewrite bool_decide_eq_true_2 by apply not_elem_of_empty. reflexivity.
  - unfold extract_all_links, findall. cbn [String.append nonempty negb].
    erewrite scan_first_match;
      [| apply (run_url_before_stop m Hm Hne)
       | rewrite text_chars; reflexivity
       | cbn [String.append]; rewrite str_app_nil_r; reflexivity ].
    replace (scan false url_pattern 0 _ "") with (@nil piece) by reflexivity.
    cbn [matches map]. rewrite text_chars.
    rewrite list_to_set_cons, list_to_set_nil. apply (right_id_L ∅ (∪)).
  - unfold is_pdf_link, link, lower.
    rewrite <- str_app_assoc, map_str_app. apply endswith_app.
  - unfold is_pdf_link, lower. apply not_true_is_false. intros H.
    apply endswith_inv in H as [a H].
    rewrite <- !str_app_assoc, map_str_app in H.
    change (map_str lower_char ".") with (String "." "") in H.
    change (a +:+ ".pdf") with (a +:+ ".pd" +:+ String "f" "") in H.
    rewrite <- (str_app_assoc a) in H.
    apply last_char_eq in H. discriminate H.
Qed.

Lemma pdf_link_before_stop_witness :
  extract_pdf_links "http://a.org/paper.pdf." = ["http://a.org/paper.pdf"]
  /\ is_pdf_link "http://a.org/paper.pdf." = false.
Proof.
  destruct (pdf_link_before_stop "a.org/paper" eq_refl eq_refl)
    as (H1 & _ & _ & H2).
  split; [exact H1 | exact H2].
Defined.

End LinkBeforeStop.
